(** * Pricing, cart and checkout logic of the storefront, verified

    A shallow embedding of the pricing and order-composition code of the
    storefront pages:

    - [ProductDetail]  (product page): [parseVariantOptions],
      [measurementValues], [effectivePrice], the cart line matcher [match_]
      and [addToCartMutation];
    - [Checkout] (checkout page): [subtotal], [discount], [total],
      [createSupabaseOrder] and [applyCouponMutation].

    Around them, the default selection of the product page, the quantity
    controls, the total and the mutations of the cart page ([Cart]),
    [placeOrderMutation], the hearts of the product page and of the product
    cards ([Wishlist]), the review mutations and the list of reviews
    ([Reviews], [ReviewList]), the profile page ([Profile]) and the related
    products ([RelatedProducts]).

    JavaScript numbers are IEEE 754 binary64 values, modelled by Rocq's
    primitive [float]; text is modelled by [string], holding the bytes of
    its UTF-8 encoding, so that [trim] strips every white space of
    ECMAScript, [toUpperCase] follows the case mapping of Unicode and
    [length] counts UTF-16 code units.
    The data store behind the pages is modelled as a record of tables
    that is threaded through every mutation. *)

From Stdlib Require Import Floats ZArith Bool List String Ascii Lia.
From Stdlib Require Import Permutation Sorted Orders Mergesort.
Import ListNotations.

Local Open Scope string_scope.
Local Open Scope list_scope.

Set Warnings "-register-all".

(* ================================================================== *)
(** * The JavaScript runtime the pages rely on *)
(* ================================================================== *)

Module Js.

(** ** Numbers *)

Definition number := float.

(** [Number.isNaN]. *)
Definition Number_isNaN (x : number) : bool := PrimFloat.is_nan x.

(** [ToBoolean] of a number: [+0], [-0] and [NaN] are falsy. *)
Definition truthy_num (x : number) : bool :=
  negb (PrimFloat.eqb x 0%float) && negb (PrimFloat.is_nan x).

Definition is_neg_zero (x : number) : bool :=
  match PrimFloat.classify x with
  | NZero => true
  | _ => false
  end.

(** [Math.min] of two numbers: [NaN] whenever one argument is [NaN], and
    [-0] counts as smaller than [+0]. *)
Definition Math_min (x y : number) : number :=
  if PrimFloat.is_nan x || PrimFloat.is_nan y then PrimFloat.nan
  else if PrimFloat.ltb x y then x
  else if PrimFloat.ltb y x then y
  else if is_neg_zero x then x else y.

Definition Infinity : number := PrimFloat.infinity.

(** [Math.max] of two numbers: [NaN] whenever one argument is [NaN], and
    [+0] counts as larger than [-0]. *)
Definition Math_max (x y : number) : number :=
  if PrimFloat.is_nan x || PrimFloat.is_nan y then PrimFloat.nan
  else if PrimFloat.ltb y x then x
  else if PrimFloat.ltb x y then y
  else if is_neg_zero x then y else x.

(** ** Values

    What a page sees of the data it fetches: JSON data, plus [undefined]
    for what is absent.  An object keeps one binding per key, in insertion
    order. *)

Inductive value : Type :=
| VUndefined
| VNull
| VBool (b : bool)
| VNum (x : number)
| VStr (s : string)
| VArr (items : list value)
| VObj (props : list (string * value)).

Inductive type_tag : Type :=
| TUndefined | TObject | TBoolean | TNumber | TString.

(** The [typeof] operator ([null] and arrays are ["object"]). *)
Definition typeof (v : value) : type_tag :=
  match v with
  | VUndefined => TUndefined
  | VNull => TObject
  | VBool _ => TBoolean
  | VNum _ => TNumber
  | VStr _ => TString
  | VArr _ => TObject
  | VObj _ => TObject
  end.

Definition is_string (v : value) : bool :=
  match v with VStr _ => true | _ => false end.

(** [ToBoolean]: what [if (v)], [!v], [v || w] and [Boolean(v)] test. *)
Definition truthy (v : value) : bool :=
  match v with
  | VUndefined | VNull => false
  | VBool b => b
  | VNum x => truthy_num x
  | VStr s => negb (s =? "")
  | VArr _ | VObj _ => true
  end.

Definition nullish (v : value) : bool :=
  match v with VUndefined | VNull => true | _ => false end.

(** [a ?? b]. *)
Definition coalesce (a b : value) : value := if nullish a then b else a.

(** [a || b]. *)
Definition or_else (a b : value) : value := if truthy a then a else b.

Fixpoint lookup (k : string) (props : list (string * value)) : value :=
  match props with
  | [] => VUndefined
  | (k', v) :: rest => if k =? k' then v else lookup k rest
  end.

(** [v?.k] for the data properties the pages read ([label], [price],
    [image_url]): an own property of an object, [undefined] on anything
    else (none of these names is a built-in property of a string, a
    number or an array). *)
Definition get (k : string) (v : value) : value :=
  match v with
  | VObj props => lookup k props
  | _ => VUndefined
  end.

(** [a === b].  Two objects or arrays are equal only when they are the
    same reference; the values compared by the pages come from different
    fetches, so two structured values are never the same reference. *)
Definition strict_eq (a b : value) : bool :=
  match a, b with
  | VUndefined, VUndefined => true
  | VNull, VNull => true
  | VBool x, VBool y => Bool.eqb x y
  | VNum x, VNum y => PrimFloat.eqb x y
  | VStr x, VStr y => x =? y
  | _, _ => false
  end.

(** ** Strings *)

(** Text is held by the bytes of its UTF-8 encoding.

    The ASCII part of ECMAScript's WhiteSpace and LineTerminator: TAB, LF,
    VT, FF, CR and SP. *)
Definition is_ws (c : ascii) : bool :=
  let n := nat_of_ascii c in
  ((9 <=? n) && (n <=? 13))%nat || (n =? 32)%nat.

(** The white space of ECMAScript that lies outside ASCII, by the bytes of
    its UTF-8 encoding: U+00A0 on two bytes, and on three bytes U+1680,
    U+2000 to U+200A, U+2028, U+2029, U+202F, U+205F, U+3000 and U+FEFF. *)
Definition is_ws2 (c d : ascii) : bool :=
  (nat_of_ascii c =? 194)%nat && (nat_of_ascii d =? 160)%nat.

Definition is_ws3 (c d e : ascii) : bool :=
  let c := nat_of_ascii c in
  let d := nat_of_ascii d in
  let e := nat_of_ascii e in
  ((c =? 225) && (d =? 154) && (e =? 128))%nat
  || ((c =? 226) && (d =? 128)
      && (((128 <=? e) && (e <=? 138)) || (e =? 168) || (e =? 169) || (e =? 175)))%nat
  || ((c =? 226) && (d =? 129) && (e =? 159))%nat
  || ((c =? 227) && (d =? 128) && (e =? 128))%nat
  || ((c =? 239) && (d =? 187) && (e =? 191))%nat.

(** The text after the white space character at the head of [s], if there
    is one. *)
Definition skip_ws_char (s : string) : option string :=
  match s with
  | String c r =>
      if is_ws c then Some r
      else
        match r with
        | String d r1 =>
            if is_ws2 c d then Some r1
            else
              match r1 with
              | String e r2 => if is_ws3 c d e then Some r2 else None
              | EmptyString => None
              end
        | EmptyString => None
        end
  | EmptyString => None
  end.

Fixpoint trimStart_from (fuel : nat) (s : string) : string :=
  match fuel with
  | O => s
  | S fuel' =>
      match skip_ws_char s with
      | Some rest => trimStart_from fuel' rest
      | None => s
      end
  end.

(** [s.trimStart()]: a text holds no more white space characters than
    bytes. *)
Definition trimStart (s : string) : string := trimStart_from (String.length s) s.

(** [s.trimEnd()], from the right: a character is dropped when it is white
    space and nothing is left after it. *)
Fixpoint trimEnd (s : string) : string :=
  match s with
  | String c rest =>
      let rest' := trimEnd rest in
      match skip_ws_char (String c rest') with
      | Some EmptyString => EmptyString
      | _ => String c rest'
      end
  | EmptyString => EmptyString
  end.

(** [s.trim()]. *)
Definition trim (s : string) : string := trimEnd (trimStart s).

(** [s.startsWith(p)]. *)
Definition startsWith (p s : string) : bool := String.prefix p s.

(** [s.includes(sub)]. *)
Fixpoint includes (sub s : string) : bool :=
  String.prefix sub s ||
  match s with
  | String _ rest => includes sub rest
  | EmptyString => false
  end.

(** The upper case of an ASCII character. *)
Definition upper_char (c : ascii) : ascii :=
  let n := nat_of_ascii c in
  if ((97 <=? n) && (n <=? 122))%nat then ascii_of_nat (n - 32) else c.

(** The characters outside ASCII whose upper case is another text, with
    that text (the full case mapping of Unicode 14, which is not sensitive
    to the context). *)
Definition upper_table : list (string * string) :=
  [("µ", "Μ"); ("ß", "SS"); ("à", "À"); ("á", "Á"); ("â", "Â");
   ("ã", "Ã"); ("ä", "Ä"); ("å", "Å"); ("æ", "Æ"); ("ç", "Ç");
   ("è", "È"); ("é", "É"); ("ê", "Ê"); ("ë", "Ë"); ("ì", "Ì");
   ("í", "Í"); ("î", "Î"); ("ï", "Ï"); ("ð", "Ð"); ("ñ", "Ñ");
   ("ò", "Ò"); ("ó", "Ó"); ("ô", "Ô"); ("õ", "Õ"); ("ö", "Ö");
   ("ø", "Ø"); ("ù", "Ù"); ("ú", "Ú"); ("û", "Û"); ("ü", "Ü");
   ("ý", "Ý"); ("þ", "Þ"); ("ÿ", "Ÿ"); ("ā", "Ā"); ("ă", "Ă");
   ("ą", "Ą"); ("ć", "Ć"); ("ĉ", "Ĉ"); ("ċ", "Ċ"); ("č", "Č");
   ("ď", "Ď"); ("đ", "Đ"); ("ē", "Ē"); ("ĕ", "Ĕ"); ("ė", "Ė");
   ("ę", "Ę"); ("ě", "Ě"); ("ĝ", "Ĝ"); ("ğ", "Ğ"); ("ġ", "Ġ");
   ("ģ", "Ģ"); ("ĥ", "Ĥ"); ("ħ", "Ħ"); ("ĩ", "Ĩ"); ("ī", "Ī");
   ("ĭ", "Ĭ"); ("į", "Į"); ("ı", "I"); ("ĳ", "Ĳ"); ("ĵ", "Ĵ");
   ("ķ", "Ķ"); ("ĺ", "Ĺ"); ("ļ", "Ļ"); ("ľ", "Ľ"); ("ŀ", "Ŀ");
   ("ł", "Ł"); ("ń", "Ń"); ("ņ", "Ņ"); ("ň", "Ň"); ("ŉ", "ʼN");
   ("ŋ", "Ŋ"); ("ō", "Ō"); ("ŏ", "Ŏ"); ("ő", "Ő"); ("œ", "Œ");
   ("ŕ", "Ŕ"); ("ŗ", "Ŗ"); ("ř", "Ř"); ("ś", "Ś"); ("ŝ", "Ŝ");
   ("ş", "Ş"); ("š", "Š"); ("ţ", "Ţ"); ("ť", "Ť"); ("ŧ", "Ŧ");
   ("ũ", "Ũ"); ("ū", "Ū"); ("ŭ", "Ŭ"); ("ů", "Ů"); ("ű", "Ű");
   ("ų", "Ų"); ("ŵ", "Ŵ"); ("ŷ", "Ŷ"); ("ź", "Ź"); ("ż", "Ż");
   ("ž", "Ž"); ("ſ", "S"); ("ƀ", "Ƀ"); ("ƃ", "Ƃ"); ("ƅ", "Ƅ");
   ("ƈ", "Ƈ"); ("ƌ", "Ƌ"); ("ƒ", "Ƒ"); ("ƕ", "Ƕ"); ("ƙ", "Ƙ");
   ("ƚ", "Ƚ"); ("ƞ", "Ƞ"); ("ơ", "Ơ"); ("ƣ", "Ƣ"); ("ƥ", "Ƥ");
   ("ƨ", "Ƨ"); ("ƭ", "Ƭ"); ("ư", "Ư"); ("ƴ", "Ƴ"); ("ƶ", "Ƶ");
   ("ƹ", "Ƹ"); ("ƽ", "Ƽ"); ("ƿ", "Ƿ"); ("ǅ", "Ǆ"); ("ǆ", "Ǆ");
   ("ǈ", "Ǉ"); ("ǉ", "Ǉ"); ("ǋ", "Ǌ"); ("ǌ", "Ǌ"); ("ǎ", "Ǎ");
   ("ǐ", "Ǐ"); ("ǒ", "Ǒ"); ("ǔ", "Ǔ"); ("ǖ", "Ǖ"); ("ǘ", "Ǘ");
   ("ǚ", "Ǚ"); ("ǜ", "Ǜ"); ("ǝ", "Ǝ"); ("ǟ", "Ǟ"); ("ǡ", "Ǡ");
   ("ǣ", "Ǣ"); ("ǥ", "Ǥ"); ("ǧ", "Ǧ"); ("ǩ", "Ǩ"); ("ǫ", "Ǫ");
   ("ǭ", "Ǭ"); ("ǯ", "Ǯ"); ("ǰ", "J̌"); ("ǲ", "Ǳ"); ("ǳ", "Ǳ");
   ("ǵ", "Ǵ"); ("ǹ", "Ǹ"); ("ǻ", "Ǻ"); ("ǽ", "Ǽ"); ("ǿ", "Ǿ");
   ("ȁ", "Ȁ"); ("ȃ", "Ȃ"); ("ȅ", "Ȅ"); ("ȇ", "Ȇ"); ("ȉ", "Ȉ");
   ("ȋ", "Ȋ"); ("ȍ", "Ȍ"); ("ȏ", "Ȏ"); ("ȑ", "Ȑ"); ("ȓ", "Ȓ");
   ("ȕ", "Ȕ"); ("ȗ", "Ȗ"); ("ș", "Ș"); ("ț", "Ț"); ("ȝ", "Ȝ");
   ("ȟ", "Ȟ"); ("ȣ", "Ȣ"); ("ȥ", "Ȥ"); ("ȧ", "Ȧ"); ("ȩ", "Ȩ");
   ("ȫ", "Ȫ"); ("ȭ", "Ȭ"); ("ȯ", "Ȯ"); ("ȱ", "Ȱ"); ("ȳ", "Ȳ");
   ("ȼ", "Ȼ"); ("ȿ", "Ȿ"); ("ɀ", "Ɀ"); ("ɂ", "Ɂ"); ("ɇ", "Ɇ");
   ("ɉ", "Ɉ"); ("ɋ", "Ɋ"); ("ɍ", "Ɍ"); ("ɏ", "Ɏ"); ("ɐ", "Ɐ");
   ("ɑ", "Ɑ"); ("ɒ", "Ɒ"); ("ɓ", "Ɓ"); ("ɔ", "Ɔ"); ("ɖ", "Ɖ");
   ("ɗ", "Ɗ"); ("ə", "Ə"); ("ɛ", "Ɛ"); ("ɜ", "Ɜ"); ("ɠ", "Ɠ");
   ("ɡ", "Ɡ"); ("ɣ", "Ɣ"); ("ɥ", "Ɥ"); ("ɦ", "Ɦ"); ("ɨ", "Ɨ");
   ("ɩ", "Ɩ"); ("ɪ", "Ɪ"); ("ɫ", "Ɫ"); ("ɬ", "Ɬ"); ("ɯ", "Ɯ");
   ("ɱ", "Ɱ"); ("ɲ", "Ɲ"); ("ɵ", "Ɵ"); ("ɽ", "Ɽ"); ("ʀ", "Ʀ");
   ("ʂ", "Ʂ"); ("ʃ", "Ʃ"); ("ʇ", "Ʇ"); ("ʈ", "Ʈ"); ("ʉ", "Ʉ");
   ("ʊ", "Ʊ"); ("ʋ", "Ʋ"); ("ʌ", "Ʌ"); ("ʒ", "Ʒ"); ("ʝ", "Ʝ");
   ("ʞ", "Ʞ"); ("ͅ", "Ι"); ("ͱ", "Ͱ"); ("ͳ", "Ͳ"); ("ͷ", "Ͷ");
   ("ͻ", "Ͻ"); ("ͼ", "Ͼ"); ("ͽ", "Ͽ"); ("ΐ", "Ϊ́"); ("ά", "Ά");
   ("έ", "Έ"); ("ή", "Ή"); ("ί", "Ί"); ("ΰ", "Ϋ́"); ("α", "Α");
   ("β", "Β"); ("γ", "Γ"); ("δ", "Δ"); ("ε", "Ε"); ("ζ", "Ζ");
   ("η", "Η"); ("θ", "Θ"); ("ι", "Ι"); ("κ", "Κ"); ("λ", "Λ");
   ("μ", "Μ"); ("ν", "Ν"); ("ξ", "Ξ"); ("ο", "Ο"); ("π", "Π");
   ("ρ", "Ρ"); ("ς", "Σ"); ("σ", "Σ"); ("τ", "Τ"); ("υ", "Υ");
   ("φ", "Φ"); ("χ", "Χ"); ("ψ", "Ψ"); ("ω", "Ω"); ("ϊ", "Ϊ");
   ("ϋ", "Ϋ"); ("ό", "Ό"); ("ύ", "Ύ"); ("ώ", "Ώ"); ("ϐ", "Β");
   ("ϑ", "Θ"); ("ϕ", "Φ"); ("ϖ", "Π"); ("ϗ", "Ϗ"); ("ϙ", "Ϙ");
   ("ϛ", "Ϛ"); ("ϝ", "Ϝ"); ("ϟ", "Ϟ"); ("ϡ", "Ϡ"); ("ϣ", "Ϣ");
   ("ϥ", "Ϥ"); ("ϧ", "Ϧ"); ("ϩ", "Ϩ"); ("ϫ", "Ϫ"); ("ϭ", "Ϭ");
   ("ϯ", "Ϯ"); ("ϰ", "Κ"); ("ϱ", "Ρ"); ("ϲ", "Ϲ"); ("ϳ", "Ϳ");
   ("ϵ", "Ε"); ("ϸ", "Ϸ"); ("ϻ", "Ϻ"); ("а", "А"); ("б", "Б");
   ("в", "В"); ("г", "Г"); ("д", "Д"); ("е", "Е"); ("ж", "Ж");
   ("з", "З"); ("и", "И"); ("й", "Й"); ("к", "К"); ("л", "Л");
   ("м", "М"); ("н", "Н"); ("о", "О"); ("п", "П"); ("р", "Р");
   ("с", "С"); ("т", "Т"); ("у", "У"); ("ф", "Ф"); ("х", "Х");
   ("ц", "Ц"); ("ч", "Ч"); ("ш", "Ш"); ("щ", "Щ"); ("ъ", "Ъ");
   ("ы", "Ы"); ("ь", "Ь"); ("э", "Э"); ("ю", "Ю"); ("я", "Я");
   ("ѐ", "Ѐ"); ("ё", "Ё"); ("ђ", "Ђ"); ("ѓ", "Ѓ"); ("є", "Є");
   ("ѕ", "Ѕ"); ("і", "І"); ("ї", "Ї"); ("ј", "Ј"); ("љ", "Љ");
   ("њ", "Њ"); ("ћ", "Ћ"); ("ќ", "Ќ"); ("ѝ", "Ѝ"); ("ў", "Ў");
   ("џ", "Џ"); ("ѡ", "Ѡ"); ("ѣ", "Ѣ"); ("ѥ", "Ѥ"); ("ѧ", "Ѧ");
   ("ѩ", "Ѩ"); ("ѫ", "Ѫ"); ("ѭ", "Ѭ"); ("ѯ", "Ѯ"); ("ѱ", "Ѱ");
   ("ѳ", "Ѳ"); ("ѵ", "Ѵ"); ("ѷ", "Ѷ"); ("ѹ", "Ѹ"); ("ѻ", "Ѻ");
   ("ѽ", "Ѽ"); ("ѿ", "Ѿ"); ("ҁ", "Ҁ"); ("ҋ", "Ҋ"); ("ҍ", "Ҍ");
   ("ҏ", "Ҏ"); ("ґ", "Ґ"); ("ғ", "Ғ"); ("ҕ", "Ҕ"); ("җ", "Җ");
   ("ҙ", "Ҙ"); ("қ", "Қ"); ("ҝ", "Ҝ"); ("ҟ", "Ҟ"); ("ҡ", "Ҡ");
   ("ң", "Ң"); ("ҥ", "Ҥ"); ("ҧ", "Ҧ"); ("ҩ", "Ҩ"); ("ҫ", "Ҫ");
   ("ҭ", "Ҭ"); ("ү", "Ү"); ("ұ", "Ұ"); ("ҳ", "Ҳ"); ("ҵ", "Ҵ");
   ("ҷ", "Ҷ"); ("ҹ", "Ҹ"); ("һ", "Һ"); ("ҽ", "Ҽ"); ("ҿ", "Ҿ");
   ("ӂ", "Ӂ"); ("ӄ", "Ӄ"); ("ӆ", "Ӆ"); ("ӈ", "Ӈ"); ("ӊ", "Ӊ");
   ("ӌ", "Ӌ"); ("ӎ", "Ӎ"); ("ӏ", "Ӏ"); ("ӑ", "Ӑ"); ("ӓ", "Ӓ");
   ("ӕ", "Ӕ"); ("ӗ", "Ӗ"); ("ә", "Ә"); ("ӛ", "Ӛ"); ("ӝ", "Ӝ");
   ("ӟ", "Ӟ"); ("ӡ", "Ӡ"); ("ӣ", "Ӣ"); ("ӥ", "Ӥ"); ("ӧ", "Ӧ");
   ("ө", "Ө"); ("ӫ", "Ӫ"); ("ӭ", "Ӭ"); ("ӯ", "Ӯ"); ("ӱ", "Ӱ");
   ("ӳ", "Ӳ"); ("ӵ", "Ӵ"); ("ӷ", "Ӷ"); ("ӹ", "Ӹ"); ("ӻ", "Ӻ");
   ("ӽ", "Ӽ"); ("ӿ", "Ӿ"); ("ԁ", "Ԁ"); ("ԃ", "Ԃ"); ("ԅ", "Ԅ");
   ("ԇ", "Ԇ"); ("ԉ", "Ԉ"); ("ԋ", "Ԋ"); ("ԍ", "Ԍ"); ("ԏ", "Ԏ");
   ("ԑ", "Ԑ"); ("ԓ", "Ԓ"); ("ԕ", "Ԕ"); ("ԗ", "Ԗ"); ("ԙ", "Ԙ");
   ("ԛ", "Ԛ"); ("ԝ", "Ԝ"); ("ԟ", "Ԟ"); ("ԡ", "Ԡ"); ("ԣ", "Ԣ");
   ("ԥ", "Ԥ"); ("ԧ", "Ԧ"); ("ԩ", "Ԩ"); ("ԫ", "Ԫ"); ("ԭ", "Ԭ");
   ("ԯ", "Ԯ"); ("ա", "Ա"); ("բ", "Բ"); ("գ", "Գ"); ("դ", "Դ");
   ("ե", "Ե"); ("զ", "Զ"); ("է", "Է"); ("ը", "Ը"); ("թ", "Թ");
   ("ժ", "Ժ"); ("ի", "Ի"); ("լ", "Լ"); ("խ", "Խ"); ("ծ", "Ծ");
   ("կ", "Կ"); ("հ", "Հ"); ("ձ", "Ձ"); ("ղ", "Ղ"); ("ճ", "Ճ");
   ("մ", "Մ"); ("յ", "Յ"); ("ն", "Ն"); ("շ", "Շ"); ("ո", "Ո");
   ("չ", "Չ"); ("պ", "Պ"); ("ջ", "Ջ"); ("ռ", "Ռ"); ("ս", "Ս");
   ("վ", "Վ"); ("տ", "Տ"); ("ր", "Ր"); ("ց", "Ց"); ("ւ", "Ւ");
   ("փ", "Փ"); ("ք", "Ք"); ("օ", "Օ"); ("ֆ", "Ֆ"); ("և", "ԵՒ");
   ("ა", "Ა"); ("ბ", "Ბ"); ("გ", "Გ"); ("დ", "Დ"); ("ე", "Ე");
   ("ვ", "Ვ"); ("ზ", "Ზ"); ("თ", "Თ"); ("ი", "Ი"); ("კ", "Კ");
   ("ლ", "Ლ"); ("მ", "Მ"); ("ნ", "Ნ"); ("ო", "Ო"); ("პ", "Პ");
   ("ჟ", "Ჟ"); ("რ", "Რ"); ("ს", "Ს"); ("ტ", "Ტ"); ("უ", "Უ");
   ("ფ", "Ფ"); ("ქ", "Ქ"); ("ღ", "Ღ"); ("ყ", "Ყ"); ("შ", "Შ");
   ("ჩ", "Ჩ"); ("ც", "Ც"); ("ძ", "Ძ"); ("წ", "Წ"); ("ჭ", "Ჭ");
   ("ხ", "Ხ"); ("ჯ", "Ჯ"); ("ჰ", "Ჰ"); ("ჱ", "Ჱ"); ("ჲ", "Ჲ");
   ("ჳ", "Ჳ"); ("ჴ", "Ჴ"); ("ჵ", "Ჵ"); ("ჶ", "Ჶ"); ("ჷ", "Ჷ");
   ("ჸ", "Ჸ"); ("ჹ", "Ჹ"); ("ჺ", "Ჺ"); ("ჽ", "Ჽ"); ("ჾ", "Ჾ");
   ("ჿ", "Ჿ"); ("ᏸ", "Ᏸ"); ("ᏹ", "Ᏹ"); ("ᏺ", "Ᏺ"); ("ᏻ", "Ᏻ");
   ("ᏼ", "Ᏼ"); ("ᏽ", "Ᏽ"); ("ᲀ", "В"); ("ᲁ", "Д"); ("ᲂ", "О");
   ("ᲃ", "С"); ("ᲄ", "Т"); ("ᲅ", "Т"); ("ᲆ", "Ъ"); ("ᲇ", "Ѣ");
   ("ᲈ", "Ꙋ"); ("ᵹ", "Ᵹ"); ("ᵽ", "Ᵽ"); ("ᶎ", "Ᶎ"); ("ḁ", "Ḁ");
   ("ḃ", "Ḃ"); ("ḅ", "Ḅ"); ("ḇ", "Ḇ"); ("ḉ", "Ḉ"); ("ḋ", "Ḋ");
   ("ḍ", "Ḍ"); ("ḏ", "Ḏ"); ("ḑ", "Ḑ"); ("ḓ", "Ḓ"); ("ḕ", "Ḕ");
   ("ḗ", "Ḗ"); ("ḙ", "Ḙ"); ("ḛ", "Ḛ"); ("ḝ", "Ḝ"); ("ḟ", "Ḟ");
   ("ḡ", "Ḡ"); ("ḣ", "Ḣ"); ("ḥ", "Ḥ"); ("ḧ", "Ḧ"); ("ḩ", "Ḩ");
   ("ḫ", "Ḫ"); ("ḭ", "Ḭ"); ("ḯ", "Ḯ"); ("ḱ", "Ḱ"); ("ḳ", "Ḳ");
   ("ḵ", "Ḵ"); ("ḷ", "Ḷ"); ("ḹ", "Ḹ"); ("ḻ", "Ḻ"); ("ḽ", "Ḽ");
   ("ḿ", "Ḿ"); ("ṁ", "Ṁ"); ("ṃ", "Ṃ"); ("ṅ", "Ṅ"); ("ṇ", "Ṇ");
   ("ṉ", "Ṉ"); ("ṋ", "Ṋ"); ("ṍ", "Ṍ"); ("ṏ", "Ṏ"); ("ṑ", "Ṑ");
   ("ṓ", "Ṓ"); ("ṕ", "Ṕ"); ("ṗ", "Ṗ"); ("ṙ", "Ṙ"); ("ṛ", "Ṛ");
   ("ṝ", "Ṝ"); ("ṟ", "Ṟ"); ("ṡ", "Ṡ"); ("ṣ", "Ṣ"); ("ṥ", "Ṥ");
   ("ṧ", "Ṧ"); ("ṩ", "Ṩ"); ("ṫ", "Ṫ"); ("ṭ", "Ṭ"); ("ṯ", "Ṯ");
   ("ṱ", "Ṱ"); ("ṳ", "Ṳ"); ("ṵ", "Ṵ"); ("ṷ", "Ṷ"); ("ṹ", "Ṹ");
   ("ṻ", "Ṻ"); ("ṽ", "Ṽ"); ("ṿ", "Ṿ"); ("ẁ", "Ẁ"); ("ẃ", "Ẃ");
   ("ẅ", "Ẅ"); ("ẇ", "Ẇ"); ("ẉ", "Ẉ"); ("ẋ", "Ẋ"); ("ẍ", "Ẍ");
   ("ẏ", "Ẏ"); ("ẑ", "Ẑ"); ("ẓ", "Ẓ"); ("ẕ", "Ẕ"); ("ẖ", "H̱");
   ("ẗ", "T̈"); ("ẘ", "W̊"); ("ẙ", "Y̊"); ("ẚ", "Aʾ"); ("ẛ", "Ṡ");
   ("ạ", "Ạ"); ("ả", "Ả"); ("ấ", "Ấ"); ("ầ", "Ầ"); ("ẩ", "Ẩ");
   ("ẫ", "Ẫ"); ("ậ", "Ậ"); ("ắ", "Ắ"); ("ằ", "Ằ"); ("ẳ", "Ẳ");
   ("ẵ", "Ẵ"); ("ặ", "Ặ"); ("ẹ", "Ẹ"); ("ẻ", "Ẻ"); ("ẽ", "Ẽ");
   ("ế", "Ế"); ("ề", "Ề"); ("ể", "Ể"); ("ễ", "Ễ"); ("ệ", "Ệ");
   ("ỉ", "Ỉ"); ("ị", "Ị"); ("ọ", "Ọ"); ("ỏ", "Ỏ"); ("ố", "Ố");
   ("ồ", "Ồ"); ("ổ", "Ổ"); ("ỗ", "Ỗ"); ("ộ", "Ộ"); ("ớ", "Ớ");
   ("ờ", "Ờ"); ("ở", "Ở"); ("ỡ", "Ỡ"); ("ợ", "Ợ"); ("ụ", "Ụ");
   ("ủ", "Ủ"); ("ứ", "Ứ"); ("ừ", "Ừ"); ("ử", "Ử"); ("ữ", "Ữ");
   ("ự", "Ự"); ("ỳ", "Ỳ"); ("ỵ", "Ỵ"); ("ỷ", "Ỷ"); ("ỹ", "Ỹ");
   ("ỻ", "Ỻ"); ("ỽ", "Ỽ"); ("ỿ", "Ỿ"); ("ἀ", "Ἀ"); ("ἁ", "Ἁ");
   ("ἂ", "Ἂ"); ("ἃ", "Ἃ"); ("ἄ", "Ἄ"); ("ἅ", "Ἅ"); ("ἆ", "Ἆ");
   ("ἇ", "Ἇ"); ("ἐ", "Ἐ"); ("ἑ", "Ἑ"); ("ἒ", "Ἒ"); ("ἓ", "Ἓ");
   ("ἔ", "Ἔ"); ("ἕ", "Ἕ"); ("ἠ", "Ἠ"); ("ἡ", "Ἡ"); ("ἢ", "Ἢ");
   ("ἣ", "Ἣ"); ("ἤ", "Ἤ"); ("ἥ", "Ἥ"); ("ἦ", "Ἦ"); ("ἧ", "Ἧ");
   ("ἰ", "Ἰ"); ("ἱ", "Ἱ"); ("ἲ", "Ἲ"); ("ἳ", "Ἳ"); ("ἴ", "Ἴ");
   ("ἵ", "Ἵ"); ("ἶ", "Ἶ"); ("ἷ", "Ἷ"); ("ὀ", "Ὀ"); ("ὁ", "Ὁ");
   ("ὂ", "Ὂ"); ("ὃ", "Ὃ"); ("ὄ", "Ὄ"); ("ὅ", "Ὅ"); ("ὐ", "Υ̓");
   ("ὑ", "Ὑ"); ("ὒ", "Υ̓̀"); ("ὓ", "Ὓ"); ("ὔ", "Υ̓́"); ("ὕ", "Ὕ");
   ("ὖ", "Υ̓͂"); ("ὗ", "Ὗ"); ("ὠ", "Ὠ"); ("ὡ", "Ὡ"); ("ὢ", "Ὢ");
   ("ὣ", "Ὣ"); ("ὤ", "Ὤ"); ("ὥ", "Ὥ"); ("ὦ", "Ὦ"); ("ὧ", "Ὧ");
   ("ὰ", "Ὰ"); ("ά", "Ά"); ("ὲ", "Ὲ"); ("έ", "Έ"); ("ὴ", "Ὴ");
   ("ή", "Ή"); ("ὶ", "Ὶ"); ("ί", "Ί"); ("ὸ", "Ὸ"); ("ό", "Ό");
   ("ὺ", "Ὺ"); ("ύ", "Ύ"); ("ὼ", "Ὼ"); ("ώ", "Ώ"); ("ᾀ", "ἈΙ");
   ("ᾁ", "ἉΙ"); ("ᾂ", "ἊΙ"); ("ᾃ", "ἋΙ"); ("ᾄ", "ἌΙ"); ("ᾅ", "ἍΙ");
   ("ᾆ", "ἎΙ"); ("ᾇ", "ἏΙ"); ("ᾈ", "ἈΙ"); ("ᾉ", "ἉΙ"); ("ᾊ", "ἊΙ");
   ("ᾋ", "ἋΙ"); ("ᾌ", "ἌΙ"); ("ᾍ", "ἍΙ"); ("ᾎ", "ἎΙ"); ("ᾏ", "ἏΙ");
   ("ᾐ", "ἨΙ"); ("ᾑ", "ἩΙ"); ("ᾒ", "ἪΙ"); ("ᾓ", "ἫΙ"); ("ᾔ", "ἬΙ");
   ("ᾕ", "ἭΙ"); ("ᾖ", "ἮΙ"); ("ᾗ", "ἯΙ"); ("ᾘ", "ἨΙ"); ("ᾙ", "ἩΙ");
   ("ᾚ", "ἪΙ"); ("ᾛ", "ἫΙ"); ("ᾜ", "ἬΙ"); ("ᾝ", "ἭΙ"); ("ᾞ", "ἮΙ");
   ("ᾟ", "ἯΙ"); ("ᾠ", "ὨΙ"); ("ᾡ", "ὩΙ"); ("ᾢ", "ὪΙ"); ("ᾣ", "ὫΙ");
   ("ᾤ", "ὬΙ"); ("ᾥ", "ὭΙ"); ("ᾦ", "ὮΙ"); ("ᾧ", "ὯΙ"); ("ᾨ", "ὨΙ");
   ("ᾩ", "ὩΙ"); ("ᾪ", "ὪΙ"); ("ᾫ", "ὫΙ"); ("ᾬ", "ὬΙ"); ("ᾭ", "ὭΙ");
   ("ᾮ", "ὮΙ"); ("ᾯ", "ὯΙ"); ("ᾰ", "Ᾰ"); ("ᾱ", "Ᾱ"); ("ᾲ", "ᾺΙ");
   ("ᾳ", "ΑΙ"); ("ᾴ", "ΆΙ"); ("ᾶ", "Α͂"); ("ᾷ", "Α͂Ι"); ("ᾼ", "ΑΙ");
   ("ι", "Ι"); ("ῂ", "ῊΙ"); ("ῃ", "ΗΙ"); ("ῄ", "ΉΙ"); ("ῆ", "Η͂");
   ("ῇ", "Η͂Ι"); ("ῌ", "ΗΙ"); ("ῐ", "Ῐ"); ("ῑ", "Ῑ"); ("ῒ", "Ϊ̀");
   ("ΐ", "Ϊ́"); ("ῖ", "Ι͂"); ("ῗ", "Ϊ͂"); ("ῠ", "Ῠ"); ("ῡ", "Ῡ");
   ("ῢ", "Ϋ̀"); ("ΰ", "Ϋ́"); ("ῤ", "Ρ̓"); ("ῥ", "Ῥ"); ("ῦ", "Υ͂");
   ("ῧ", "Ϋ͂"); ("ῲ", "ῺΙ"); ("ῳ", "ΩΙ"); ("ῴ", "ΏΙ"); ("ῶ", "Ω͂");
   ("ῷ", "Ω͂Ι"); ("ῼ", "ΩΙ"); ("ⅎ", "Ⅎ"); ("ⅰ", "Ⅰ"); ("ⅱ", "Ⅱ");
   ("ⅲ", "Ⅲ"); ("ⅳ", "Ⅳ"); ("ⅴ", "Ⅴ"); ("ⅵ", "Ⅵ"); ("ⅶ", "Ⅶ");
   ("ⅷ", "Ⅷ"); ("ⅸ", "Ⅸ"); ("ⅹ", "Ⅹ"); ("ⅺ", "Ⅺ"); ("ⅻ", "Ⅻ");
   ("ⅼ", "Ⅼ"); ("ⅽ", "Ⅽ"); ("ⅾ", "Ⅾ"); ("ⅿ", "Ⅿ"); ("ↄ", "Ↄ");
   ("ⓐ", "Ⓐ"); ("ⓑ", "Ⓑ"); ("ⓒ", "Ⓒ"); ("ⓓ", "Ⓓ"); ("ⓔ", "Ⓔ");
   ("ⓕ", "Ⓕ"); ("ⓖ", "Ⓖ"); ("ⓗ", "Ⓗ"); ("ⓘ", "Ⓘ"); ("ⓙ", "Ⓙ");
   ("ⓚ", "Ⓚ"); ("ⓛ", "Ⓛ"); ("ⓜ", "Ⓜ"); ("ⓝ", "Ⓝ"); ("ⓞ", "Ⓞ");
   ("ⓟ", "Ⓟ"); ("ⓠ", "Ⓠ"); ("ⓡ", "Ⓡ"); ("ⓢ", "Ⓢ"); ("ⓣ", "Ⓣ");
   ("ⓤ", "Ⓤ"); ("ⓥ", "Ⓥ"); ("ⓦ", "Ⓦ"); ("ⓧ", "Ⓧ"); ("ⓨ", "Ⓨ");
   ("ⓩ", "Ⓩ"); ("ⰰ", "Ⰰ"); ("ⰱ", "Ⰱ"); ("ⰲ", "Ⰲ"); ("ⰳ", "Ⰳ");
   ("ⰴ", "Ⰴ"); ("ⰵ", "Ⰵ"); ("ⰶ", "Ⰶ"); ("ⰷ", "Ⰷ"); ("ⰸ", "Ⰸ");
   ("ⰹ", "Ⰹ"); ("ⰺ", "Ⰺ"); ("ⰻ", "Ⰻ"); ("ⰼ", "Ⰼ"); ("ⰽ", "Ⰽ");
   ("ⰾ", "Ⰾ"); ("ⰿ", "Ⰿ"); ("ⱀ", "Ⱀ"); ("ⱁ", "Ⱁ"); ("ⱂ", "Ⱂ");
   ("ⱃ", "Ⱃ"); ("ⱄ", "Ⱄ"); ("ⱅ", "Ⱅ"); ("ⱆ", "Ⱆ"); ("ⱇ", "Ⱇ");
   ("ⱈ", "Ⱈ"); ("ⱉ", "Ⱉ"); ("ⱊ", "Ⱊ"); ("ⱋ", "Ⱋ"); ("ⱌ", "Ⱌ");
   ("ⱍ", "Ⱍ"); ("ⱎ", "Ⱎ"); ("ⱏ", "Ⱏ"); ("ⱐ", "Ⱐ"); ("ⱑ", "Ⱑ");
   ("ⱒ", "Ⱒ"); ("ⱓ", "Ⱓ"); ("ⱔ", "Ⱔ"); ("ⱕ", "Ⱕ"); ("ⱖ", "Ⱖ");
   ("ⱗ", "Ⱗ"); ("ⱘ", "Ⱘ"); ("ⱙ", "Ⱙ"); ("ⱚ", "Ⱚ"); ("ⱛ", "Ⱛ");
   ("ⱜ", "Ⱜ"); ("ⱝ", "Ⱝ"); ("ⱞ", "Ⱞ"); ("ⱟ", "Ⱟ"); ("ⱡ", "Ⱡ");
   ("ⱥ", "Ⱥ"); ("ⱦ", "Ⱦ"); ("ⱨ", "Ⱨ"); ("ⱪ", "Ⱪ"); ("ⱬ", "Ⱬ");
   ("ⱳ", "Ⱳ"); ("ⱶ", "Ⱶ"); ("ⲁ", "Ⲁ"); ("ⲃ", "Ⲃ"); ("ⲅ", "Ⲅ");
   ("ⲇ", "Ⲇ"); ("ⲉ", "Ⲉ"); ("ⲋ", "Ⲋ"); ("ⲍ", "Ⲍ"); ("ⲏ", "Ⲏ");
   ("ⲑ", "Ⲑ"); ("ⲓ", "Ⲓ"); ("ⲕ", "Ⲕ"); ("ⲗ", "Ⲗ"); ("ⲙ", "Ⲙ");
   ("ⲛ", "Ⲛ"); ("ⲝ", "Ⲝ"); ("ⲟ", "Ⲟ"); ("ⲡ", "Ⲡ"); ("ⲣ", "Ⲣ");
   ("ⲥ", "Ⲥ"); ("ⲧ", "Ⲧ"); ("ⲩ", "Ⲩ"); ("ⲫ", "Ⲫ"); ("ⲭ", "Ⲭ");
   ("ⲯ", "Ⲯ"); ("ⲱ", "Ⲱ"); ("ⲳ", "Ⲳ"); ("ⲵ", "Ⲵ"); ("ⲷ", "Ⲷ");
   ("ⲹ", "Ⲹ"); ("ⲻ", "Ⲻ"); ("ⲽ", "Ⲽ"); ("ⲿ", "Ⲿ"); ("ⳁ", "Ⳁ");
   ("ⳃ", "Ⳃ"); ("ⳅ", "Ⳅ"); ("ⳇ", "Ⳇ"); ("ⳉ", "Ⳉ"); ("ⳋ", "Ⳋ");
   ("ⳍ", "Ⳍ"); ("ⳏ", "Ⳏ"); ("ⳑ", "Ⳑ"); ("ⳓ", "Ⳓ"); ("ⳕ", "Ⳕ");
   ("ⳗ", "Ⳗ"); ("ⳙ", "Ⳙ"); ("ⳛ", "Ⳛ"); ("ⳝ", "Ⳝ"); ("ⳟ", "Ⳟ");
   ("ⳡ", "Ⳡ"); ("ⳣ", "Ⳣ"); ("ⳬ", "Ⳬ"); ("ⳮ", "Ⳮ"); ("ⳳ", "Ⳳ");
   ("ⴀ", "Ⴀ"); ("ⴁ", "Ⴁ"); ("ⴂ", "Ⴂ"); ("ⴃ", "Ⴃ"); ("ⴄ", "Ⴄ");
   ("ⴅ", "Ⴅ"); ("ⴆ", "Ⴆ"); ("ⴇ", "Ⴇ"); ("ⴈ", "Ⴈ"); ("ⴉ", "Ⴉ");
   ("ⴊ", "Ⴊ"); ("ⴋ", "Ⴋ"); ("ⴌ", "Ⴌ"); ("ⴍ", "Ⴍ"); ("ⴎ", "Ⴎ");
   ("ⴏ", "Ⴏ"); ("ⴐ", "Ⴐ"); ("ⴑ", "Ⴑ"); ("ⴒ", "Ⴒ"); ("ⴓ", "Ⴓ");
   ("ⴔ", "Ⴔ"); ("ⴕ", "Ⴕ"); ("ⴖ", "Ⴖ"); ("ⴗ", "Ⴗ"); ("ⴘ", "Ⴘ");
   ("ⴙ", "Ⴙ"); ("ⴚ", "Ⴚ"); ("ⴛ", "Ⴛ"); ("ⴜ", "Ⴜ"); ("ⴝ", "Ⴝ");
   ("ⴞ", "Ⴞ"); ("ⴟ", "Ⴟ"); ("ⴠ", "Ⴠ"); ("ⴡ", "Ⴡ"); ("ⴢ", "Ⴢ");
   ("ⴣ", "Ⴣ"); ("ⴤ", "Ⴤ"); ("ⴥ", "Ⴥ"); ("ⴧ", "Ⴧ"); ("ⴭ", "Ⴭ");
   ("ꙁ", "Ꙁ"); ("ꙃ", "Ꙃ"); ("ꙅ", "Ꙅ"); ("ꙇ", "Ꙇ"); ("ꙉ", "Ꙉ");
   ("ꙋ", "Ꙋ"); ("ꙍ", "Ꙍ"); ("ꙏ", "Ꙏ"); ("ꙑ", "Ꙑ"); ("ꙓ", "Ꙓ");
   ("ꙕ", "Ꙕ"); ("ꙗ", "Ꙗ"); ("ꙙ", "Ꙙ"); ("ꙛ", "Ꙛ"); ("ꙝ", "Ꙝ");
   ("ꙟ", "Ꙟ"); ("ꙡ", "Ꙡ"); ("ꙣ", "Ꙣ"); ("ꙥ", "Ꙥ"); ("ꙧ", "Ꙧ");
   ("ꙩ", "Ꙩ"); ("ꙫ", "Ꙫ"); ("ꙭ", "Ꙭ"); ("ꚁ", "Ꚁ"); ("ꚃ", "Ꚃ");
   ("ꚅ", "Ꚅ"); ("ꚇ", "Ꚇ"); ("ꚉ", "Ꚉ"); ("ꚋ", "Ꚋ"); ("ꚍ", "Ꚍ");
   ("ꚏ", "Ꚏ"); ("ꚑ", "Ꚑ"); ("ꚓ", "Ꚓ"); ("ꚕ", "Ꚕ"); ("ꚗ", "Ꚗ");
   ("ꚙ", "Ꚙ"); ("ꚛ", "Ꚛ"); ("ꜣ", "Ꜣ"); ("ꜥ", "Ꜥ"); ("ꜧ", "Ꜧ");
   ("ꜩ", "Ꜩ"); ("ꜫ", "Ꜫ"); ("ꜭ", "Ꜭ"); ("ꜯ", "Ꜯ"); ("ꜳ", "Ꜳ");
   ("ꜵ", "Ꜵ"); ("ꜷ", "Ꜷ"); ("ꜹ", "Ꜹ"); ("ꜻ", "Ꜻ"); ("ꜽ", "Ꜽ");
   ("ꜿ", "Ꜿ"); ("ꝁ", "Ꝁ"); ("ꝃ", "Ꝃ"); ("ꝅ", "Ꝅ"); ("ꝇ", "Ꝇ");
   ("ꝉ", "Ꝉ"); ("ꝋ", "Ꝋ"); ("ꝍ", "Ꝍ"); ("ꝏ", "Ꝏ"); ("ꝑ", "Ꝑ");
   ("ꝓ", "Ꝓ"); ("ꝕ", "Ꝕ"); ("ꝗ", "Ꝗ"); ("ꝙ", "Ꝙ"); ("ꝛ", "Ꝛ");
   ("ꝝ", "Ꝝ"); ("ꝟ", "Ꝟ"); ("ꝡ", "Ꝡ"); ("ꝣ", "Ꝣ"); ("ꝥ", "Ꝥ");
   ("ꝧ", "Ꝧ"); ("ꝩ", "Ꝩ"); ("ꝫ", "Ꝫ"); ("ꝭ", "Ꝭ"); ("ꝯ", "Ꝯ");
   ("ꝺ", "Ꝺ"); ("ꝼ", "Ꝼ"); ("ꝿ", "Ꝿ"); ("ꞁ", "Ꞁ"); ("ꞃ", "Ꞃ");
   ("ꞅ", "Ꞅ"); ("ꞇ", "Ꞇ"); ("ꞌ", "Ꞌ"); ("ꞑ", "Ꞑ"); ("ꞓ", "Ꞓ");
   ("ꞔ", "Ꞔ"); ("ꞗ", "Ꞗ"); ("ꞙ", "Ꞙ"); ("ꞛ", "Ꞛ"); ("ꞝ", "Ꞝ");
   ("ꞟ", "Ꞟ"); ("ꞡ", "Ꞡ"); ("ꞣ", "Ꞣ"); ("ꞥ", "Ꞥ"); ("ꞧ", "Ꞧ");
   ("ꞩ", "Ꞩ"); ("ꞵ", "Ꞵ"); ("ꞷ", "Ꞷ"); ("ꞹ", "Ꞹ"); ("ꞻ", "Ꞻ");
   ("ꞽ", "Ꞽ"); ("ꞿ", "Ꞿ"); ("ꟁ", "Ꟁ"); ("ꟃ", "Ꟃ"); ("ꟈ", "Ꟈ");
   ("ꟊ", "Ꟊ"); ("ꟑ", "Ꟑ"); ("ꟗ", "Ꟗ"); ("ꟙ", "Ꟙ"); ("ꟶ", "Ꟶ");
   ("ꭓ", "Ꭓ"); ("ꭰ", "Ꭰ"); ("ꭱ", "Ꭱ"); ("ꭲ", "Ꭲ"); ("ꭳ", "Ꭳ");
   ("ꭴ", "Ꭴ"); ("ꭵ", "Ꭵ"); ("ꭶ", "Ꭶ"); ("ꭷ", "Ꭷ"); ("ꭸ", "Ꭸ");
   ("ꭹ", "Ꭹ"); ("ꭺ", "Ꭺ"); ("ꭻ", "Ꭻ"); ("ꭼ", "Ꭼ"); ("ꭽ", "Ꭽ");
   ("ꭾ", "Ꭾ"); ("ꭿ", "Ꭿ"); ("ꮀ", "Ꮀ"); ("ꮁ", "Ꮁ"); ("ꮂ", "Ꮂ");
   ("ꮃ", "Ꮃ"); ("ꮄ", "Ꮄ"); ("ꮅ", "Ꮅ"); ("ꮆ", "Ꮆ"); ("ꮇ", "Ꮇ");
   ("ꮈ", "Ꮈ"); ("ꮉ", "Ꮉ"); ("ꮊ", "Ꮊ"); ("ꮋ", "Ꮋ"); ("ꮌ", "Ꮌ");
   ("ꮍ", "Ꮍ"); ("ꮎ", "Ꮎ"); ("ꮏ", "Ꮏ"); ("ꮐ", "Ꮐ"); ("ꮑ", "Ꮑ");
   ("ꮒ", "Ꮒ"); ("ꮓ", "Ꮓ"); ("ꮔ", "Ꮔ"); ("ꮕ", "Ꮕ"); ("ꮖ", "Ꮖ");
   ("ꮗ", "Ꮗ"); ("ꮘ", "Ꮘ"); ("ꮙ", "Ꮙ"); ("ꮚ", "Ꮚ"); ("ꮛ", "Ꮛ");
   ("ꮜ", "Ꮜ"); ("ꮝ", "Ꮝ"); ("ꮞ", "Ꮞ"); ("ꮟ", "Ꮟ"); ("ꮠ", "Ꮠ");
   ("ꮡ", "Ꮡ"); ("ꮢ", "Ꮢ"); ("ꮣ", "Ꮣ"); ("ꮤ", "Ꮤ"); ("ꮥ", "Ꮥ");
   ("ꮦ", "Ꮦ"); ("ꮧ", "Ꮧ"); ("ꮨ", "Ꮨ"); ("ꮩ", "Ꮩ"); ("ꮪ", "Ꮪ");
   ("ꮫ", "Ꮫ"); ("ꮬ", "Ꮬ"); ("ꮭ", "Ꮭ"); ("ꮮ", "Ꮮ"); ("ꮯ", "Ꮯ");
   ("ꮰ", "Ꮰ"); ("ꮱ", "Ꮱ"); ("ꮲ", "Ꮲ"); ("ꮳ", "Ꮳ"); ("ꮴ", "Ꮴ");
   ("ꮵ", "Ꮵ"); ("ꮶ", "Ꮶ"); ("ꮷ", "Ꮷ"); ("ꮸ", "Ꮸ"); ("ꮹ", "Ꮹ");
   ("ꮺ", "Ꮺ"); ("ꮻ", "Ꮻ"); ("ꮼ", "Ꮼ"); ("ꮽ", "Ꮽ"); ("ꮾ", "Ꮾ");
   ("ꮿ", "Ꮿ"); ("ﬀ", "FF"); ("ﬁ", "FI"); ("ﬂ", "FL"); ("ﬃ", "FFI");
   ("ﬄ", "FFL"); ("ﬅ", "ST"); ("ﬆ", "ST"); ("ﬓ", "ՄՆ"); ("ﬔ", "ՄԵ");
   ("ﬕ", "ՄԻ"); ("ﬖ", "ՎՆ"); ("ﬗ", "ՄԽ"); ("ａ", "Ａ"); ("ｂ", "Ｂ");
   ("ｃ", "Ｃ"); ("ｄ", "Ｄ"); ("ｅ", "Ｅ"); ("ｆ", "Ｆ"); ("ｇ", "Ｇ");
   ("ｈ", "Ｈ"); ("ｉ", "Ｉ"); ("ｊ", "Ｊ"); ("ｋ", "Ｋ"); ("ｌ", "Ｌ");
   ("ｍ", "Ｍ"); ("ｎ", "Ｎ"); ("ｏ", "Ｏ"); ("ｐ", "Ｐ"); ("ｑ", "Ｑ");
   ("ｒ", "Ｒ"); ("ｓ", "Ｓ"); ("ｔ", "Ｔ"); ("ｕ", "Ｕ"); ("ｖ", "Ｖ");
   ("ｗ", "Ｗ"); ("ｘ", "Ｘ"); ("ｙ", "Ｙ"); ("ｚ", "Ｚ"); ("𐐨", "𐐀");
   ("𐐩", "𐐁"); ("𐐪", "𐐂"); ("𐐫", "𐐃"); ("𐐬", "𐐄"); ("𐐭", "𐐅");
   ("𐐮", "𐐆"); ("𐐯", "𐐇"); ("𐐰", "𐐈"); ("𐐱", "𐐉"); ("𐐲", "𐐊");
   ("𐐳", "𐐋"); ("𐐴", "𐐌"); ("𐐵", "𐐍"); ("𐐶", "𐐎"); ("𐐷", "𐐏");
   ("𐐸", "𐐐"); ("𐐹", "𐐑"); ("𐐺", "𐐒"); ("𐐻", "𐐓"); ("𐐼", "𐐔");
   ("𐐽", "𐐕"); ("𐐾", "𐐖"); ("𐐿", "𐐗"); ("𐑀", "𐐘"); ("𐑁", "𐐙");
   ("𐑂", "𐐚"); ("𐑃", "𐐛"); ("𐑄", "𐐜"); ("𐑅", "𐐝"); ("𐑆", "𐐞");
   ("𐑇", "𐐟"); ("𐑈", "𐐠"); ("𐑉", "𐐡"); ("𐑊", "𐐢"); ("𐑋", "𐐣");
   ("𐑌", "𐐤"); ("𐑍", "𐐥"); ("𐑎", "𐐦"); ("𐑏", "𐐧"); ("𐓘", "𐒰");
   ("𐓙", "𐒱"); ("𐓚", "𐒲"); ("𐓛", "𐒳"); ("𐓜", "𐒴"); ("𐓝", "𐒵");
   ("𐓞", "𐒶"); ("𐓟", "𐒷"); ("𐓠", "𐒸"); ("𐓡", "𐒹"); ("𐓢", "𐒺");
   ("𐓣", "𐒻"); ("𐓤", "𐒼"); ("𐓥", "𐒽"); ("𐓦", "𐒾"); ("𐓧", "𐒿");
   ("𐓨", "𐓀"); ("𐓩", "𐓁"); ("𐓪", "𐓂"); ("𐓫", "𐓃"); ("𐓬", "𐓄");
   ("𐓭", "𐓅"); ("𐓮", "𐓆"); ("𐓯", "𐓇"); ("𐓰", "𐓈"); ("𐓱", "𐓉");
   ("𐓲", "𐓊"); ("𐓳", "𐓋"); ("𐓴", "𐓌"); ("𐓵", "𐓍"); ("𐓶", "𐓎");
   ("𐓷", "𐓏"); ("𐓸", "𐓐"); ("𐓹", "𐓑"); ("𐓺", "𐓒"); ("𐓻", "𐓓");
   ("𐖗", "𐕰"); ("𐖘", "𐕱"); ("𐖙", "𐕲"); ("𐖚", "𐕳"); ("𐖛", "𐕴");
   ("𐖜", "𐕵"); ("𐖝", "𐕶"); ("𐖞", "𐕷"); ("𐖟", "𐕸"); ("𐖠", "𐕹");
   ("𐖡", "𐕺"); ("𐖣", "𐕼"); ("𐖤", "𐕽"); ("𐖥", "𐕾"); ("𐖦", "𐕿");
   ("𐖧", "𐖀"); ("𐖨", "𐖁"); ("𐖩", "𐖂"); ("𐖪", "𐖃"); ("𐖫", "𐖄");
   ("𐖬", "𐖅"); ("𐖭", "𐖆"); ("𐖮", "𐖇"); ("𐖯", "𐖈"); ("𐖰", "𐖉");
   ("𐖱", "𐖊"); ("𐖳", "𐖌"); ("𐖴", "𐖍"); ("𐖵", "𐖎"); ("𐖶", "𐖏");
   ("𐖷", "𐖐"); ("𐖸", "𐖑"); ("𐖹", "𐖒"); ("𐖻", "𐖔"); ("𐖼", "𐖕");
   ("𐳀", "𐲀"); ("𐳁", "𐲁"); ("𐳂", "𐲂"); ("𐳃", "𐲃"); ("𐳄", "𐲄");
   ("𐳅", "𐲅"); ("𐳆", "𐲆"); ("𐳇", "𐲇"); ("𐳈", "𐲈"); ("𐳉", "𐲉");
   ("𐳊", "𐲊"); ("𐳋", "𐲋"); ("𐳌", "𐲌"); ("𐳍", "𐲍"); ("𐳎", "𐲎");
   ("𐳏", "𐲏"); ("𐳐", "𐲐"); ("𐳑", "𐲑"); ("𐳒", "𐲒"); ("𐳓", "𐲓");
   ("𐳔", "𐲔"); ("𐳕", "𐲕"); ("𐳖", "𐲖"); ("𐳗", "𐲗"); ("𐳘", "𐲘");
   ("𐳙", "𐲙"); ("𐳚", "𐲚"); ("𐳛", "𐲛"); ("𐳜", "𐲜"); ("𐳝", "𐲝");
   ("𐳞", "𐲞"); ("𐳟", "𐲟"); ("𐳠", "𐲠"); ("𐳡", "𐲡"); ("𐳢", "𐲢");
   ("𐳣", "𐲣"); ("𐳤", "𐲤"); ("𐳥", "𐲥"); ("𐳦", "𐲦"); ("𐳧", "𐲧");
   ("𐳨", "𐲨"); ("𐳩", "𐲩"); ("𐳪", "𐲪"); ("𐳫", "𐲫"); ("𐳬", "𐲬");
   ("𐳭", "𐲭"); ("𐳮", "𐲮"); ("𐳯", "𐲯"); ("𐳰", "𐲰"); ("𐳱", "𐲱");
   ("𐳲", "𐲲"); ("𑣀", "𑢠"); ("𑣁", "𑢡"); ("𑣂", "𑢢"); ("𑣃", "𑢣");
   ("𑣄", "𑢤"); ("𑣅", "𑢥"); ("𑣆", "𑢦"); ("𑣇", "𑢧"); ("𑣈", "𑢨");
   ("𑣉", "𑢩"); ("𑣊", "𑢪"); ("𑣋", "𑢫"); ("𑣌", "𑢬"); ("𑣍", "𑢭");
   ("𑣎", "𑢮"); ("𑣏", "𑢯"); ("𑣐", "𑢰"); ("𑣑", "𑢱"); ("𑣒", "𑢲");
   ("𑣓", "𑢳"); ("𑣔", "𑢴"); ("𑣕", "𑢵"); ("𑣖", "𑢶"); ("𑣗", "𑢷");
   ("𑣘", "𑢸"); ("𑣙", "𑢹"); ("𑣚", "𑢺"); ("𑣛", "𑢻"); ("𑣜", "𑢼");
   ("𑣝", "𑢽"); ("𑣞", "𑢾"); ("𑣟", "𑢿"); ("𖹠", "𖹀"); ("𖹡", "𖹁");
   ("𖹢", "𖹂"); ("𖹣", "𖹃"); ("𖹤", "𖹄"); ("𖹥", "𖹅"); ("𖹦", "𖹆");
   ("𖹧", "𖹇"); ("𖹨", "𖹈"); ("𖹩", "𖹉"); ("𖹪", "𖹊"); ("𖹫", "𖹋");
   ("𖹬", "𖹌"); ("𖹭", "𖹍"); ("𖹮", "𖹎"); ("𖹯", "𖹏"); ("𖹰", "𖹐");
   ("𖹱", "𖹑"); ("𖹲", "𖹒"); ("𖹳", "𖹓"); ("𖹴", "𖹔"); ("𖹵", "𖹕");
   ("𖹶", "𖹖"); ("𖹷", "𖹗"); ("𖹸", "𖹘"); ("𖹹", "𖹙"); ("𖹺", "𖹚");
   ("𖹻", "𖹛"); ("𖹼", "𖹜"); ("𖹽", "𖹝"); ("𖹾", "𖹞"); ("𖹿", "𖹟");
   ("𞤢", "𞤀"); ("𞤣", "𞤁"); ("𞤤", "𞤂"); ("𞤥", "𞤃"); ("𞤦", "𞤄");
   ("𞤧", "𞤅"); ("𞤨", "𞤆"); ("𞤩", "𞤇"); ("𞤪", "𞤈"); ("𞤫", "𞤉");
   ("𞤬", "𞤊"); ("𞤭", "𞤋"); ("𞤮", "𞤌"); ("𞤯", "𞤍"); ("𞤰", "𞤎");
   ("𞤱", "𞤏"); ("𞤲", "𞤐"); ("𞤳", "𞤑"); ("𞤴", "𞤒"); ("𞤵", "𞤓");
   ("𞤶", "𞤔"); ("𞤷", "𞤕"); ("𞤸", "𞤖"); ("𞤹", "𞤗"); ("𞤺", "𞤘");
   ("𞤻", "𞤙"); ("𞤼", "𞤚"); ("𞤽", "𞤛"); ("𞤾", "𞤜"); ("𞤿", "𞤝");
   ("𞥀", "𞤞"); ("𞥁", "𞤟"); ("𞥂", "𞤠"); ("𞥃", "𞤡")].

(** A byte that continues a character in UTF-8, and the number of such
    bytes that follow a first byte. *)
Definition is_continuation (c : ascii) : bool :=
  let n := nat_of_ascii c in ((128 <=? n) && (n <? 192))%nat.

Definition following_bytes (c : ascii) : nat :=
  let n := nat_of_ascii c in
  if (n <? 192)%nat then 0
  else if (n <? 224)%nat then 1
  else if (n <? 240)%nat then 2
  else 3.

(** The continuation bytes at the head of [s], [n] of them at most, and the
    text after them. *)
Fixpoint continuation (n : nat) (s : string) : string * string :=
  match n, s with
  | S n', String c rest =>
      if is_continuation c
      then let (bytes, rest') := continuation n' rest in (String c bytes, rest')
      else (EmptyString, s)
  | _, _ => (EmptyString, s)
  end.

(** The upper case of a character outside ASCII. *)
Fixpoint upper_of (ch : string) (table : list (string * string)) : string :=
  match table with
  | [] => ch
  | (lower, upper) :: rest => if ch =? lower then upper else upper_of ch rest
  end.

Fixpoint toUpperCase_from (fuel : nat) (s : string) : string :=
  match fuel, s with
  | S fuel', String c rest =>
      if (nat_of_ascii c <? 128)%nat
      then String (upper_char c) (toUpperCase_from fuel' rest)
      else
        let (bytes, rest') := continuation (following_bytes c) rest in
        (upper_of (String c bytes) upper_table ++ toUpperCase_from fuel' rest')%string
  | _, _ => s
  end.

(** [s.toUpperCase()]: character by character; a text holds no more
    characters than bytes. *)
Definition toUpperCase (s : string) : string :=
  toUpperCase_from (String.length s) s.

(** [s.length]: the UTF-16 code units of the text, counted on its UTF-8
    encoding: one for a character of one, two or three bytes, two for a
    character of four bytes. *)
Definition utf16_units (c : ascii) : nat :=
  let n := nat_of_ascii c in
  if (n <? 128)%nat then 1
  else if (n <? 192)%nat then 0
  else if (n <? 240)%nat then 1
  else 2.

Fixpoint utf16_length (s : string) : nat :=
  match s with
  | String c rest => utf16_units c + utf16_length rest
  | EmptyString => 0
  end.

(** ** Numeric literals

    Decimal text is converted to the nearest binary64 value, ties to even,
    by exact integer arithmetic. *)

Definition is_digit (c : ascii) : bool :=
  let n := nat_of_ascii c in ((48 <=? n) && (n <=? 57))%nat.

Definition digit_val (c : ascii) : Z := Z.of_nat (nat_of_ascii c - 48).

(** The longest run of decimal digits at the head of [s], accumulated on
    [acc]; [cnt] counts the digits read. *)
Fixpoint digits (s : string) (acc cnt : Z) : Z * Z * string :=
  match s with
  | String c rest =>
      if is_digit c then digits rest (10 * acc + digit_val c)%Z (cnt + 1)%Z
      else (acc, cnt, s)
  | EmptyString => (acc, cnt, s)
  end.

Fixpoint strip_prefix (p s : string) : option string :=
  match p, s with
  | EmptyString, _ => Some s
  | String a p', String b s' =>
      if Ascii.eqb a b then strip_prefix p' s' else None
  | String _ _, EmptyString => None
  end.

(** The nearest binary64 value to [p / q], for [0 < p] and [0 < q]: the
    quotient is taken with more than 54 bits and a sticky bit. *)
Definition round_ratio (p q : Z) : spec_float :=
  let s := Z.max 0 (56 + Z.log2_up q - Z.log2 p) in
  let n := (p * 2 ^ s)%Z in
  let d := (n / q)%Z in
  let sticky := if (n mod q =? 0)%Z then 0%Z else 1%Z in
  binary_normalize prec emax (2 * d + sticky) (- (s + 1)) false.

(** The binary64 value of [(-1)^neg * m * 10^e], for [0 <= m]. *)
Definition decimal_to_float (neg : bool) (m e : Z) : number :=
  let mag :=
    if (m =? 0)%Z then S754_zero false
    else if (310 <? e)%Z then S754_infinity false
    else if (e + (Z.log2 m + 1) / 3 + 1 <? -330)%Z then S754_zero false
    else if (0 <=? e)%Z then binary_normalize prec emax (m * 10 ^ e) 0 false
    else round_ratio m (10 ^ (- e)) in
  let x := SF2Prim mag in
  if neg then PrimFloat.opp x else x.

(** An optional ExponentPart: [e] or [E], an optional sign and at least
    one digit.  Nothing is consumed when it is not complete. *)
Definition scan_exponent (s : string) : Z * string :=
  match s with
  | String c rest =>
      if Ascii.eqb c "e" || Ascii.eqb c "E" then
        let '(neg, rest1) :=
          match rest with
          | String "-" r => (true, r)
          | String "+" r => (false, r)
          | _ => (false, rest)
          end in
        let '(e, n, rest2) := digits rest1 0 0 in
        if (n =? 0)%Z then (0%Z, s)
        else ((if neg then - e else e)%Z, rest2)
      else (0%Z, s)
  | EmptyString => (0%Z, s)
  end.

(** StrUnsignedDecimalLiteral without [Infinity]: digits with an optional
    fraction, or a fraction alone, and an optional exponent.  The result
    is the mantissa, the decimal exponent and the text left. *)
Definition scan_unsigned_decimal (s : string) : option (Z * Z * string) :=
  let '(ip, ni, r1) := digits s 0 0 in
  match r1 with
  | String "." r =>
      let '(m, nf, r2) := digits r ip 0 in
      if (ni =? 0)%Z && (nf =? 0)%Z then None
      else let '(e, r3) := scan_exponent r2 in Some (m, (e - nf)%Z, r3)
  | _ =>
      if (ni =? 0)%Z then None
      else let '(e, r3) := scan_exponent r1 in Some (ip, e, r3)
  end.

(** The longest prefix of [s] that is a StrDecimalLiteral, with its value. *)
Definition scan_StrDecimalLiteral (s : string) : option (number * string) :=
  let '(neg, r) :=
    match s with
    | String "-" r => (true, r)
    | String "+" r => (false, r)
    | _ => (false, s)
    end in
  match strip_prefix "Infinity" r with
  | Some rest =>
      Some (if neg then PrimFloat.neg_infinity else PrimFloat.infinity, rest)
  | None =>
      match scan_unsigned_decimal r with
      | Some (m, e, rest) => Some (decimal_to_float neg m e, rest)
      | None => None
      end
  end.

(** [parseFloat(s)] for a string [s]. *)
Definition parseFloat (s : string) : number :=
  match scan_StrDecimalLiteral (trimStart s) with
  | Some (x, _) => x
  | None => PrimFloat.nan
  end.

Definition radix_digit (radix : Z) (c : ascii) : option Z :=
  let n := nat_of_ascii c in
  let d :=
    if ((48 <=? n) && (n <=? 57))%nat then Z.of_nat (n - 48)
    else if ((97 <=? n) && (n <=? 102))%nat then Z.of_nat (n - 87)
    else if ((65 <=? n) && (n <=? 70))%nat then Z.of_nat (n - 55)
    else 99%Z in
  if (d <? radix)%Z then Some d else None.

Fixpoint radix_digits (radix : Z) (s : string) (acc : Z) : option Z :=
  match s with
  | String c rest =>
      match radix_digit radix c with
      | Some d => radix_digits radix rest (radix * acc + d)%Z
      | None => None
      end
  | EmptyString => Some acc
  end.

(** NonDecimalIntegerLiteral: [0x], [0o] or [0b] and at least one digit. *)
Definition scan_nondecimal (s : string) : option number :=
  match s with
  | String "0" (String c ((String _ _) as ds)) =>
      let radix :=
        if Ascii.eqb c "x" || Ascii.eqb c "X" then 16%Z
        else if Ascii.eqb c "o" || Ascii.eqb c "O" then 8%Z
        else if Ascii.eqb c "b" || Ascii.eqb c "B" then 2%Z
        else 0%Z in
      if (radix =? 0)%Z then None
      else option_map (fun n => decimal_to_float false n 0)
                      (radix_digits radix ds 0)
  | _ => None
  end.

(** StringToNumber: what [Number(s)] gives for a string. *)
Definition StringToNumber (s : string) : number :=
  let t := trim s in
  if t =? "" then 0%float
  else
    match scan_nondecimal t with
    | Some x => x
    | None =>
        match scan_StrDecimalLiteral t with
        | Some (x, EmptyString) => x
        | _ => PrimFloat.nan
        end
    end.

Fixpoint has_key (k : string) (props : list (string * value)) : bool :=
  match props with
  | [] => false
  | (k', _) :: rest => (k =? k') || has_key k rest
  end.

(** Whether converting [v] to a string throws: a plain object whose own
    [toString] property shadows the inherited method has no callable
    conversion left, and an array converts each of its elements. *)
Fixpoint toString_throws (v : value) : bool :=
  match v with
  | VObj props => has_key "toString" props
  | VArr items => existsb toString_throws items
  | _ => false
  end.

(** [Number(v)]; [None] stands for a thrown TypeError.  A plain object
    converts through ["[object Object]"], an array through the
    comma-separated text of its elements, so an array of two or more
    elements is never numeric. *)
Fixpoint ToNumber (v : value) : option number :=
  match v with
  | VUndefined => Some PrimFloat.nan
  | VNull => Some 0%float
  | VBool b => Some (if b then 1%float else 0%float)
  | VNum x => Some x
  | VStr s => Some (StringToNumber s)
  | VObj props =>
      if has_key "toString" props then None else Some PrimFloat.nan
  | VArr [] => Some 0%float
  | VArr [e] =>
      match e with
      | VUndefined | VNull => Some 0%float
      | VBool _ => Some PrimFloat.nan
      | VNum x => Some (if is_neg_zero x then 0%float else x)
      | VStr s => Some (StringToNumber s)
      | VArr _ | VObj _ => ToNumber e
      end
  | VArr items =>
      if existsb toString_throws items then None else Some PrimFloat.nan
  end.

(** ** JSON.parse *)

Definition dquote : ascii := ascii_of_nat 34.
Definition backslash : ascii := ascii_of_nat 92.

(** JSON white space: SP, TAB, LF and CR. *)
Definition is_json_ws (c : ascii) : bool :=
  let n := nat_of_ascii c in
  ((n =? 32) || (n =? 9) || (n =? 10) || (n =? 13))%nat.

Fixpoint skip_ws (s : string) : string :=
  match s with
  | String c rest => if is_json_ws c then skip_ws rest else s
  | EmptyString => EmptyString
  end.

Definition escape_char (c : ascii) : option ascii :=
  if Ascii.eqb c dquote then Some dquote
  else if Ascii.eqb c backslash then Some backslash
  else if Ascii.eqb c "/" then Some "/"%char
  else if Ascii.eqb c "b" then Some (ascii_of_nat 8)
  else if Ascii.eqb c "f" then Some (ascii_of_nat 12)
  else if Ascii.eqb c "n" then Some (ascii_of_nat 10)
  else if Ascii.eqb c "r" then Some (ascii_of_nat 13)
  else if Ascii.eqb c "t" then Some (ascii_of_nat 9)
  else None.

Definition hex4 (a b c d : ascii) : option Z :=
  match radix_digit 16 a, radix_digit 16 b, radix_digit 16 c, radix_digit 16 d with
  | Some x, Some y, Some z, Some w => Some (((x * 16 + y) * 16 + z) * 16 + w)%Z
  | _, _, _, _ => None
  end.

Definition byte (n : Z) : ascii := ascii_of_nat (Z.to_nat n).

(** The UTF-8 bytes of the code unit [n] of a [\u] escape. *)
Definition utf8 (n : Z) : string :=
  if (n <? 128)%Z then String (byte n) EmptyString
  else if (n <? 2048)%Z then
    String (byte (192 + n / 64)) (String (byte (128 + n mod 64)) EmptyString)
  else
    String (byte (224 + n / 4096))
      (String (byte (128 + (n / 64) mod 64))
         (String (byte (128 + n mod 64)) EmptyString)).

(** The rest of a string literal, after its opening quote: the text up to
    the closing quote with the escapes resolved, and what follows. *)
Fixpoint scan_string (s : string) : option (string * string) :=
  match s with
  | EmptyString => None
  | String c rest =>
      if Ascii.eqb c dquote then Some (EmptyString, rest)
      else if Ascii.eqb c backslash then
        match rest with
        | String e rest1 =>
            match escape_char e with
            | Some ch =>
                match scan_string rest1 with
                | Some (body, r) => Some (String ch body, r)
                | None => None
                end
            | None =>
                if Ascii.eqb e "u" then
                  match rest1 with
                  | String h1 (String h2 (String h3 (String h4 rest2))) =>
                      match hex4 h1 h2 h3 h4, scan_string rest2 with
                      | Some n, Some (body, r) => Some ((utf8 n ++ body)%string, r)
                      | _, _ => None
                      end
                  | _ => None
                  end
                else None
            end
        | EmptyString => None
        end
      else if (nat_of_ascii c <? 32)%nat then None
      else
        match scan_string rest with
        | Some (body, r) => Some (String c body, r)
        | None => None
        end
  end.

(** A JSON number at the head of [s]: an optional minus, an integer part
    without a leading zero, an optional fraction and exponent. *)
Definition scan_json_number (s : string) : option (number * string) :=
  let '(neg, r) :=
    match s with
    | String "-" r => (true, r)
    | _ => (false, s)
    end in
  let '(ip, ni, r1) :=
    match r with
    | String "0" r' => (0%Z, 1%Z, r')
    | _ => digits r 0 0
    end in
  if (ni =? 0)%Z then None
  else
    let '(m, nf, r2) :=
      match r1 with
      | String "." r' =>
          let '(m, nf, r2) := digits r' ip 0 in
          if (nf =? 0)%Z then (ip, 0%Z, r1) else (m, nf, r2)
      | _ => (ip, 0%Z, r1)
      end in
    let '(e, r3) := scan_exponent r2 in
    Some (decimal_to_float neg m (e - nf), r3).

(** Defining a property: a repeated key overwrites the earlier value. *)
Fixpoint set_prop (k : string) (v : value) (props : list (string * value))
  : list (string * value) :=
  match props with
  | [] => [(k, v)]
  | (k', v') :: rest =>
      if k =? k' then (k, v) :: rest else (k', v') :: set_prop k v rest
  end.

Fixpoint parse_value (fuel : nat) (s : string) {struct fuel}
  : option (value * string) :=
  match fuel with
  | O => None
  | S fuel' =>
      match skip_ws s with
      | EmptyString => None
      | String c rest =>
          if Ascii.eqb c "{" then
            match skip_ws rest with
            | String "}" rest' => Some (VObj [], rest')
            | body => parse_members fuel' body []
            end
          else if Ascii.eqb c "[" then
            match skip_ws rest with
            | String "]" rest' => Some (VArr [], rest')
            | body => parse_elements fuel' body []
            end
          else if Ascii.eqb c dquote then
            match scan_string rest with
            | Some (str, r) => Some (VStr str, r)
            | None => None
            end
          else if Ascii.eqb c "t" then
            option_map (pair (VBool true)) (strip_prefix "rue" rest)
          else if Ascii.eqb c "f" then
            option_map (pair (VBool false)) (strip_prefix "alse" rest)
          else if Ascii.eqb c "n" then
            option_map (pair VNull) (strip_prefix "ull" rest)
          else
            match scan_json_number (String c rest) with
            | Some (x, r) => Some (VNum x, r)
            | None => None
            end
      end
  end

with parse_elements (fuel : nat) (s : string) (acc : list value)
       {struct fuel} : option (value * string) :=
  match fuel with
  | O => None
  | S fuel' =>
      match parse_value fuel' s with
      | Some (v, rest) =>
          match skip_ws rest with
          | String "," rest' => parse_elements fuel' rest' (v :: acc)
          | String "]" rest' => Some (VArr (rev (v :: acc)), rest')
          | _ => None
          end
      | None => None
      end
  end

with parse_members (fuel : nat) (s : string) (acc : list (string * value))
       {struct fuel} : option (value * string) :=
  match fuel with
  | O => None
  | S fuel' =>
      match skip_ws s with
      | String c rest =>
          if Ascii.eqb c dquote then
            match scan_string rest with
            | Some (k, r1) =>
                match skip_ws r1 with
                | String ":" r2 =>
                    match parse_value fuel' r2 with
                    | Some (v, r3) =>
                        match skip_ws r3 with
                        | String "," r4 =>
                            parse_members fuel' r4 (set_prop k v acc)
                        | String "}" r4 => Some (VObj (set_prop k v acc), r4)
                        | _ => None
                        end
                    | None => None
                    end
                | _ => None
                end
            | None => None
            end
          else None
      | EmptyString => None
      end
  end.

(** [JSON.parse(s)]; [None] stands for a thrown SyntaxError.  The descent is
    given fuel in proportion to the length of the text, of which every
    nested value and every element takes at least one character. *)
Definition JSON_parse (s : string) : option value :=
  match parse_value (2 * String.length s + 2) s with
  | Some (v, rest) => if skip_ws rest =? "" then Some v else None
  | None => None
  end.

(** Text between double quotes, to write JSON text down. *)
Definition quoted (s : string) : string :=
  String dquote (s ++ String dquote EmptyString)%string.

End Js.

Import Js.

(* ================================================================== *)
(** * Data model *)
(* ================================================================== *)

(** [VariantOption] of [types/products]: [image_url] and [price] are
    optional and nullable; an absent field and a [null] one are the same
    [None], as every reader of these fields treats them alike ([??] and
    [typeof]).  The objects themselves, key by key, are those of
    [ProductDetail.parseVariantOptionObject]. *)
Record VariantOption : Type := {
  vo_label : string;
  vo_image_url : option string;
  vo_price : option number
}.

(** [MeasurementOption] of [types/products].  The label is declared a
    string, but the parser stores whatever truthy value it finds, so it is
    kept as a [value]. *)
Record MeasurementOption : Type := {
  mo_label : value;
  mo_price : option number
}.

(** A JavaScript object for an option, with its [image_url] key written
    ([null] for none) as the object branch of the variant parser writes
    it. *)
Definition VariantOption_value (o : VariantOption) : value :=
  VObj ([("label", VStr (vo_label o));
         ("image_url", match vo_image_url o with
                       | Some u => VStr u
                       | None => VNull
                       end)]
        ++ match vo_price o with
           | Some p => [("price", VNum p)]
           | None => []
           end).

Definition MeasurementOption_value (o : MeasurementOption) : value :=
  VObj (("label", mo_label o)
        :: match mo_price o with
           | Some p => [("price", VNum p)]
           | None => []
           end).

(** A row of [products], with the columns the pricing logic reads. *)
Record Product : Type := {
  name : string;
  price_per_litre : number;
  offer_price_per_litre : option number;
  variant_enabled : bool;
  variant_title : option string;
  variant_values : value;
  measurement_enabled : bool;
  measurement_title : option string;
  measurement_values : value
}.

(** A row of [cart_items].  [variant_selection] holds the [variantPayload]
    object that add-to-cart stores, or [null]; [variant_price] and
    [measurement_price] are numeric columns that may be [null];
    [measurement_value] is read by the matcher with a [typeof] test, so it is
    kept as a [value].  The store is taken to keep what it is sent: the
    rounding of its numeric columns is not modelled. *)
Record CartRow : Type := {
  id : nat;
  user_id : string;
  product_id : string;
  quantity_litres : number;
  variant_selection : option VariantOption;
  variant_price : option number;
  measurement_label : option string;
  measurement_value : value;
  measurement_price : option number
}.

(** A cart row as the cart and checkout pages fetch it, joined with its
    product (the join of [cart_items] with [products]). *)
Record CartItem : Type := {
  row : CartRow;
  products : option Product
}.

(** A row of [coupons].  [valid_until] holds the time value, in
    milliseconds, of [new Date(valid_until)]. *)
Record Coupon : Type := {
  code : string;
  discount_type : string;
  discount_value : number;
  min_order_amount : option number;
  max_discount_amount : option number;
  valid_until : option number;
  is_active : bool
}.

Record Order : Type := {
  order_id : nat;
  order_user_id : string;
  order_number : string;
  total_amount : number;
  discount_amount : number;
  final_amount : number;
  coupon_code : option string;
  shipping_address : string;
  status : string;
  payment_status : string
}.

Record OrderItem : Type := {
  oi_order_id : nat;
  oi_product_id : string;
  oi_product_name : string;
  oi_quantity_litres : number;
  oi_price_per_litre : number;
  oi_total_price : number;
  oi_variant_selection : option VariantOption;
  oi_measurement_label : option string;
  oi_measurement_value : value
}.

(** ** The store *)

Inductive table : Type :=
| t_products | t_coupons | t_cart_items | t_orders | t_order_items.

(** The error object a request to the store comes back with. *)
Record PostgrestError : Type := {
  pg_code : string;
  pg_message : string
}.

(** The tables behind the pages; [catalog] is [products], keyed by product
    id.  [next_id] stands for the store's generator of primary keys;
    [refuses] tells which tables the store answers with an error for (a
    policy, a constraint, an outage). *)
Record Store : Type := {
  catalog : list (string * Product);
  coupons : list Coupon;
  cart_items : list CartRow;
  orders : list Order;
  order_items : list OrderItem;
  next_id : nat;
  refuses : table -> option PostgrestError
}.

(** What a mutation throws. *)
Inductive error : Type :=
| PleaseLogin          (* 'Please login' *)
| ProductNotFound      (* 'Product not found' *)
| PleaseSelect (title : option string)   (* `Please select a ${title}` *)
| CartIsEmpty          (* 'Cart is empty' *)
| AddressTooShort      (* 'Address must be at least 10 characters' *)
| InvalidCouponCode    (* 'Invalid coupon code' *)
| MinimumOrderAmount (min : number)  (* `Minimum order amount is ...` *)
| CouponHasExpired     (* 'Coupon has expired' *)
| StoreError (e : PostgrestError).

Inductive outcome (A : Type) : Type :=
| Resolved (a : A)
| Rejected (e : error).

Arguments Resolved {A} a.
Arguments Rejected {A} e.

(** ** Small readings of JavaScript operators on typed fields *)

(** [a ?? b] for a nullable number. *)
Definition num_or (a : option number) (b : number) : number :=
  match a with Some x => x | None => b end.

(** [typeof a === 'number']. *)
Definition is_num (a : option number) : bool :=
  match a with Some _ => true | None => false end.

(** [s || null] for a nullable string: the empty string is falsy. *)
Definition str_or_null (s : option string) : option string :=
  match s with
  | Some EmptyString => None
  | _ => s
  end.

(** [a === b] for two nullable strings. *)
Definition opt_string_eq (a b : option string) : bool :=
  match a, b with
  | Some x, Some y => x =? y
  | None, None => true
  | _, _ => false
  end.

(** [!!a] for a nullable object. *)
Definition isSome {A : Type} (a : option A) : bool :=
  match a with Some _ => true | None => false end.

Fixpoint filter_map {A B : Type} (f : A -> option B) (l : list A) : list B :=
  match l with
  | [] => []
  | x :: rest =>
      match f x with
      | Some y => y :: filter_map f rest
      | None => filter_map f rest
      end
  end.

Record User : Type := { uid : string }.

(** Requests to the store on [cart_items]. *)

(** [from('cart_items').select('*').eq('user_id', u).eq('product_id', p)]:
    the rows, or no data when the store refuses. *)
Definition select_cart_items (st : Store) (u p : string) : option (list CartRow) :=
  match refuses st t_cart_items with
  | Some _ => None
  | None =>
      Some (filter (fun r => (user_id r =? u) && (product_id r =? p))
                   (cart_items st))
  end.

Definition with_cart_items (st : Store) (rows : list CartRow) (n : nat) : Store :=
  {| catalog := catalog st;
     coupons := coupons st;
     cart_items := rows;
     orders := orders st;
     order_items := order_items st;
     next_id := n;
     refuses := refuses st |}.

Definition set_quantity (key : nat) (q : number) (r : CartRow) : CartRow :=
  if (id r =? key)%nat then
    {| id := id r;
       user_id := user_id r;
       product_id := product_id r;
       quantity_litres := q;
       variant_selection := variant_selection r;
       variant_price := variant_price r;
       measurement_label := measurement_label r;
       measurement_value := measurement_value r;
       measurement_price := measurement_price r |}
  else r.

(** [from('cart_items').update({ quantity_litres: q }).eq('id', key)]. *)
Definition update_cart_quantity (st : Store) (key : nat) (q : number) : Store :=
  match refuses st t_cart_items with
  | Some _ => st
  | None => with_cart_items st (map (set_quantity key q) (cart_items st)) (next_id st)
  end.

(** [from('cart_items').insert(r)]: the store gives the row its key.  The
    unique index of the table is not modelled. *)
Definition insert_cart_item (st : Store) (r : CartRow) : Store :=
  match refuses st t_cart_items with
  | Some _ => st
  | None =>
      with_cart_items st
        (cart_items st ++
         [{| id := next_id st;
             user_id := user_id r;
             product_id := product_id r;
             quantity_litres := quantity_litres r;
             variant_selection := variant_selection r;
             variant_price := variant_price r;
             measurement_label := measurement_label r;
             measurement_value := measurement_value r;
             measurement_price := measurement_price r |}])
        (S (next_id st))
  end.

(* ================================================================== *)
(** * The product page *)
(* ================================================================== *)

Module ProductDetail.

(** ** Option parsers *)

(** The numeric reading of a raw [price] field, shared by the object
    branch of both parsers: a number as it is, a non-empty string through
    [parseFloat], nothing otherwise. *)
Definition raw_price (v : value) : option number :=
  match get "price" v with
  | VNum x => Some x
  | VStr p => if negb (p =? "") then Some (parseFloat p) else None
  | _ => None
  end.

(** The callback [parseVariantOptions] maps over the raw values; [None] is
    the [null] that the final [filter] drops. *)
Definition parseVariantOption (value : value) : option VariantOption :=
  if negb (truthy value) then None
  else
    match value with
    | VStr s =>
        let label := trim s in
        if negb (label =? "")
        then Some {| vo_label := label; vo_image_url := None; vo_price := None |}
        else None
    | VObj _ | VArr _ =>
        let label :=
          match get "label" value with
          | VStr l => trim l
          | _ => ""
          end in
        if label =? "" then None
        else
          let image_url :=
            match get "image_url" value with
            | VStr u => if (0 <? String.length u)%nat then Some u else None
            | _ => None
            end in
          let price := raw_price value in
          match price with
          | Some p =>
              if negb (Number_isNaN p)
              then Some {| vo_label := label; vo_image_url := image_url;
                           vo_price := Some p |}
              else Some {| vo_label := label; vo_image_url := image_url;
                           vo_price := None |}
          | None =>
              Some {| vo_label := label; vo_image_url := image_url;
                      vo_price := None |}
          end
    | _ => None
    end.

Definition parseVariantOptions (values : value) : list VariantOption :=
  match values with
  | VArr items => filter_map parseVariantOption items
  | _ => []
  end.

(** The object the callback of [parseVariantOptions] returns, with the keys
    the source writes: [{ label }] for a string, [{ label, image_url, price }]
    or [{ label, image_url }] for an object; [None] is the [null] that the
    final [filter] drops. *)
Definition parseVariantOptionObject (value : value) : option Js.value :=
  if negb (truthy value) then None
  else
    match value with
    | VStr s =>
        let label := trim s in
        if negb (label =? "") then Some (VObj [("label", VStr label)]) else None
    | VObj _ | VArr _ =>
        let label :=
          match get "label" value with
          | VStr l => trim l
          | _ => ""
          end in
        if label =? "" then None
        else
          let image_url :=
            match get "image_url" value with
            | VStr u => if (0 <? String.length u)%nat then VStr u else VNull
            | _ => VNull
            end in
          let price := raw_price value in
          match price with
          | Some p =>
              if negb (Number_isNaN p)
              then Some (VObj [("label", VStr label); ("image_url", image_url);
                               ("price", VNum p)])
              else Some (VObj [("label", VStr label); ("image_url", image_url)])
          | None =>
              Some (VObj [("label", VStr label); ("image_url", image_url)])
          end
    | _ => None
    end.

Definition parseVariantOptionsObjects (values : value) : list value :=
  match values with
  | VArr items => filter_map parseVariantOptionObject items
  | _ => []
  end.

(** The callback of the [measurementValues] memo. *)
Definition parseMeasurementValue (v : value) : option MeasurementOption :=
  if negb (truthy v) then None
  else
    match v with
    | VStr s =>
        let trimmed := trim s in
        if trimmed =? "" then None
        else
          let plain := Some {| mo_label := VStr trimmed; mo_price := None |} in
          if (startsWith "{" trimmed || startsWith "[" trimmed)
             && includes "label" trimmed
          then
            (* try { ... } catch {} *)
            match JSON_parse trimmed with
            | Some parsed =>
                if truthy parsed && truthy (get "label" parsed) then
                  if truthy (get "price" parsed) then
                    match ToNumber (get "price" parsed) with
                    | Some p =>
                        Some {| mo_label := get "label" parsed;
                                mo_price := Some p |}
                    | None => plain
                    end
                  else Some {| mo_label := get "label" parsed;
                               mo_price := None |}
                else plain
            | None => plain
            end
          else plain
    | VObj _ | VArr _ =>
        let label := or_else (get "label" v) (VStr "") in
        if negb (truthy label) then None
        else
          let price := raw_price v in
          match price with
          | Some p =>
              if negb (Number_isNaN p)
              then Some {| mo_label := label; mo_price := Some p |}
              else Some {| mo_label := label; mo_price := None |}
          | None => Some {| mo_label := label; mo_price := None |}
          end
    | _ => None
    end.

Definition measurementValues (measurement_values : value) : list MeasurementOption :=
  let raw :=
    match measurement_values with
    | VArr items => items
    | _ => []
    end in
  filter_map parseMeasurementValue raw.

Definition hasVariants (p : Product) : bool :=
  variant_enabled p && (0 <? List.length (parseVariantOptions (variant_values p)))%nat.

Definition hasMeasurements (p : Product) : bool :=
  measurement_enabled p
  && (0 <? List.length (measurementValues (measurement_values p)))%nat.

(** ** Effective price *)

Definition vPrice (selectedVariant : option VariantOption) : number :=
  match selectedVariant with
  | Some v =>
      match vo_price v with
      | Some p => if negb (Number_isNaN p) then p else 0%float
      | None => 0%float
      end
  | None => 0%float
  end.

Definition mPrice (selectedMeasurement : option MeasurementOption) : number :=
  match selectedMeasurement with
  | Some m =>
      match mo_price m with
      | Some p => if negb (Number_isNaN p) then p else 0%float
      | None => 0%float
      end
  | None => 0%float
  end.

Definition effectivePrice (product : Product)
    (selectedVariant : option VariantOption)
    (selectedMeasurement : option MeasurementOption) : number :=
  let v := vPrice selectedVariant in
  let m := mPrice selectedMeasurement in
  if truthy_num (if truthy_num v then v else m)
  then (v + m)%float
  else num_or (offer_price_per_litre product) (price_per_litre product).

(** ** Add to cart *)

(** The state of the page a click on "add to cart" runs in. *)
Record State : Type := {
  user : option User;
  product : option Product;
  route_id : string;
  quantity : number;
  selectedVariant : option VariantOption;
  selectedMeasurement : option MeasurementOption
}.

(** The predicate of [existing.find]: the cart line matcher. *)
Definition match_ (selectedVariant : option VariantOption)
    (selectedMeasurement : option MeasurementOption) (item : CartRow) : bool :=
  let itemVar := option_map vo_label (variant_selection item) in
  let currVar := option_map vo_label selectedVariant in
  let itemMeas :=
    if is_string (measurement_value item)
    then measurement_value item
    else coalesce (get "label" (measurement_value item)) VNull in
  let currMeas :=
    match selectedMeasurement with
    | Some m => coalesce (mo_label m) VNull
    | None => VNull
    end in
  opt_string_eq itemVar currVar && strict_eq itemMeas currMeas.

Definition addToCartMutation (st : Store) (ui : State) : outcome unit * Store :=
  match user ui with
  | None => (Rejected PleaseLogin, st)
  | Some user =>
      match product ui with
      | None => (Rejected ProductNotFound, st)
      | Some product =>
          if hasVariants product
             && negb (isSome (selectedVariant ui))
          then (Rejected (PleaseSelect (variant_title product)), st)
          else if hasMeasurements product
                  && negb (isSome (selectedMeasurement ui))
          then (Rejected (PleaseSelect (measurement_title product)), st)
          else
            let variantPayload :=
              match selectedVariant ui with
              | Some sv =>
                  Some {| vo_label := vo_label sv;
                          vo_image_url := vo_image_url sv;
                          vo_price := vo_price sv |}
              | None => None
              end in
            let existing :=
              match select_cart_items st (uid user) (route_id ui) with
              | Some rows => rows
              | None => []
              end in
            match find (match_ (selectedVariant ui) (selectedMeasurement ui))
                       existing with
            | Some m =>
                (Resolved tt,
                 update_cart_quantity st (id m)
                   (quantity_litres m + quantity ui)%float)
            | None =>
                (Resolved tt,
                 insert_cart_item st
                   {| id := 0;
                      user_id := uid user;
                      product_id := route_id ui;
                      quantity_litres := quantity ui;
                      variant_selection := variantPayload;
                      variant_price :=
                        match selectedVariant ui with
                        | Some sv => vo_price sv
                        | None => None
                        end;
                      measurement_label := str_or_null (measurement_title product);
                      measurement_value :=
                        match selectedMeasurement ui with
                        | Some sm => coalesce (mo_label sm) VNull
                        | None => VNull
                        end;
                      measurement_price :=
                        match selectedMeasurement ui with
                        | Some sm => mo_price sm
                        | None => None
                        end |})
            end
      end
  end.

(** ** The effects on the selection

    Three effects write the selection, and run in this order after a
    render, each one only when one of its dependencies has changed.  The
    first, on [product], drops both selections when a product is there.
    The second, on [hasVariants] and [variantOptions], and the third, on
    [hasMeasurements] and [measurementValues], set the default: without
    options nothing is selected; otherwise the selection that is held is
    kept if it is still on offer, and the first option is taken if not. *)

Definition defaultVariant (hasVariants : bool)
    (variantOptions : list VariantOption) (prev : option VariantOption)
  : option VariantOption :=
  if negb hasVariants then None
  else
    match prev with
    | Some pv =>
        if existsb (fun v => vo_label v =? vo_label pv) variantOptions
        then prev
        else hd_error variantOptions
    | None => hd_error variantOptions
    end.

Definition defaultMeasurement (hasMeasurements : bool)
    (measurementValues : list MeasurementOption) (prev : option MeasurementOption)
  : option MeasurementOption :=
  if negb hasMeasurements then None
  else
    match prev with
    | Some pm =>
        if existsb (fun m => strict_eq (mo_label m) (mo_label pm)) measurementValues
        then prev
        else hd_error measurementValues
    | None => hd_error measurementValues
    end.

(** The effect on [product]. *)
Definition resetSelection (ui : State) : State :=
  match product ui with
  | Some _ =>
      {| user := user ui;
         product := product ui;
         route_id := route_id ui;
         quantity := quantity ui;
         selectedVariant := None;
         selectedMeasurement := None |}
  | None => ui
  end.

(** [variantOptions] and [hasVariants] of a page whose product may not be
    there yet. *)
Definition variantOptions (ui : State) : list VariantOption :=
  match product ui with
  | Some p => parseVariantOptions (variant_values p)
  | None => parseVariantOptions VUndefined
  end.

Definition pageHasVariants (ui : State) : bool :=
  match product ui with
  | Some p => hasVariants p
  | None => false
  end.

Definition pageMeasurementValues (ui : State) : list MeasurementOption :=
  match product ui with
  | Some p => measurementValues (measurement_values p)
  | None => measurementValues VUndefined
  end.

Definition pageHasMeasurements (ui : State) : bool :=
  match product ui with
  | Some p => hasMeasurements p
  | None => false
  end.

(** The effect on [hasVariants] and [variantOptions]. *)
Definition variantEffect (ui : State) : State :=
  {| user := user ui;
     product := product ui;
     route_id := route_id ui;
     quantity := quantity ui;
     selectedVariant :=
       defaultVariant (pageHasVariants ui) (variantOptions ui) (selectedVariant ui);
     selectedMeasurement := selectedMeasurement ui |}.

(** The effect on [hasMeasurements] and [measurementValues]. *)
Definition measurementEffect (ui : State) : State :=
  {| user := user ui;
     product := product ui;
     route_id := route_id ui;
     quantity := quantity ui;
     selectedVariant := selectedVariant ui;
     selectedMeasurement :=
       defaultMeasurement (pageHasMeasurements ui) (pageMeasurementValues ui)
                          (selectedMeasurement ui) |}.

(** The effects after a render of the page [ui]: [productChanged] tells
    that [product] is another object than at the render before,
    [variantsChanged] that [hasVariants] or the memo [variantOptions] is
    (the memo is computed again only when [product.variant_values] is
    another object), [measurementsChanged] the same of the measurements. *)
Definition runEffects (productChanged variantsChanged measurementsChanged : bool)
    (ui : State) : State :=
  let ui1 := if productChanged then resetSelection ui else ui in
  let ui2 := if variantsChanged then variantEffect ui1 else ui1 in
  if measurementsChanged then measurementEffect ui2 else ui2.

(** The quantity the minus button sets: [Math.max(1, quantity - 1)]. *)
Definition minusQuantity (q : number) : number :=
  Math_max 1%float (q - 1)%float.

End ProductDetail.

(* ================================================================== *)
(** * The cart page *)
(* ================================================================== *)

Module Cart.

(** The label the cart page shows for a stored [measurement_value]: a
    string that holds a JSON object with a label is unwrapped to that
    label, anything else is shown as it is stored. *)
Definition shownMeasurement (measurement_value : value) : value :=
  match measurement_value with
  | VStr s =>
      let trimmed := trim s in
      if (startsWith "{" trimmed || startsWith "[" trimmed)
         && includes "label" trimmed
      then
        match JSON_parse trimmed with
        | Some parsed =>
            if truthy parsed && truthy (get "label" parsed)
            then get "label" parsed
            else measurement_value
        | None => measurement_value
        end
      else measurement_value
  | _ => measurement_value
  end.

(** The unit price the cart page shows for a line that has its product. *)
Definition price (item : CartItem) (product : Product) : number :=
  let variantPrice :=
    if is_num (variant_price (row item)) then variant_price (row item)
    else
      match variant_selection (row item) with
      | Some vs => vo_price vs
      | None => None
      end in
  let measurementPrice :=
    if is_num (measurement_price (row item)) then measurement_price (row item)
    else None in
  if is_num variantPrice || is_num measurementPrice
  then (num_or variantPrice 0 + num_or measurementPrice 0)%float
  else num_or (offer_price_per_litre product) (price_per_litre product).

(** The total of the cart page: a line without its product is skipped. *)
Definition total (cartItems : option (list CartItem)) : number :=
  match cartItems with
  | Some items =>
      let s :=
        fold_left
          (fun sum item =>
             match products item with
             | None => sum
             | Some product =>
                 (sum + price item product * quantity_litres (row item))%float
             end)
          items 0%float in
      if truthy_num s then s else 0%float
  | None => 0%float
  end.

(** [updateQuantityMutation]: the quantity of the row [key] is set; an error
    of the store is thrown. *)
Definition updateQuantityMutation (st : Store) (key : nat) (quantity : number)
  : outcome unit * Store :=
  match refuses st t_cart_items with
  | Some error => (Rejected (StoreError error), st)
  | None =>
      (Resolved tt,
       with_cart_items st (map (set_quantity key quantity) (cart_items st))
                       (next_id st))
  end.

(** [removeItemMutation]: the row [key] is deleted; an error of the store
    is thrown. *)
Definition removeItemMutation (st : Store) (key : nat) : outcome unit * Store :=
  match refuses st t_cart_items with
  | Some error => (Rejected (StoreError error), st)
  | None =>
      (Resolved tt,
       with_cart_items st
         (filter (fun r => negb (id r =? key)%nat) (cart_items st))
         (next_id st))
  end.

(** The quantity the minus button asks for: [Math.max(1, q - 1)]. *)
Definition minusQuantity (q : number) : number :=
  Math_max 1%float (q - 1)%float.

(** The quantity the plus button asks for. *)
Definition plusQuantity (q : number) : number := (q + 1)%float.

(** The quantity typed in the input: [Math.max(1, parseFloat(text) || 1)]. *)
Definition typedQuantity (text : string) : number :=
  Math_max 1%float
    (let v := parseFloat text in if truthy_num v then v else 1%float).

End Cart.

(* ================================================================== *)
(** * The checkout page *)
(* ================================================================== *)

Module Checkout.

Record State : Type := {
  user : option User;
  cartItems : option (list CartItem);
  address : string;
  couponCode : string;
  appliedCoupon : option Coupon
}.

(** The unit price of a cart line, as the reducer of [subtotal] and the
    mapper of [orderItems] both compute it. *)
Definition pricePerLitre (item : CartItem) : number :=
  let variantPrice :=
    if is_num (variant_price (row item)) then variant_price (row item)
    else
      match variant_selection (row item) with
      | Some vs => vo_price vs
      | None => None
      end in
  let measurementPrice :=
    if is_num (measurement_price (row item)) then measurement_price (row item)
    else None in
  if is_num variantPrice || is_num measurementPrice
  then (num_or variantPrice 0 + num_or measurementPrice 0)%float
  else
    match products item with
    | Some p => num_or (offer_price_per_litre p) (price_per_litre p)
    | None => 0%float
    end.

Definition subtotal (cartItems : option (list CartItem)) : number :=
  match cartItems with
  | Some items =>
      let s :=
        fold_left
          (fun sum item =>
             (sum + pricePerLitre item * quantity_litres (row item))%float)
          items 0%float in
      if truthy_num s then s else 0%float
  | None => 0%float
  end.

Definition discount (appliedCoupon : option Coupon) (subtotal : number) : number :=
  match appliedCoupon with
  | Some c =>
      if discount_type c =? "percentage"
      then Math_min
             ((subtotal * discount_value c) / 100)%float
             (match max_discount_amount c with
              | Some m => if truthy_num m then m else Infinity
              | None => Infinity
              end)
      else discount_value c
  | None => 0%float
  end.

Definition total (ui : State) : number :=
  (subtotal (cartItems ui)
   - discount (appliedCoupon ui) (subtotal (cartItems ui)))%float.

(** ** Requests to the store *)

Fixpoint find_product (pid : string) (rows : list (string * Product))
  : option Product :=
  match rows with
  | [] => None
  | (k, p) :: rest => if pid =? k then Some p else find_product pid rest
  end.

(** The [cartItems] query: the user's cart rows, each joined with its
    product. *)
Definition cartQuery (st : Store) (user : option User)
  : outcome (list CartItem) :=
  match user with
  | None => Resolved []
  | Some u =>
      match refuses st t_cart_items with
      | Some error => Rejected (StoreError error)
      | None =>
          Resolved
            (map (fun r => {| row := r;
                              products := find_product (product_id r) (catalog st) |})
                 (filter (fun r => user_id r =? uid u) (cart_items st)))
      end
  end.

(** An edit of the catalog by its owner: the row of product [pid] is
    replaced. *)
Definition update_product (st : Store) (pid : string) (p : Product) : Store :=
  {| catalog :=
       map (fun kp => if fst kp =? pid then (pid, p) else kp) (catalog st);
     coupons := coupons st;
     cart_items := cart_items st;
     orders := orders st;
     order_items := order_items st;
     next_id := next_id st;
     refuses := refuses st |}.

(** [from('orders').insert({...}).select().single()]: the row comes back
    with the key the store gave it.  The checks of the table, among them
    [UNIQUE (order_number)], are the store's: a store that finds one
    violated answers with an error, which is what [refuses] records. *)
Definition insert_order (st : Store) (o : Order) : outcome Order * Store :=
  match refuses st t_orders with
  | Some e => (Rejected (StoreError e), st)
  | None =>
      let stored :=
        {| order_id := next_id st;
           order_user_id := order_user_id o;
           order_number := order_number o;
           total_amount := total_amount o;
           discount_amount := discount_amount o;
           final_amount := final_amount o;
           coupon_code := coupon_code o;
           shipping_address := shipping_address o;
           status := status o;
           payment_status := payment_status o |} in
      (Resolved stored,
       {| catalog := catalog st;
   coupons := coupons st;
          cart_items := cart_items st;
          orders := orders st ++ [stored];
          order_items := order_items st;
          next_id := S (next_id st);
          refuses := refuses st |})
  end.

Definition insert_order_items (st : Store) (items : list OrderItem)
  : outcome unit * Store :=
  match refuses st t_order_items with
  | Some e => (Rejected (StoreError e), st)
  | None =>
      (Resolved tt,
       {| catalog := catalog st;
   coupons := coupons st;
          cart_items := cart_items st;
          orders := orders st;
          order_items := order_items st ++ items;
          next_id := next_id st;
          refuses := refuses st |})
  end.

(** ** Order composition *)

Definition orderItem (order : Order) (item : CartItem) : OrderItem :=
  let pricePerLitre := pricePerLitre item in
  {| oi_order_id := order_id order;
     oi_product_id := product_id (row item);
     oi_product_name :=
       match products item with
       | Some p => name p
       | None => ""
       end;
     oi_quantity_litres := quantity_litres (row item);
     oi_price_per_litre := pricePerLitre;
     oi_total_price := (pricePerLitre * quantity_litres (row item))%float;
     oi_variant_selection := variant_selection (row item);
     oi_measurement_label :=
       match str_or_null (measurement_label (row item)) with
       | Some l => Some l
       | None =>
           match products item with
           | Some p => str_or_null (measurement_title p)
           | None => None
           end
       end;
     oi_measurement_value := or_else (measurement_value (row item)) VNull |}.

(** [orderNumber] is the text built from the clock and a random number. *)
Definition createSupabaseOrder (st : Store) (ui : State) (orderNumber : string)
  : outcome Order * Store :=
  match user ui, cartItems ui with
  | Some user, Some ((_ :: _) as cartItems) =>
      match
        insert_order st
          {| order_id := 0;
             order_user_id := uid user;
             order_number := orderNumber;
             total_amount := subtotal (Checkout.cartItems ui);
             discount_amount :=
               discount (appliedCoupon ui) (subtotal (Checkout.cartItems ui));
             final_amount := total ui;
             coupon_code := option_map code (appliedCoupon ui);
             shipping_address := address ui;
             status := "pending";
             payment_status := "pending" |}
      with
      | (Rejected orderError, st1) => (Rejected orderError, st1)
      | (Resolved order, st1) =>
          let orderItems := map (orderItem order) cartItems in
          match insert_order_items st1 orderItems with
          | (Rejected itemsError, st2) => (Rejected itemsError, st2)
          | (Resolved _, st2) => (Resolved order, st2)
          end
      end
  | _, _ => (Rejected CartIsEmpty, st)
  end.

(** [checkoutSchema]: an address whose [length], in UTF-16 code units, is
    ten at least. *)
Definition checkoutSchema (address : string) : bool :=
  (10 <=? utf16_length address)%nat.

Definition placeOrderMutation (st : Store) (ui : State) (orderNumber : string)
  : outcome Order * Store :=
  match user ui with
  | None => (Rejected PleaseLogin, st)
  | Some _ =>
      if negb (checkoutSchema (address ui)) then (Rejected AddressTooShort, st)
      else
        match cartItems ui with
        | None | Some [] => (Rejected CartIsEmpty, st)
        | Some (_ :: _) => createSupabaseOrder st ui orderNumber
        end
  end.

(** ** Coupons *)

(** The error of [maybeSingle] when more than one row comes back. *)
Definition multiple_rows : PostgrestError :=
  {| pg_code := "PGRST116";
     pg_message := "JSON object requested, multiple (or no) rows returned" |}.

(** [from('coupons').select('*').eq('code', c).eq('is_active', true)
    .maybeSingle()]: the data (a row or [null]) or an error. *)
Definition select_coupon (st : Store) (c : string)
  : PostgrestError + option Coupon :=
  match refuses st t_coupons with
  | Some e => inl e
  | None =>
      match filter (fun r => (code r =? c) && Bool.eqb (is_active r) true)
                   (coupons st) with
      | [] => inr None
      | [r] => inr (Some r)
      | _ => inl multiple_rows
      end
  end.

(** [now] is the time value of [new Date()]. *)
Definition applyCouponMutation (st : Store) (ui : State) (now : number)
  : outcome Coupon :=
  match select_coupon st (toUpperCase (couponCode ui)) with
  | inl error => Rejected (StoreError error)
  | inr None => Rejected InvalidCouponCode
  | inr (Some data) =>
      let afterMinimum :=
        if match valid_until data with
           | Some t => PrimFloat.ltb t now
           | None => false
           end
        then Rejected CouponHasExpired
        else Resolved data in
      match min_order_amount data with
      | Some m =>
          if truthy_num m && PrimFloat.ltb (subtotal (cartItems ui)) m
          then Rejected (MinimumOrderAmount m)
          else afterMinimum
      | None => afterMinimum
      end
  end.

End Checkout.

(* ================================================================== *)
(** * The wishlist *)
(* ================================================================== *)

(** What a handler shows when it is done. *)
Inductive toast : Type :=
| toast_error (message : string)
| toast_success (message : string).

(** [error.message || fallback]. *)
Definition message_or (e : PostgrestError) (fallback : string) : string :=
  if pg_message e =? "" then fallback else pg_message e.

Module Wishlist.

(** A row of [wishlist]; the table allows one row for a user and a
    product. *)
Record Row : Type := {
  wish_id : nat;
  wish_user_id : string;
  wish_product_id : string
}.

Record Table : Type := {
  rows : list Row;
  next_key : nat;
  refusal : option PostgrestError
}.

Definition unique_violation : PostgrestError :=
  {| pg_code := "23505";
     pg_message := "duplicate key value violates unique constraint" |}.

(** [.eq('user_id', u).eq('product_id', p)]. *)
Definition about (u p : string) (r : Row) : bool :=
  (wish_user_id r =? u) && (wish_product_id r =? p).

(** [from('wishlist').select('id').eq(..).eq(..).maybeSingle()]: the data
    and the error. *)
Definition select_one (t : Table) (u p : string)
  : option Row * option PostgrestError :=
  match refusal t with
  | Some e => (None, Some e)
  | None =>
      match filter (about u p) (rows t) with
      | [] => (None, None)
      | [r] => (Some r, None)
      | _ => (None, Some Checkout.multiple_rows)
      end
  end.

(** [from('wishlist').delete().eq(..).eq(..)]: the error and the table. *)
Definition delete (t : Table) (u p : string) : option PostgrestError * Table :=
  match refusal t with
  | Some e => (Some e, t)
  | None =>
      (None,
       {| rows := filter (fun r => negb (about u p r)) (rows t);
          next_key := next_key t;
          refusal := refusal t |})
  end.

(** [from('wishlist').insert({ user_id, product_id })]: the table refuses a
    second row for the same user and product. *)
Definition insert (t : Table) (u p : string) : option PostgrestError * Table :=
  match refusal t with
  | Some e => (Some e, t)
  | None =>
      if existsb (about u p) (rows t) then (Some unique_violation, t)
      else
        (None,
         {| rows := rows t ++ [{| wish_id := next_key t;
                                  wish_user_id := u;
                                  wish_product_id := p |}];
            next_key := S (next_key t);
            refusal := refusal t |})
  end.

End Wishlist.

(** The heart of the product page. *)
Module ProductDetailWishlist.

Import Wishlist.

(** [checkWishlist], run for a signed-in user: the flag it sets. *)
Definition checkWishlist (t : Table) (user : User) (id : string) : bool :=
  isSome (fst (select_one t (uid user) id)).

(** [handleWishlistToggle]: the toast, the table and the flag afterwards.
    What the store answers is not looked at. *)
Definition handleWishlistToggle (t : Table) (user : option User) (id : string)
    (isWishlisted : bool) : toast * Table * bool :=
  match user with
  | None => (toast_error "Please login to save to wishlist", t, isWishlisted)
  | Some user =>
      if isWishlisted
      then (toast_success "Removed from wishlist",
            snd (delete t (uid user) id), false)
      else (toast_success "Added to wishlist",
            snd (insert t (uid user) id), true)
  end.

End ProductDetailWishlist.

(** The heart of a product card. *)
Module ProductCard.

Import Wishlist.

Definition checkWishlist (t : Table) (user : User) (product_id : string) : bool :=
  isSome (fst (select_one t (uid user) product_id)).

(** [handleWishlistToggle]: an error of the store is thrown and caught, and
    the handler of the error sets the flag to the opposite of the flag the
    click found. *)
Definition handleWishlistToggle (t : Table) (user : option User)
    (product_id : string) (isWishlisted : bool) : toast * Table * bool :=
  match user with
  | None => (toast_error "Please login to save to wishlist", t, isWishlisted)
  | Some user =>
      if isWishlisted then
        match delete t (uid user) product_id with
        | (Some error, t') =>
            (toast_error (message_or error "Failed to update wishlist"), t',
             negb isWishlisted)
        | (None, t') => (toast_success "Removed from wishlist", t', false)
        end
      else
        match insert t (uid user) product_id with
        | (Some error, t') =>
            (toast_error (message_or error "Failed to update wishlist"), t',
             negb isWishlisted)
        | (None, t') => (toast_success "Added to wishlist", t', true)
        end
  end.

End ProductCard.

(* ================================================================== *)
(** * Reviews *)
(* ================================================================== *)

Module Reviews.

(** A row of [reviews]; the table allows one review of a product by a
    user, and a rating that is a whole number from 1 to 5. *)
Record Review : Type := {
  review_id : nat;
  review_product_id : string;
  review_user_id : string;
  review_rating : number;
  review_comment : string
}.

Record Table : Type := {
  rows : list Review;
  next_key : nat;
  refusal : option PostgrestError
}.

(** What a mutation of the reviews comes to. *)
Inductive answer : Type :=
| threw (message : string)
| returned.

Definition valid_rating (rating : number) : bool :=
  PrimFloat.eqb rating 1 || PrimFloat.eqb rating 2 || PrimFloat.eqb rating 3
  || PrimFloat.eqb rating 4 || PrimFloat.eqb rating 5.

(** [from('reviews').insert(r)]: the table as it is afterwards. *)
Definition insert (t : Table) (product_id user_id : string) (rating : number)
    (comment : string) : Table :=
  match refusal t with
  | Some _ => t
  | None =>
      if existsb (fun r => (review_product_id r =? product_id)
                           && (review_user_id r =? user_id)) (rows t)
         || negb (valid_rating rating)
      then t
      else
        {| rows := rows t ++ [{| review_id := next_key t;
                                 review_product_id := product_id;
                                 review_user_id := user_id;
                                 review_rating := rating;
                                 review_comment := comment |}];
           next_key := S (next_key t);
           refusal := refusal t |}
  end.

(** [from('reviews').delete().eq('id', k).eq('user_id', u)]. *)
Definition delete (t : Table) (k : nat) (u : string) : Table :=
  match refusal t with
  | Some _ => t
  | None =>
      {| rows := filter (fun r => negb ((review_id r =? k)%nat
                                        && (review_user_id r =? u))) (rows t);
         next_key := next_key t;
         refusal := refusal t |}
  end.

(** [addReviewMutation] of the product page [id]. *)
Definition addReviewMutation (t : Table) (user : option User) (id : string)
    (rating : number) (comment : string) : answer * Table :=
  match user with
  | None => (threw "Please login", t)
  | Some user =>
      if negb (truthy_num rating) then (threw "Please select a rating", t)
      else if trim comment =? "" then (threw "Please write a comment", t)
      else (returned, insert t id (uid user) rating (trim comment))
  end.

Definition deleteReviewMutation (t : Table) (user : option User) (reviewId : nat)
  : answer * Table :=
  match user with
  | None => (threw "Please login", t)
  | Some user => (returned, delete t reviewId (uid user))
  end.

End Reviews.

(* ================================================================== *)
(** * The profile page *)
(* ================================================================== *)

Module Profile.

(** A row of [user_profiles], keyed by the user. *)
Record Row : Type := {
  profile_user_id : string;
  full_name : option string
}.

Record Table : Type := {
  rows : list Row;
  refusal : option PostgrestError
}.

(** [from('user_profiles').select('full_name').eq('user_id', u).single()]. *)
Definition select_single (t : Table) (u : string)
  : option Row * option PostgrestError :=
  match refusal t with
  | Some e => (None, Some e)
  | None =>
      match filter (fun r => profile_user_id r =? u) (rows t) with
      | [r] => (Some r, None)
      | _ => (None, Some Checkout.multiple_rows)
      end
  end.

Fixpoint replace_name (u : string) (n : string) (l : list Row) : list Row :=
  match l with
  | [] => []
  | r :: rest =>
      if profile_user_id r =? u
      then {| profile_user_id := u; full_name := Some n |} :: replace_name u n rest
      else r :: replace_name u n rest
  end.

(** [from('user_profiles').upsert({ user_id, full_name }, { onConflict:
    'user_id' })]. *)
Definition upsert (t : Table) (u : string) (n : string)
  : option PostgrestError * Table :=
  match refusal t with
  | Some e => (Some e, t)
  | None =>
      (None,
       {| rows :=
            if existsb (fun r => profile_user_id r =? u) (rows t)
            then replace_name u n (rows t)
            else rows t ++ [{| profile_user_id := u; full_name := Some n |}];
          refusal := refusal t |})
  end.

(** [fetchUserProfile] for the signed-in user: the name the page holds
    afterwards.  Any error is either passed over or caught and logged. *)
Definition fetchUserProfile (t : Table) (user : User) (fullName : string) : string :=
  match fst (select_single t (uid user)) with
  | Some data =>
      match full_name data with
      | Some n => if n =? "" then "" else n
      | None => ""
      end
  | None => fullName
  end.

(** [handleSaveName] for the signed-in user: the toast, the table and
    whether the page is still editing. *)
Definition handleSaveName (t : Table) (user : User) (fullName : string)
    (isEditing : bool) : toast * Table * bool :=
  if trim fullName =? "" then (toast_error "Please enter a name", t, isEditing)
  else
    match upsert t (uid user) (trim fullName) with
    | (Some error, t') =>
        (toast_error (message_or error "Failed to update profile"), t', isEditing)
    | (None, t') => (toast_success "Profile updated successfully", t', false)
    end.

End Profile.

(* ================================================================== *)
(** * Related products *)
(* ================================================================== *)

Module RelatedProducts.

(** A row of [products], with the columns the query reads. *)
Record ProductRow : Type := {
  row_id : string;
  row_category_id : option string;
  row_is_active : bool;
  row_created_at : Z
}.

Record Table : Type := {
  rows : list ProductRow;
  refusal : option PostgrestError
}.

(** [a] may come before [b] under
    [.order('created_at', { ascending: false })]. *)
Definition newer (a b : ProductRow) : Prop :=
  (row_created_at b <= row_created_at a)%Z.

(** [.eq('is_active', true).neq('id', id)]. *)
Definition eligible (id : string) (r : ProductRow) : bool :=
  Bool.eqb (row_is_active r) true && negb (row_id r =? id).

(** [.eq('category_id', c)]. *)
Definition in_category (c : string) (r : ProductRow) : bool :=
  opt_string_eq (row_category_id r) (Some c).

(** [.neq('category_id', c)]: a row without a category is not returned. *)
Definition in_other_category (c : string) (r : ProductRow) : bool :=
  match row_category_id r with
  | Some c' => negb (c' =? c)
  | None => false
  end.

Section Query.

(** The order the store gives the rows it returns under
    [.order('created_at', { ascending: false })]; the order of rows created
    at the same time is the store's to choose. *)
Variable newest_first : list ProductRow -> list ProductRow.

Definition sameCategory (t : Table) (category_id id : string) : list ProductRow :=
  firstn 6
    (newest_first
       (filter (fun r => in_category category_id r && eligible id r) (rows t))).

Definition others (t : Table) (category_id id : string) (limit : nat)
  : list ProductRow :=
  firstn limit
    (newest_first
       (filter (fun r => in_other_category category_id r && eligible id r)
               (rows t))).

(** The [relatedProducts] query of the page of product [id], whose category
    is [category_id]. *)
Definition relatedProducts (t : Table) (category_id id : option string)
  : outcome (list ProductRow) :=
  match str_or_null category_id, str_or_null id with
  | Some category_id, Some id =>
      match refusal t with
      | Some catError => Rejected (StoreError catError)
      | None =>
          let related := sameCategory t category_id id in
          let related :=
            if (List.length related <? 6)%nat
            then related ++ others t category_id id (6 - List.length related)
            else related in
          Resolved (firstn 6 related)
      end
  | _, _ => Resolved []
  end.

End Query.

End RelatedProducts.

(* ================================================================== *)
(** * The reviews of the product page *)
(* ================================================================== *)

Module ReviewList.

(** A review as the product page lists it: the row, and the [full_name]
    found for its author, [undefined] when none was found. *)
Record Listed : Type := {
  review : Reviews.Review;
  listed_full_name : value
}.

(** The [full_name] of a profile, as the page receives it. *)
Definition name_of (p : Profile.Row) : value :=
  match Profile.full_name p with
  | Some n => VStr n
  | None => VNull
  end.

Section Query.

(** The order the store gives the reviews it returns under
    [.order('created_at', { ascending: false })]. *)
Variable newest_first : list Reviews.Review -> list Reviews.Review.

(** The [reviews] query of the page of product [id].  The profiles are
    fetched for the authors of the reviews; when that request fails there
    are none, and no review gets a name.  Without reviews the result is the
    empty list the store returned. *)
Definition reviewsQuery (rt : Reviews.Table) (pt : Profile.Table) (id : string)
  : outcome (list Listed) :=
  match Reviews.refusal rt with
  | Some error => Rejected (StoreError error)
  | None =>
      let data :=
        newest_first
          (filter (fun r => Reviews.review_product_id r =? id) (Reviews.rows rt)) in
      let userIds := map Reviews.review_user_id data in
      let profiles :=
        match Profile.refusal pt with
        | Some _ => []
        | None =>
            filter (fun p => existsb (String.eqb (Profile.profile_user_id p)) userIds)
                   (Profile.rows pt)
        end in
      let profileMap :=
        fold_left
          (fun m p => set_prop (Profile.profile_user_id p) (name_of p) m)
          profiles [] in
      Resolved
        (map (fun r => {| review := r;
                          listed_full_name :=
                            lookup (Reviews.review_user_id r) profileMap |})
             data)
  end.

End Query.

End ReviewList.

(* ================================================================== *)
(** * The vocabulary of the statements *)
(* ================================================================== *)

Section CheckoutTerms.

Import Checkout.
Local Open Scope float_scope.

(** ** The price rule, in the specification's words

    "If either selection carries a non-NaN numeric price, effective price =
    sum of the two (missing one treated as 0).  Otherwise, effective price =
    product.salePrice if present else product.basePrice." *)

Definition carries_price (p : option number) : bool :=
  match p with
  | Some x => negb (Number_isNaN x)
  | None => false
  end.

Definition price_or_zero (p : option number) : number :=
  match p with
  | Some x => if Number_isNaN x then 0 else x
  | None => 0
  end.

Definition resolvedPrice (basePrice : number) (salePrice : option number)
    (variantPrice measurementPrice : option number) : number :=
  if carries_price variantPrice || carries_price measurementPrice
  then price_or_zero variantPrice + price_or_zero measurementPrice
  else match salePrice with
       | Some s => s
       | None => basePrice
       end.

(** The variant price a cart line recorded: its [variant_price] column, or
    the price inside its variant snapshot. *)
Definition recordedVariantPrice (r : CartRow) : option number :=
  match variant_price r with
  | Some p => Some p
  | None =>
      match variant_selection r with
      | Some vs => vo_price vs
      | None => None
      end
  end.

Definition not_NaN (p : option number) : Prop :=
  forall x, p = Some x -> Number_isNaN x = false.

(** What an order line must be for the cart line it was taken from. *)
Definition snapshot_of (order : Order) (line : OrderItem) (item : CartItem) : Prop :=
  oi_order_id line = order_id order
  /\ oi_product_id line = product_id (row item)
  /\ oi_quantity_litres line = quantity_litres (row item)
  /\ oi_price_per_litre line = pricePerLitre item
  /\ (forall p,
         products item = Some p ->
         not_NaN (recordedVariantPrice (row item)) ->
         not_NaN (measurement_price (row item)) ->
         oi_price_per_litre line =
         resolvedPrice (price_per_litre p) (offer_price_per_litre p)
                       (recordedVariantPrice (row item))
                       (measurement_price (row item))).

(** ** The discount, in the specification's words

    "Discount = percentage type: min(subtotal x value/100, maxDiscountAmount
    or unbounded); fixed type: value verbatim."  [smaller x y] is the lesser
    of two numbers, and a cap is set when the column holds a number. *)

Definition smaller (x y : number) : number := if PrimFloat.ltb y x then y else x.

Definition claimedDiscount (c : Coupon) (subtotal : number) : number :=
  if (discount_type c =? "percentage")%string
  then match max_discount_amount c with
       | Some m => smaller (subtotal * discount_value c / 100) m
       | None => subtotal * discount_value c / 100
       end
  else discount_value c.

(** The row [data] is the active coupon that carries the code [k]; codes are
    unique in [coupons]. *)
Definition is_the_coupon (st : Store) (k : string) (data : Coupon) : Prop :=
  NoDup (map code (coupons st))
  /\ In data (coupons st)
  /\ code data = k
  /\ is_active data = true.

End CheckoutTerms.

Section ProductPageTerms.

Import ProductDetail.

Definition variantPriceOf (sv : option VariantOption) : option number :=
  match sv with
  | Some v => vo_price v
  | None => None
  end.

Definition measurementPriceOf (sm : option MeasurementOption) : option number :=
  match sm with
  | Some m => mo_price m
  | None => None
  end.

(** [selectionMissing] of the product page: a product with options whose
    option is not chosen yet. *)
Definition selectionMissing (ui : State) (p : Product) : bool :=
  (hasVariants p && negb (isSome (selectedVariant ui)))
  || (hasMeasurements p && negb (isSome (selectedMeasurement ui))).

(** The rows of the user's cart for the product of the page. *)
Definition lines_of (u : User) (ui : State) (rows : list CartRow) : list CartRow :=
  filter (fun r => (user_id r =? uid u) && (product_id r =? route_id ui)) rows.

(** The row add-to-cart inserts when no line matches. *)
Definition newLine (st : Store) (u : User) (p : Product) (ui : State) : CartRow :=
  {| id := next_id st;
     user_id := uid u;
     product_id := route_id ui;
     quantity_litres := quantity ui;
     variant_selection := selectedVariant ui;
     variant_price :=
       match selectedVariant ui with
       | Some sv => vo_price sv
       | None => None
       end;
     measurement_label := str_or_null (measurement_title p);
     measurement_value :=
       match selectedMeasurement ui with
       | Some sm => coalesce (mo_label sm) VNull
       | None => VNull
       end;
     measurement_price :=
       match selectedMeasurement ui with
       | Some sm => mo_price sm
       | None => None
       end |}.

(** The label of the selected measurement, as the matcher reads it. *)
Definition candidateLabel (sm : option MeasurementOption) : value :=
  match sm with
  | Some m => coalesce (mo_label m) VNull
  | None => VNull
  end.

(** What the matcher compares a stored [measurement_value] by: a string as
    it is stored, an object by its [label], anything else as [null]. *)
Definition comparedLabel (stored : value) : value :=
  if is_string stored then stored else coalesce (get "label" stored) VNull.

(** What every option out of the variant parser satisfies: a trimmed label
    that is not empty, an image address that is not empty, a price that is
    not [NaN]. *)
Definition normal_variant (o : VariantOption) : Prop :=
  trim (vo_label o) = vo_label o
  /\ vo_label o <> EmptyString
  /\ (forall u, vo_image_url o = Some u -> u <> EmptyString)
  /\ (forall p, vo_price o = Some p -> Number_isNaN p = false).

(** The option an object of the parser is read as: [option.label],
    [option.image_url ?? null], [option.price ?? null]. *)
Definition VariantOption_of (o : value) : VariantOption :=
  {| vo_label := match get "label" o with VStr l => l | _ => "" end;
     vo_image_url := match get "image_url" o with VStr u => Some u | _ => None end;
     vo_price := match get "price" o with VNum p => Some p | _ => None end |}.

(** An object with its [image_url] key written, [null] where it had none. *)
Definition with_image_url (o : value) : value :=
  match o with
  | VObj props =>
      match lookup "image_url" props with
      | VUndefined => VObj (props ++ [("image_url", VNull)])
      | _ => o
      end
  | _ => o
  end.

(** What the callback of [parseVariantOptions] returns: a trimmed label
    that is not empty, then maybe an image that is [null] or a non-empty
    string, then maybe a price that is not [NaN]. *)
Inductive parsed_image_url : value -> Prop :=
| image_null : parsed_image_url VNull
| image_string (u : string) : u <> EmptyString -> parsed_image_url (VStr u).

Inductive parsed_option : value -> Prop :=
| parsed_label (l : string) :
    trim l = l -> l <> EmptyString -> parsed_option (VObj [("label", VStr l)])
| parsed_image (l : string) (i : value) :
    trim l = l -> l <> EmptyString -> parsed_image_url i ->
    parsed_option (VObj [("label", VStr l); ("image_url", i)])
| parsed_price (l : string) (i : value) (p : number) :
    trim l = l -> l <> EmptyString -> parsed_image_url i ->
    Number_isNaN p = false ->
    parsed_option (VObj [("label", VStr l); ("image_url", i); ("price", VNum p)]).

(** The plain reading of a string: its trimmed text as the label, and
    nothing when that is empty. *)
Definition plainMeasurement (s : string) : option MeasurementOption :=
  if trim s =? "" then None
  else Some {| mo_label := VStr (trim s); mo_price := None |}.

(** An option with its [NaN] price taken away. *)
Definition drop_NaN (o : MeasurementOption) : MeasurementOption :=
  {| mo_label := mo_label o;
     mo_price :=
       match mo_price o with
       | Some p => if Number_isNaN p then None else Some p
       | None => None
       end |}.

End ProductPageTerms.

Section CartTerms.

(** A measurement label that is text, or no label at all: what the
    [measurement_value] column of a cart line keeps as it is. *)
Definition text_or_null (v : value) : bool :=
  match v with
  | VStr _ | VNull => true
  | _ => false
  end.

(** The columns of the unique index of [cart_items]: the user, the product,
    the label of the variant and the measurement value. *)
Definition cart_key (r : CartRow) : string * string * option string * value :=
  (user_id r, product_id r, option_map vo_label (variant_selection r),
   measurement_value r).

End CartTerms.

Section OrderTerms.

Local Open Scope float_scope.

Definition is_store_error (e : error) : bool :=
  match e with
  | StoreError _ => true
  | _ => false
  end.

(** The sum of the totals of the lines of an order, guarded as [subtotal]
    is. *)
Definition sum_of_lines (lines : list OrderItem) : number :=
  let s := fold_left (fun sum l => sum + oi_total_price l) lines 0 in
  if truthy_num s then s else 0.

(** The tables of [st], in a store that answers the requests to come by
    [later]. *)
Definition answering (later : table -> option PostgrestError) (st : Store)
  : Store :=
  {| catalog := catalog st;
     coupons := coupons st;
     cart_items := cart_items st;
     orders := orders st;
     order_items := order_items st;
     next_id := next_id st;
     refuses := later |}.

(** [UNIQUE (order_number)] of the table [orders]. *)
Definition unique_order_numbers (st : Store) : Prop :=
  NoDup (map order_number (orders st)).

(** A lower-case ASCII letter, and a text that holds one. *)
Definition is_lower (c : ascii) : bool :=
  ((97 <=? nat_of_ascii c) && (nat_of_ascii c <=? 122))%nat.

Fixpoint has_lower (s : string) : bool :=
  match s with
  | String c rest => is_lower c || has_lower rest
  | EmptyString => false
  end.

End OrderTerms.

Section WishlistTerms.

(** Whether the wishlist holds the product for the user, and the rows it
    holds for anything else. *)
Definition wished (t : Wishlist.Table) (u p : string) : bool :=
  existsb (Wishlist.about u p) (Wishlist.rows t).

Definition wished_elsewhere (t : Wishlist.Table) (u p : string) : list Wishlist.Row :=
  filter (fun r => negb (Wishlist.about u p r)) (Wishlist.rows t).

(** The table holds at most one row for the user and the product, as its
    unique constraint asks. *)
Definition wished_once (t : Wishlist.Table) (u p : string) : Prop :=
  (List.length (filter (Wishlist.about u p) (Wishlist.rows t)) <= 1)%nat.

End WishlistTerms.

Section ReviewTerms.

(** The reviews of a product by a user, and the reviews by other users. *)
Definition reviews_of (t : Reviews.Table) (p u : string) : list Reviews.Review :=
  filter (fun r => (Reviews.review_product_id r =? p)
                   && (Reviews.review_user_id r =? u)) (Reviews.rows t).

Definition reviews_by_others (t : Reviews.Table) (u : string) : list Reviews.Review :=
  filter (fun r => negb (Reviews.review_user_id r =? u)) (Reviews.rows t).

End ReviewTerms.

Section ProfileTerms.

(** The profiles of the other users. *)
Definition profiles_of_others (t : Profile.Table) (u : string) : list Profile.Row :=
  filter (fun r => negb (Profile.profile_user_id r =? u)) (Profile.rows t).

(** The profiles once the user has saved a name. *)
Definition after_saving (t : Profile.Table) (user : User) (fullName : string)
  : Profile.Table :=
  snd (fst (Profile.handleSaveName t user fullName true)).

End ProfileTerms.

(* ================================================================== *)
(** * Sample data *)
(* ================================================================== *)

Section SampleData.

Import ProductDetail.
Local Open Scope float_scope.

(** A product at 100 a litre, on sale at 80, and a variant whose price is
    zero. *)
Definition oil : Product :=
  {| name := "Groundnut oil";
     price_per_litre := 100;
     offer_price_per_litre := Some 80;
     variant_enabled := true;
     variant_title := Some "Pack";
     variant_values := VArr [VObj [("label", VStr "Sample"); ("price", VNum 0)]];
     measurement_enabled := false;
     measurement_title := None;
     measurement_values := VNull |}.

Definition sample_pack : VariantOption :=
  {| vo_label := "Sample"; vo_image_url := None; vo_price := Some 0 |}.

Definition sample_line : CartItem :=
  {| row := {| id := 1;
               user_id := "u1";
               product_id := "p1";
               quantity_litres := 1;
               variant_selection := Some sample_pack;
               variant_price := Some 0;
               measurement_label := None;
               measurement_value := VNull;
               measurement_price := None |};
     products := Some oil |}.

(** The text [{"label":l,"price":p}]. *)
Definition json_option (l p : string) : string :=
  ("{" ++ quoted "label" ++ ":" ++ quoted l ++ ","
       ++ quoted "price" ++ ":" ++ p ++ "}")%string.

(** A cart line whose measurement was stored as JSON text, as the cart page
    expects some to be, and the measurement "M" selected on the product
    page. *)
Definition json_line : CartRow :=
  {| id := 7;
     user_id := "u1";
     product_id := "p1";
     quantity_litres := 1%float;
     variant_selection := None;
     variant_price := None;
     measurement_label := Some "Size";
     measurement_value := VStr (json_option "M" "100");
     measurement_price := Some 100%float |}.

Definition size_M : MeasurementOption :=
  {| mo_label := VStr "M"; mo_price := Some 100%float |}.

Definition shirt : Product :=
  {| name := "Shirt";
     price_per_litre := 500%float;
     offer_price_per_litre := None;
     variant_enabled := false;
     variant_title := None;
     variant_values := VArr [];
     measurement_enabled := true;
     measurement_title := Some "Size";
     measurement_values := VArr [VStr (json_option "M" "100")] |}.

Definition shirt_page : State :=
  {| user := Some {| uid := "u1" |};
     product := Some shirt;
     route_id := "p1";
     quantity := 2%float;
     selectedVariant := None;
     selectedMeasurement := Some size_M |}.

Definition json_cart : Store :=
  {| catalog := [("p1", shirt)];
     coupons := [];
     cart_items := [json_line];
     orders := [];
     order_items := [];
     next_id := 8;
     refuses := fun _ => None |}.

(** Raw measurement values that the parser mishandles: JSON text whose
    price is not numeric, JSON text whose label has spaces around it, and an
    object whose label has spaces around it. *)
Definition raw_bad_price : value := VStr (json_option "1L" (quoted "abc")).

Definition raw_spaced_json : value := VStr (json_option " 1L " "120").

Definition raw_spaced_object : value :=
  VObj [("label", VStr " 1L "); ("price", VNum 120%float)].

(** The coupon SAVE10 of the specification: ten per cent, no cap. *)
Definition save10 : Coupon :=
  {| code := "SAVE10";
     discount_type := "percentage";
     discount_value := 10;
     min_order_amount := None;
     max_discount_amount := None;
     valid_until := None;
     is_active := true |}.

(** The same with a cap of zero. *)
Definition save10_cap0 : Coupon :=
  {| code := "SAVE10";
     discount_type := "percentage";
     discount_value := 10;
     min_order_amount := None;
     max_discount_amount := Some 0;
     valid_until := None;
     is_active := true |}.

(** The same with a minimum order amount of 100, and expired at time 1000. *)
Definition save10_min100 : Coupon :=
  {| code := "SAVE10";
     discount_type := "percentage";
     discount_value := 10;
     min_order_amount := Some 100;
     max_discount_amount := None;
     valid_until := Some 1000;
     is_active := true |}.

(** Twenty off, whatever the order. *)
Definition flat20 : Coupon :=
  {| code := "FLAT20";
     discount_type := "fixed";
     discount_value := 20;
     min_order_amount := None;
     max_discount_amount := None;
     valid_until := None;
     is_active := true |}.

Definition plain_product (n : string) (price : number) : Product :=
  {| name := n;
     price_per_litre := price;
     offer_price_per_litre := None;
     variant_enabled := false;
     variant_title := None;
     variant_values := VArr [];
     measurement_enabled := false;
     measurement_title := None;
     measurement_values := VNull |}.

Definition plain_line (k : nat) (pid : string) (p : Product) (q : number) : CartItem :=
  {| row := {| id := k;
               user_id := "u1";
               product_id := pid;
               quantity_litres := q;
               variant_selection := None;
               variant_price := None;
               measurement_label := None;
               measurement_value := VNull;
               measurement_price := None |};
     products := Some p |}.

Definition sesame : Product := plain_product "Sesame oil" 100.

Definition coconut : Product := plain_product "Coconut oil" 50.

(** A store with the two products, the coupons and nothing else. *)
Definition shop (cs : list Coupon) (broken : table -> option PostgrestError) : Store :=
  {| catalog := [("p1", sesame); ("p2", coconut)];
     coupons := cs;
     cart_items := [];
     orders := [];
     order_items := [];
     next_id := 1;
     refuses := broken |}.

Definition healthy : table -> option PostgrestError := fun _ => None.

(** The same store with the cart of user [u1]: a litre of each product. *)
Definition stocked : Store :=
  {| catalog := [("p1", sesame); ("p2", coconut)];
     coupons := [flat20];
     cart_items := [row (plain_line 1 "p1" sesame 1);
                    row (plain_line 2 "p2" coconut 1)];
     orders := [];
     order_items := [];
     next_id := 3;
     refuses := healthy |}.

Definition lines_refused : table -> option PostgrestError :=
  fun t =>
    match t with
    | t_order_items =>
        Some {| pg_code := "42501";
                pg_message := "new row violates row-level security policy" |}
    | _ => None
    end.

(** A checkout page with two lines that total 150 and FLAT20 applied. *)
Definition checkout_150 : Checkout.State :=
  {| Checkout.user := Some {| uid := "u1" |};
     Checkout.cartItems :=
       Some [plain_line 1 "p1" sesame 1; plain_line 2 "p2" coconut 1];
     Checkout.address := "12 Mill Road, Erode";
     Checkout.couponCode := "";
     Checkout.appliedCoupon := Some flat20 |}.

(** A checkout page with one line worth 50 and the code typed in lower
    case. *)
Definition checkout_50 : Checkout.State :=
  {| Checkout.user := Some {| uid := "u1" |};
     Checkout.cartItems := Some [plain_line 2 "p2" coconut 1];
     Checkout.address := "12 Mill Road, Erode";
     Checkout.couponCode := "save10";
     Checkout.appliedCoupon := None |}.

(** A coupon whose code is not all ASCII, and a checkout page with that
    code typed in lower case. *)
Definition cafe10 : Coupon :=
  {| code := "CAFÉ10";
     discount_type := "percentage";
     discount_value := 10;
     min_order_amount := None;
     max_discount_amount := None;
     valid_until := None;
     is_active := true |}.

Definition checkout_cafe : Checkout.State :=
  {| Checkout.user := Some {| uid := "u1" |};
     Checkout.cartItems := Some [plain_line 2 "p2" coconut 1];
     Checkout.address := "12 Mill Road, Erode";
     Checkout.couponCode := "café10";
     Checkout.appliedCoupon := None |}.

(** The no-break space (U+00A0) and the ideographic space (U+3000), in
    UTF-8. *)
Definition no_break_space : string :=
  String (ascii_of_nat 194) (String (ascii_of_nat 160) EmptyString).

Definition ideographic_space : string :=
  String (ascii_of_nat 227)
    (String (ascii_of_nat 128) (String (ascii_of_nat 128) EmptyString)).

(** A product page of a product without options, and the quantity asked. *)
Definition sesame_page (q : number) : ProductDetail.State :=
  {| ProductDetail.user := Some {| uid := "u1" |};
     ProductDetail.product := Some sesame;
     ProductDetail.route_id := "p1";
     ProductDetail.quantity := q;
     ProductDetail.selectedVariant := None;
     ProductDetail.selectedMeasurement := None |}.

(** A product with two colours, and its page with one of them selected. *)
Definition paint : Product :=
  {| name := "Paint";
     price_per_litre := 300;
     offer_price_per_litre := None;
     variant_enabled := true;
     variant_title := Some "Colour";
     variant_values := VArr [VStr "Red"; VStr "Blue"];
     measurement_enabled := false;
     measurement_title := None;
     measurement_values := VNull |}.

Definition paint_page (colour : string) : ProductDetail.State :=
  {| ProductDetail.user := Some {| uid := "u1" |};
     ProductDetail.product := Some paint;
     ProductDetail.route_id := "p3";
     ProductDetail.quantity := 1;
     ProductDetail.selectedVariant :=
       Some {| vo_label := colour; vo_image_url := None; vo_price := None |};
     ProductDetail.selectedMeasurement := None |}.

(** Two colours as an admin may store them: one as text with spaces
    around it, one as an object with its price as text. *)
Definition colours : value :=
  VArr [VStr " Red ";
        VObj [("label", VStr "Blue"); ("price", VStr "5")]].

(** SAVE10 with a cap of 15. *)
Definition save10_cap15 : Coupon :=
  {| code := "SAVE10";
     discount_type := "percentage";
     discount_value := 10;
     min_order_amount := None;
     max_discount_amount := Some 15;
     valid_until := None;
     is_active := true |}.

(** A coupon stored with its code in lower case. *)
Definition save10_lower : Coupon :=
  {| code := "save10";
     discount_type := "percentage";
     discount_value := 10;
     min_order_amount := None;
     max_discount_amount := None;
     valid_until := None;
     is_active := true |}.

(** A store that refuses the cart. *)
Definition cart_refused : table -> option PostgrestError :=
  fun t =>
    match t with
    | t_cart_items =>
        Some {| pg_code := "42501";
                pg_message := "new row violates row-level security policy" |}
    | _ => None
    end.

(** A cart line of user [u1] for the shirt in size L, stored as a bare
    label. *)
Definition size_L_line : CartItem :=
  {| row := {| id := 4;
               user_id := "u1";
               product_id := "p1";
               quantity_litres := 1;
               variant_selection := None;
               variant_price := None;
               measurement_label := Some "Size";
               measurement_value := VStr "L";
               measurement_price := Some 120 |};
     products := Some shirt |}.
(** A wishlist that holds the sesame oil for user [u1], and the same
    wishlist when the store refuses it. *)
Definition wishes (broken : option PostgrestError) : Wishlist.Table :=
  {| Wishlist.rows := [{| Wishlist.wish_id := 1;
                          Wishlist.wish_user_id := "u1";
                          Wishlist.wish_product_id := "p1" |}];
     Wishlist.next_key := 2;
     Wishlist.refusal := broken |}.

Definition policy_violation : PostgrestError :=
  {| pg_code := "42501";
     pg_message := "new row violates row-level security policy" |}.

(** The profiles of two users. *)
Definition profiles : Profile.Table :=
  {| Profile.rows := [{| Profile.profile_user_id := "u1";
                         Profile.full_name := Some "Old name" |};
                      {| Profile.profile_user_id := "u2";
                         Profile.full_name := None |}];
     Profile.refusal := None |}.
(** A catalogue of six products: the page is that of [p1], in category
    [c1]. *)
Definition shelf : RelatedProducts.Table :=
  {| RelatedProducts.rows :=
       [{| RelatedProducts.row_id := "p1";
           RelatedProducts.row_category_id := Some "c1";
           RelatedProducts.row_is_active := true;
           RelatedProducts.row_created_at := 10 |};
        {| RelatedProducts.row_id := "p2";
           RelatedProducts.row_category_id := Some "c1";
           RelatedProducts.row_is_active := true;
           RelatedProducts.row_created_at := 20 |};
        {| RelatedProducts.row_id := "p3";
           RelatedProducts.row_category_id := Some "c1";
           RelatedProducts.row_is_active := true;
           RelatedProducts.row_created_at := 30 |};
        {| RelatedProducts.row_id := "p4";
           RelatedProducts.row_category_id := Some "c1";
           RelatedProducts.row_is_active := false;
           RelatedProducts.row_created_at := 40 |};
        {| RelatedProducts.row_id := "p5";
           RelatedProducts.row_category_id := Some "c2";
           RelatedProducts.row_is_active := true;
           RelatedProducts.row_created_at := 50 |};
        {| RelatedProducts.row_id := "p6";
           RelatedProducts.row_category_id := None;
           RelatedProducts.row_is_active := true;
           RelatedProducts.row_created_at := 60 |}];
     RelatedProducts.refusal := None |}.

(** Two reviews of the sesame oil, by [u1] and by [u2]. *)
Definition review_book : Reviews.Table :=
  {| Reviews.rows :=
       [{| Reviews.review_id := 1;
           Reviews.review_product_id := "p1";
           Reviews.review_user_id := "u1";
           Reviews.review_rating := 5;
           Reviews.review_comment := "Good oil" |};
        {| Reviews.review_id := 2;
           Reviews.review_product_id := "p1";
           Reviews.review_user_id := "u2";
           Reviews.review_rating := 4;
           Reviews.review_comment := "Fine" |}];
     Reviews.next_key := 3;
     Reviews.refusal := None |}.
End SampleData.

(** An order the store may give: merge sort on the time of creation, newest
    first. *)
Module NewestFirst <: TotalLeBool.

Definition t : Type := RelatedProducts.ProductRow.

Definition leb (a b : t) : bool :=
  (RelatedProducts.row_created_at b <=? RelatedProducts.row_created_at a)%Z.

Lemma leb_total : forall a b : t, leb a b = true \/ leb b a = true.
Proof.
  intros a b. unfold leb.
  destruct (Z.leb_spec (RelatedProducts.row_created_at b)
                       (RelatedProducts.row_created_at a)) as [L | L].
  - now left.
  - right. apply Z.leb_le. lia.
Qed.

End NewestFirst.

Module NewestFirstSort := Sort NewestFirst.

(* ================================================================== *)
(** * Facts about numbers *)
(* ================================================================== *)

Section NumberFacts.

Local Open Scope float_scope.

Lemma SFcompare_finite_refl (s : bool) (m : positive) (e : Z) :
  SFcompare (S754_finite s m e) (S754_finite s m e) = Some Eq.
Proof.
  simpl. rewrite Z.compare_refl.
  assert (H : PosDef.Pos.compare_cont Eq m m = Eq)
    by apply Pos.compare_cont_refl.
  rewrite H. destruct s; reflexivity.
Qed.

Lemma is_nan_Prim2SF (x : number) :
  PrimFloat.is_nan x = true -> Prim2SF x = S754_nan.
Proof.
  unfold PrimFloat.is_nan. rewrite FloatAxioms.eqb_spec. unfold SFeqb.
  destruct (Prim2SF x) as [s | s | | s m e]; try reflexivity.
  - destruct s; discriminate.
  - destruct s; discriminate.
  - rewrite SFcompare_finite_refl. discriminate.
Qed.

(** There is one [NaN]. *)
Lemma is_nan_eq (x : number) : PrimFloat.is_nan x = true -> x = PrimFloat.nan.
Proof.
  intros H. apply is_nan_Prim2SF in H.
  rewrite <- (SF2Prim_Prim2SF x), H. reflexivity.
Qed.

(** [Math.min(x, Infinity)] is [x], whatever [x] is. *)
Lemma Math_min_Infinity (x : number) : Math_min x Infinity = x.
Proof.
  unfold Math_min, Infinity.
  destruct (PrimFloat.is_nan x) eqn:N.
  - simpl. symmetry. now apply is_nan_eq.
  - replace (PrimFloat.is_nan infinity) with false by reflexivity. simpl.
    rewrite !FloatAxioms.ltb_spec. unfold is_neg_zero.
    rewrite FloatAxioms.classify_spec.
    replace (Prim2SF infinity) with (S754_infinity false) by reflexivity.
    unfold PrimFloat.is_nan in N. rewrite FloatAxioms.eqb_spec in N.
    pose proof (SF2Prim_Prim2SF x) as R.
    destruct (Prim2SF x) as [s | s | | s m e].
    + destruct s; reflexivity.
    + destruct s; simpl.
      * reflexivity.
      * rewrite <- R. reflexivity.
    + discriminate.
    + destruct s; reflexivity.
Qed.

(** A bound above a non-negative number is truthy. *)
Lemma above_nonneg_truthy (s m : number) :
  PrimFloat.leb 0 s = true -> PrimFloat.ltb s m = true -> truthy_num m = true.
Proof.
  unfold truthy_num, PrimFloat.is_nan.
  rewrite FloatAxioms.leb_spec, FloatAxioms.ltb_spec, !FloatAxioms.eqb_spec.
  replace (Prim2SF 0) with (S754_zero false) by reflexivity.
  unfold SFleb, SFltb, SFeqb.
  destruct (Prim2SF m) as [sm | sm | | sm mm em].
  - destruct (Prim2SF s) as [ss | ss | | ss ms es]; simpl;
      try destruct ss; try destruct sm; simpl; discriminate.
  - destruct sm; simpl; reflexivity.
  - destruct (Prim2SF s) as [ss | ss | | ss ms es]; simpl;
      try destruct ss; simpl; discriminate.
  - rewrite SFcompare_finite_refl. destruct sm; reflexivity.
Qed.

(** Taking a positive number from zero leaves a negative one. *)
Lemma zero_minus_positive (v : number) :
  PrimFloat.ltb 0 v = true -> PrimFloat.ltb (0 - v) 0 = true.
Proof.
  rewrite !FloatAxioms.ltb_spec, FloatAxioms.sub_spec.
  replace (Prim2SF 0) with (S754_zero false) by reflexivity.
  unfold SFltb, SF64sub.
  destruct (Prim2SF v) as [sv | sv | | sv mv ev]; simpl;
    try destruct sv; simpl; try discriminate; reflexivity.
Qed.

(** The order of two numbers, read from either side. *)
Lemma SFcompare_swap (a b : spec_float) :
  SFcompare b a = option_map CompOpp (SFcompare a b).
Proof.
  destruct a as [sa | sa | | sa ma ea], b as [sb | sb | | sb mb eb]; simpl;
    try destruct sa; try destruct sb; simpl; try reflexivity;
    change (PosDef.Pos.compare_cont Eq ?p ?q) with (Pos.compare p q);
    rewrite (Z.compare_antisym ea eb), (Pos.compare_antisym ma mb);
    destruct (ea ?= eb)%Z; simpl; try reflexivity;
    destruct (ma ?= mb)%positive; reflexivity.
Qed.

Lemma SFcompare_antisym (a b : spec_float) :
  SFcompare a b = Some Lt -> SFcompare b a = Some Gt.
Proof. intros H. rewrite SFcompare_swap, H. reflexivity. Qed.

Lemma SFcompare_Eq_eq (a b : spec_float) :
  SFcompare a b = Some Eq ->
  (forall s, b <> S754_zero s) -> a = b.
Proof.
  destruct a as [sa | sa | | sa ma ea], b as [sb | sb | | sb mb eb]; simpl;
    try destruct sa; try destruct sb; simpl; try congruence;
    intros H Z; try (exfalso; eapply Z; reflexivity);
    change (PosDef.Pos.compare_cont Eq ma mb) with (Pos.compare ma mb) in H;
    destruct (ea ?= eb)%Z eqn:E; simpl in H; try congruence;
    apply Z.compare_eq in E; subst eb;
    destruct (ma ?= mb)%positive eqn:P; simpl in H; try congruence;
    apply Pos.compare_eq in P; now subst.
Qed.

Lemma SFcompare_total (a b : spec_float) :
  a <> S754_nan -> b <> S754_nan ->
  SFcompare a b = Some Lt \/ SFcompare b a = Some Lt \/ SFcompare a b = Some Eq.
Proof.
  intros Na Nb. rewrite (SFcompare_swap a b).
  destruct (SFcompare a b) as [[| |] |] eqn:C; simpl; auto.
  exfalso.
  destruct a as [sa | sa | | sa ma ea], b as [sb | sb | | sb mb eb]; simpl in *;
    congruence.
Qed.

(** A truthy number is neither [NaN] nor a zero. *)
Lemma truthy_Prim2SF (m : number) :
  truthy_num m = true ->
  Prim2SF m <> S754_nan /\ forall s, Prim2SF m <> S754_zero s.
Proof.
  unfold truthy_num, PrimFloat.is_nan. rewrite !FloatAxioms.eqb_spec.
  replace (Prim2SF 0) with (S754_zero false) by reflexivity.
  intros H. split.
  - intros E. rewrite E in H. discriminate.
  - intros s E. rewrite E in H. destruct s; discriminate.
Qed.

(** Against a truthy cap, [Math.min] is the lesser of the two. *)
Lemma Math_min_smaller (x m : number) :
  truthy_num m = true -> Math_min x m = smaller x m.
Proof.
  intros T. destruct (truthy_Prim2SF m T) as [Nm Zm].
  unfold Math_min, smaller.
  destruct (PrimFloat.is_nan x) eqn:Nx.
  - simpl. pose proof (is_nan_eq x Nx) as E. subst x.
    rewrite FloatAxioms.ltb_spec. unfold SFltb.
    replace (Prim2SF nan) with S754_nan by reflexivity.
    destruct (Prim2SF m) as [s | s | | s mm e]; try destruct s; reflexivity.
  - assert (Nm' : PrimFloat.is_nan m = false).
    { unfold truthy_num in T. destruct (PrimFloat.is_nan m); [| reflexivity].
      rewrite andb_false_r in T. discriminate. }
    rewrite Nm'. simpl.
    assert (Hx : Prim2SF x <> S754_nan).
    { unfold PrimFloat.is_nan in Nx. rewrite FloatAxioms.eqb_spec in Nx.
      intros E. rewrite E in Nx. discriminate. }
    rewrite !FloatAxioms.ltb_spec. unfold SFltb.
    destruct (SFcompare_total _ _ Hx Nm) as [L | [G | E]].
    + rewrite L, (SFcompare_antisym _ _ L). reflexivity.
    + rewrite G, (SFcompare_antisym _ _ G). reflexivity.
    + rewrite E.
      pose proof (SFcompare_Eq_eq _ _ E Zm) as Q.
      apply Prim2SF_inj in Q. subst m.
      destruct (SFcompare (Prim2SF x) (Prim2SF x)) as [[| |] |];
        destruct (is_neg_zero x); reflexivity.
Qed.

End NumberFacts.

(* ================================================================== *)
(** * The coupon discount *)
(* ================================================================== *)

Section CouponDiscount.

Import Checkout.
Local Open Scope float_scope.

Lemma discount_percentage (c : Coupon) (s : number) :
  discount_type c = "percentage" ->
  discount (Some c) s =
  Math_min (s * discount_value c / 100)
           (match max_discount_amount c with
            | Some m => if truthy_num m then m else Infinity
            | None => Infinity
            end).
Proof.
  intros T. unfold discount. rewrite T. reflexivity.
Qed.

(** C6, as amended: a fixed coupon gives its [discount_value] as it is,
    whatever the subtotal, so the final amount goes below zero for a
    subtotal smaller than a positive value (at subtotal [0] for one); a
    percentage coupon gives the lesser of [subtotal * value / 100] and
    [max_discount_amount] when the cap is a number other than a zero and
    [NaN], and [subtotal * value / 100] otherwise: when the cap is [null],
    and also when it is a zero or [NaN].  Wherever the cap is not such a
    number, the discount is the one of the specification. *)
Theorem discount_of_coupon :
  (forall c s, discount_type c = "fixed" ->
               discount (Some c) s = discount_value c)
  /\ (forall c, discount_type c = "fixed" ->
                PrimFloat.ltb 0 (discount_value c) = true ->
                exists s,
                  PrimFloat.ltb s (discount_value c) = true
                  /\ PrimFloat.ltb (s - discount (Some c) s) 0 = true)
  /\ (forall c s m, discount_type c = "percentage" ->
                    max_discount_amount c = Some m ->
                    truthy_num m = true ->
                    discount (Some c) s =
                    smaller (s * discount_value c / 100) m)
  /\ (forall c s, discount_type c = "percentage" ->
                  max_discount_amount c = None ->
                  discount (Some c) s = s * discount_value c / 100)
  /\ (forall c s m, discount_type c = "percentage" ->
                    max_discount_amount c = Some m ->
                    truthy_num m = false ->
                    discount (Some c) s = s * discount_value c / 100)
  /\ (forall c s, match max_discount_amount c with
                  | Some m => truthy_num m
                  | None => true
                  end = true ->
                  discount (Some c) s = claimedDiscount c s).
Proof.
  split; [| split; [| split; [| split; [| split]]]].
  - intros c s T. unfold discount. rewrite T. reflexivity.
  - intros c T P. exists 0. split; [exact P |].
    unfold discount. rewrite T. simpl. now apply zero_minus_positive.
  - intros c s m T M Hm. rewrite (discount_percentage c s T), M, Hm.
    now apply Math_min_smaller.
  - intros c s T M. rewrite (discount_percentage c s T), M.
    apply Math_min_Infinity.
  - intros c s m T M Hm. rewrite (discount_percentage c s T), M, Hm.
    apply Math_min_Infinity.
  - intros c s H. unfold discount, claimedDiscount.
    destruct (discount_type c =? "percentage")%string; [| reflexivity].
    destruct (max_discount_amount c) as [m |].
    + rewrite H. now apply Math_min_smaller.
    + apply Math_min_Infinity.
Qed.

(** C10: a percentage coupon whose [max_discount_amount] is falsy ([null],
    a zero or [NaN]) is not capped at all: [Infinity] takes the place of
    the cap and the discount is [subtotal * value / 100]. *)
Theorem discount_falsy_cap_is_no_cap :
  forall c s,
    discount_type c = "percentage" ->
    match max_discount_amount c with
    | Some m => truthy_num m
    | None => false
    end = false ->
    discount (Some c) s = (s * discount_value c / 100).
Proof.
  intros c s T F. rewrite (discount_percentage c s T).
  destruct (max_discount_amount c) as [m |].
  - rewrite F. apply Math_min_Infinity.
  - apply Math_min_Infinity.
Qed.

End CouponDiscount.

(* ================================================================== *)
(** * The coupon evaluator *)
(* ================================================================== *)

Section CouponEvaluator.

Import Checkout.

Lemma filter_code_absent (k : string) (l : list Coupon) :
  ~ In k (map code l) ->
  filter (fun r => (code r =? k) && Bool.eqb (is_active r) true) l = [].
Proof.
  induction l as [| c l IH]; simpl; intros H; [reflexivity |].
  destruct (String.eqb_spec (code c) k) as [E | E].
  - exfalso. apply H. now left.
  - simpl. apply IH. intros I. apply H. now right.
Qed.

Lemma filter_code_unique (k : string) (l : list Coupon) (data : Coupon) :
  NoDup (map code l) -> In data l -> code data = k -> is_active data = true ->
  filter (fun r => (code r =? k) && Bool.eqb (is_active r) true) l = [data].
Proof.
  induction l as [| c l IH]; simpl; intros N I K A; [contradiction |].
  inversion N as [| x xs Hx Hxs]; subst x xs.
  destruct I as [-> | I].
  - rewrite K, String.eqb_refl, A. simpl.
    rewrite filter_code_absent; [reflexivity |]. now rewrite <- K.
  - destruct (String.eqb_spec (code c) k) as [E | E].
    + exfalso. apply Hx. rewrite E, <- K. now apply in_map.
    + simpl. now apply IH.
Qed.

Lemma select_coupon_found (st : Store) (k : string) (data : Coupon) :
  refuses st t_coupons = None -> is_the_coupon st k data ->
  select_coupon st k = inr (Some data).
Proof.
  intros R (N & I & K & A). unfold select_coupon. rewrite R.
  now rewrite (filter_code_unique k (coupons st) data N I K A).
Qed.

Lemma select_coupon_none (st : Store) (k : string) :
  refuses st t_coupons = None ->
  (forall c, In c (coupons st) -> code c = k -> is_active c = false) ->
  select_coupon st k = inr None.
Proof.
  intros R H. unfold select_coupon. rewrite R.
  replace (filter _ (coupons st)) with (@nil Coupon); [reflexivity |].
  symmetry. induction (coupons st) as [| c l IH]; [reflexivity |].
  simpl. destruct (String.eqb_spec (code c) k) as [E | E]; simpl.
  - rewrite (H c (or_introl eq_refl) E). simpl.
    apply IH. intros c' I. apply H. now right.
  - apply IH. intros c' I. apply H. now right.
Qed.

(** The checks a found coupon goes through, in the order the code runs
    them. *)
Lemma applyCoupon_found (st : Store) (ui : State) (now : number) (data : Coupon) :
  refuses st t_coupons = None ->
  is_the_coupon st (toUpperCase (couponCode ui)) data ->
  applyCouponMutation st ui now =
  if match min_order_amount data with
     | Some m => truthy_num m && PrimFloat.ltb (subtotal (cartItems ui)) m
     | None => false
     end
  then Rejected (MinimumOrderAmount
                   (match min_order_amount data with
                    | Some m => m
                    | None => 0%float
                    end))
  else if match valid_until data with
          | Some t => PrimFloat.ltb t now
          | None => false
          end
  then Rejected CouponHasExpired
  else Resolved data.
Proof.
  intros R F. unfold applyCouponMutation.
  rewrite (select_coupon_found st _ data R F).
  destruct (min_order_amount data) as [m |]; [| reflexivity].
  destruct (truthy_num m && PrimFloat.ltb (subtotal (cartItems ui)) m);
    reflexivity.
Qed.

(** C5: the code is put in upper case before the lookup, and the checks run
    in order, the first failure being the one reported: (a) no active coupon
    carries the code: 'Invalid coupon code'; (b) the coupon has a minimum
    order amount (a truthy number, as the code tests it; any number above a
    non-negative subtotal is one) and the subtotal is below it: the minimum
    amount error, also when the coupon has expired too; (c) otherwise, the
    coupon has a [valid_until] and now is past it: 'Coupon has expired';
    otherwise the coupon is applied. *)
Theorem applyCoupon_checks_in_order :
  forall (st : Store) (ui : State) (now : number),
    refuses st t_coupons = None ->
    ((forall c, In c (coupons st) ->
                code c = toUpperCase (couponCode ui) -> is_active c = false) ->
     applyCouponMutation st ui now = Rejected InvalidCouponCode)
    /\
    (forall data,
        is_the_coupon st (toUpperCase (couponCode ui)) data ->
        (forall m,
            min_order_amount data = Some m ->
            truthy_num m = true ->
            PrimFloat.ltb (subtotal (cartItems ui)) m = true ->
            applyCouponMutation st ui now = Rejected (MinimumOrderAmount m))
        /\
        (forall m,
            min_order_amount data = Some m ->
            PrimFloat.leb 0 (subtotal (cartItems ui)) = true ->
            PrimFloat.ltb (subtotal (cartItems ui)) m = true ->
            applyCouponMutation st ui now = Rejected (MinimumOrderAmount m))
        /\
        (forall m t,
            min_order_amount data = Some m ->
            truthy_num m = true ->
            PrimFloat.ltb (subtotal (cartItems ui)) m = true ->
            valid_until data = Some t ->
            PrimFloat.ltb t now = true ->
            applyCouponMutation st ui now = Rejected (MinimumOrderAmount m))
        /\
        (forall t,
            match min_order_amount data with
            | Some m => truthy_num m && PrimFloat.ltb (subtotal (cartItems ui)) m
            | None => false
            end = false ->
            valid_until data = Some t ->
            PrimFloat.ltb t now = true ->
            applyCouponMutation st ui now = Rejected CouponHasExpired)
        /\
        (match min_order_amount data with
         | Some m => truthy_num m && PrimFloat.ltb (subtotal (cartItems ui)) m
         | None => false
         end = false ->
         match valid_until data with
         | Some t => PrimFloat.ltb t now
         | None => false
         end = false ->
         applyCouponMutation st ui now = Resolved data)).
Proof.
  intros st ui now R. split.
  - intros H. unfold applyCouponMutation.
    now rewrite (select_coupon_none st _ R H).
  - intros data F. rewrite (applyCoupon_found st ui now data R F).
    assert (B : forall m,
               min_order_amount data = Some m ->
               truthy_num m = true ->
               PrimFloat.ltb (subtotal (cartItems ui)) m = true ->
               (if match min_order_amount data with
                   | Some m0 =>
                       truthy_num m0
                       && PrimFloat.ltb (subtotal (cartItems ui)) m0
                   | None => false
                   end
                then Rejected (MinimumOrderAmount
                                 (match min_order_amount data with
                                  | Some m0 => m0
                                  | None => 0%float
                                  end))
                else if match valid_until data with
                        | Some t => PrimFloat.ltb t now
                        | None => false
                        end
                then Rejected CouponHasExpired
                else Resolved data)
               = Rejected (MinimumOrderAmount m)).
    { intros m M T L. rewrite M, T, L. reflexivity. }
    repeat split.
    + exact B.
    + intros m M P L. apply (B m M); [| exact L].
      exact (above_nonneg_truthy _ _ P L).
    + intros m t M T L _ _. now apply B.
    + intros t Hmin V L. rewrite Hmin, V, L. reflexivity.
    + intros Hmin V. rewrite Hmin, V. reflexivity.
Qed.

End CouponEvaluator.

(* ================================================================== *)
(** * The order composer *)
(* ================================================================== *)

Section OrderComposer.

Import Checkout.
Local Open Scope float_scope.

(** The unit price the checkout page computes for a line is the price rule
    applied to the prices the line recorded and to the product it is joined
    with.  Prices read from the store are never [NaN]. *)
Lemma pricePerLitre_resolved (item : CartItem) (p : Product) :
  products item = Some p ->
  not_NaN (recordedVariantPrice (row item)) ->
  not_NaN (measurement_price (row item)) ->
  pricePerLitre item =
  resolvedPrice (price_per_litre p) (offer_price_per_litre p)
                (recordedVariantPrice (row item))
                (measurement_price (row item)).
Proof.
  intros P NV NM. unfold pricePerLitre, resolvedPrice, recordedVariantPrice in *.
  rewrite P.
  destruct (variant_price (row item)) as [v |]; simpl.
  - rewrite (NV v eq_refl). simpl.
    destruct (measurement_price (row item)) as [m |]; simpl.
    + now rewrite (NM m eq_refl).
    + reflexivity.
  - destruct (variant_selection (row item)) as [vs |]; simpl.
    + destruct (vo_price vs) as [v |]; simpl.
      * rewrite (NV v eq_refl). simpl.
        destruct (measurement_price (row item)) as [m |]; simpl.
        -- now rewrite (NM m eq_refl).
        -- reflexivity.
      * destruct (measurement_price (row item)) as [m |]; simpl.
        -- now rewrite (NM m eq_refl).
        -- reflexivity.
    + destruct (measurement_price (row item)) as [m |]; simpl.
      * now rewrite (NM m eq_refl).
      * reflexivity.
Qed.

Lemma orderItems_snapshots (order : Order) (items : list CartItem) :
  Forall2 (snapshot_of order) (map (orderItem order) items) items.
Proof.
  induction items as [| item items IH]; simpl; constructor; [| exact IH].
  unfold snapshot_of. simpl. repeat split.
  intros p P NV NM. now apply pricePerLitre_resolved.
Qed.

(** C2: from a cart that is not empty, with or without a coupon, and a store
    that takes the two inserts, checkout adds exactly one order, with
    [final_amount = total_amount - discount_amount] (the subtotal and the
    coupon discount) and both statuses 'pending', and exactly one order line
    per cart line, in order, whose unit price is the price rule applied to
    the line when the order is composed; the lines hold the price itself, so
    a later edit of the catalog leaves them as they are.  From an empty cart
    (or one not loaded) 'Cart is empty' is reported and the store is left
    untouched. *)
Theorem createSupabaseOrder_composes :
  forall (st : Store) (ui : State) (orderNumber : string),
    (forall u item items,
        user ui = Some u ->
        cartItems ui = Some (item :: items) ->
        refuses st t_orders = None ->
        refuses st t_order_items = None ->
        exists order st' lines,
          createSupabaseOrder st ui orderNumber = (Resolved order, st')
          /\ orders st' = orders st ++ [order]
          /\ total_amount order = subtotal (cartItems ui)
          /\ discount_amount order =
             discount (appliedCoupon ui) (subtotal (cartItems ui))
          /\ final_amount order = total_amount order - discount_amount order
          /\ status order = "pending"
          /\ payment_status order = "pending"
          /\ order_items st' = order_items st ++ lines
          /\ List.length lines = List.length (item :: items)
          /\ Forall2 (snapshot_of order) lines (item :: items)
          /\ (forall pid p,
                 order_items (update_product st' pid p) = order_items st'))
    /\ (cartItems ui = None \/ cartItems ui = Some [] ->
        createSupabaseOrder st ui orderNumber = (Rejected CartIsEmpty, st)).
Proof.
  intros st ui orderNumber. split.
  - intros u item items U C Ro Ri.
    unfold createSupabaseOrder, insert_order.
    set (s := subtotal (cartItems ui)). set (t := total ui).
    rewrite U, C, Ro.
    unfold insert_order_items. simpl. rewrite Ri.
    eexists. eexists. eexists.
    split; [reflexivity |]. simpl.
    repeat (split; [reflexivity |]).
    split; [simpl; now rewrite length_map |].
    split; [| reflexivity].
    constructor.
    + unfold snapshot_of. simpl. repeat split.
      intros p P NV NM. now apply pricePerLitre_resolved.
    + apply orderItems_snapshots.
  - intros [C | C]; unfold createSupabaseOrder; rewrite C;
      destruct (user ui); reflexivity.
Qed.

(** C9: the order is inserted first and the lines after it.  When the store
    refuses the lines, the error is thrown to the caller and nothing is
    undone: the store keeps the order that was just inserted, and no line
    that belongs to it; when the store refuses the order, nothing is
    written. *)
Theorem createSupabaseOrder_not_atomic :
  forall (st : Store) (ui : State) (orderNumber : string) u item items,
    user ui = Some u ->
    cartItems ui = Some (item :: items) ->
    (forall e,
        refuses st t_orders = None ->
        refuses st t_order_items = Some e ->
        exists order st',
          createSupabaseOrder st ui orderNumber = (Rejected (StoreError e), st')
          /\ orders st' = orders st ++ [order]
          /\ order_id order = next_id st
          /\ order_items st' = order_items st
          /\ (Forall (fun l => (oi_order_id l < next_id st)%nat) (order_items st) ->
              filter (fun l => (oi_order_id l =? order_id order)%nat)
                     (order_items st') = []))
    /\ (forall e,
           refuses st t_orders = Some e ->
           createSupabaseOrder st ui orderNumber = (Rejected (StoreError e), st)).
Proof.
  intros st ui orderNumber u item items U C. split.
  - intros e Ro Ri.
    unfold createSupabaseOrder, insert_order. rewrite U, C, Ro.
    unfold insert_order_items. simpl. rewrite Ri.
    eexists. eexists. split; [reflexivity |]. simpl.
    repeat (split; [reflexivity |]).
    intros F. induction (order_items st) as [| l ls IH]; [reflexivity |].
    inversion F as [| x xs Hl Hls]; subst x xs. simpl.
    destruct (Nat.eqb_spec (oi_order_id l) (next_id st)) as [E | E]; [lia |].
    now apply IH.
  - intros e Ro. unfold createSupabaseOrder, insert_order.
    rewrite U, C, Ro. reflexivity.
Qed.

(** Placing an order, for a signed-in user with a valid address, is
    composing it. *)
Lemma placeOrderMutation_composes (st : Store) (ui : State)
    (orderNumber : string) (u : User) :
  user ui = Some u ->
  checkoutSchema (address ui) = true ->
  placeOrderMutation st ui orderNumber = createSupabaseOrder st ui orderNumber.
Proof.
  intros U A. unfold placeOrderMutation, createSupabaseOrder.
  rewrite U, A. simpl.
  destruct (cartItems ui) as [[| item items] |]; reflexivity.
Qed.

End OrderComposer.

(* ================================================================== *)
(** * Add to cart *)
(* ================================================================== *)

Section AddToCart.

Import ProductDetail.

Lemma addToCart_runs (st : Store) (ui : State) (u : User) (p : Product) :
  user ui = Some u ->
  product ui = Some p ->
  selectionMissing ui p = false ->
  refuses st t_cart_items = None ->
  addToCartMutation st ui =
  (Resolved tt,
   match find (match_ (selectedVariant ui) (selectedMeasurement ui))
              (lines_of u ui (cart_items st)) with
   | Some m =>
       with_cart_items st
         (map (set_quantity (id m) (quantity_litres m + quantity ui)%float)
              (cart_items st))
         (next_id st)
   | None =>
       with_cart_items st (cart_items st ++ [newLine st u p ui]) (S (next_id st))
   end).
Proof.
  intros U P M R. unfold addToCartMutation, selectionMissing in *.
  rewrite U, P.
  apply orb_false_iff in M. destruct M as [Mv Mm]. rewrite Mv, Mm.
  unfold select_cart_items, update_cart_quantity, insert_cart_item, lines_of.
  rewrite R.
  destruct (find _ _) as [m |]; [reflexivity |].
  unfold newLine. destruct (selectedVariant ui) as [[l i pr] |]; reflexivity.
Qed.

Lemma map_set_quantity_fresh (k : nat) (q : number) (rows : list CartRow) :
  Forall (fun r => (id r < k)%nat) rows ->
  map (set_quantity k q) rows = rows.
Proof.
  induction 1 as [| r rows Hr _ IH]; [reflexivity |].
  simpl. rewrite IH. unfold set_quantity.
  destruct (Nat.eqb_spec (id r) k) as [E | E]; [lia | reflexivity].
Qed.

(** C4: with the user signed in, the product loaded, its options chosen and
    the store taking the request: when a line of the user's cart for the
    product matches, add-to-cart sets that line's quantity to its quantity
    plus the requested one and inserts nothing; when none matches, it
    inserts one new line that holds the chosen variant and measurement and
    their prices as they are at that moment.  So adding the product with no
    variant and no measurement twice, to a cart that had no line for it,
    leaves one line, with the two quantities summed. *)
Theorem addToCart_merges_or_inserts :
  forall (st : Store) (ui : State) (u : User) (p : Product),
    user ui = Some u ->
    product ui = Some p ->
    selectionMissing ui p = false ->
    refuses st t_cart_items = None ->
    (forall m,
        find (match_ (selectedVariant ui) (selectedMeasurement ui))
             (lines_of u ui (cart_items st)) = Some m ->
        exists st',
          addToCartMutation st ui = (Resolved tt, st')
          /\ cart_items st' =
             map (set_quantity (id m) (quantity_litres m + quantity ui)%float)
                 (cart_items st)
          /\ List.length (cart_items st') = List.length (cart_items st)
          /\ In (set_quantity (id m) (quantity_litres m + quantity ui)%float m)
                (cart_items st')
          /\ quantity_litres
               (set_quantity (id m) (quantity_litres m + quantity ui)%float m)
             = (quantity_litres m + quantity ui)%float)
    /\
    (find (match_ (selectedVariant ui) (selectedMeasurement ui))
          (lines_of u ui (cart_items st)) = None ->
     exists st',
       addToCartMutation st ui = (Resolved tt, st')
       /\ cart_items st' = cart_items st ++ [newLine st u p ui]
       /\ variant_selection (newLine st u p ui) = selectedVariant ui
       /\ variant_price (newLine st u p ui)
          = match selectedVariant ui with
            | Some sv => vo_price sv
            | None => None
            end
       /\ measurement_value (newLine st u p ui)
          = match selectedMeasurement ui with
            | Some sm => coalesce (mo_label sm) VNull
            | None => VNull
            end
       /\ measurement_price (newLine st u p ui)
          = match selectedMeasurement ui with
            | Some sm => mo_price sm
            | None => None
            end)
    /\
    (forall ui2,
        selectedVariant ui = None ->
        selectedMeasurement ui = None ->
        user ui2 = user ui ->
        product ui2 = product ui ->
        route_id ui2 = route_id ui ->
        selectedVariant ui2 = None ->
        selectedMeasurement ui2 = None ->
        lines_of u ui (cart_items st) = [] ->
        Forall (fun r => (id r < next_id st)%nat) (cart_items st) ->
        exists line,
          lines_of u ui
            (cart_items
               (snd (addToCartMutation (snd (addToCartMutation st ui)) ui2)))
          = [line]
          /\ quantity_litres line = (quantity ui + quantity ui2)%float
          /\ variant_selection line = None
          /\ measurement_value line = VNull).
Proof.
  intros st ui u p U P M R.
  pose proof (addToCart_runs st ui u p U P M R) as Run.
  split; [| split].
  - intros m F. rewrite F in Run. eexists. split; [exact Run |]. simpl.
    split; [reflexivity |]. split; [apply length_map |].
    split.
    + apply in_map. apply find_some in F. destruct F as [I _].
      unfold lines_of in I. apply filter_In in I. tauto.
    + unfold set_quantity. rewrite Nat.eqb_refl. reflexivity.
  - intros F. rewrite F in Run. eexists. split; [exact Run |]. simpl.
    repeat split; reflexivity.
  - intros ui2 SV SM U2 P2 I2 SV2 SM2 E W.
    rewrite Run, E. simpl.
    assert (M2 : selectionMissing ui2 p = false).
    { unfold selectionMissing in *. now rewrite SV2, SM2, <- SV, <- SM. }
    rewrite U in U2. rewrite P in P2.
    set (st1 := with_cart_items st (cart_items st ++ [newLine st u p ui])
                                (S (next_id st))).
    assert (R1 : refuses st1 t_cart_items = None) by exact R.
    rewrite (addToCart_runs st1 ui2 u p U2 P2 M2 R1). simpl.
    assert (L1 : lines_of u ui2 (cart_items st ++ [newLine st u p ui])
                 = [newLine st u p ui]).
    { unfold lines_of in *. rewrite filter_app, I2, E. simpl.
      now rewrite !String.eqb_refl. }
    rewrite L1. simpl.
    assert (Mt : match_ (selectedVariant ui2) (selectedMeasurement ui2)
                        (newLine st u p ui) = true).
    { unfold match_. rewrite SV2, SM2. simpl. rewrite SV, SM. reflexivity. }
    rewrite Mt. simpl.
    rewrite map_app, (map_set_quantity_fresh _ _ _ W). simpl.
    unfold set_quantity at 1. simpl. rewrite Nat.eqb_refl.
    unfold lines_of in *. rewrite filter_app, E. simpl.
    rewrite !String.eqb_refl. simpl.
    eexists. split; [reflexivity |]. simpl.
    rewrite SV, SM. repeat split; reflexivity.
Qed.

End AddToCart.

(* ================================================================== *)
(** * The price resolver of the product page *)
(* ================================================================== *)

Section PriceResolver.

Import ProductDetail.
Local Open Scope float_scope.

Lemma vPrice_price_or_zero (sv : option VariantOption) :
  vPrice sv = price_or_zero (variantPriceOf sv).
Proof.
  destruct sv as [[l i [p |]] |]; simpl; try reflexivity.
  unfold Number_isNaN. destruct (PrimFloat.is_nan p); reflexivity.
Qed.

Lemma mPrice_price_or_zero (sm : option MeasurementOption) :
  mPrice sm = price_or_zero (measurementPriceOf sm).
Proof.
  destruct sm as [[l [p |]] |]; simpl; try reflexivity.
  unfold Number_isNaN. destruct (PrimFloat.is_nan p); reflexivity.
Qed.

(** With an option price that is not zero, the page shows the sum of the
    option prices, whatever the sale price is. *)
Lemma effectivePrice_sum (p : Product) (sv : option VariantOption)
    (sm : option MeasurementOption) :
  truthy_num (vPrice sv) || truthy_num (mPrice sm) = true ->
  effectivePrice p sv sm = vPrice sv + mPrice sm.
Proof.
  unfold effectivePrice. intros H.
  destruct (truthy_num (vPrice sv)) eqn:V.
  - rewrite V. reflexivity.
  - simpl in H. rewrite H. reflexivity.
Qed.

(** With no option price, or option prices that are all zero, the page
    shows the sale price, or the base price when there is none. *)
Lemma effectivePrice_product (p : Product) (sv : option VariantOption)
    (sm : option MeasurementOption) :
  truthy_num (vPrice sv) || truthy_num (mPrice sm) = false ->
  effectivePrice p sv sm =
  match offer_price_per_litre p with
  | Some s => s
  | None => price_per_litre p
  end.
Proof.
  unfold effectivePrice. intros H.
  apply orb_false_iff in H. destruct H as [V M]. rewrite V, M. reflexivity.
Qed.

Lemma price_or_zero_absent (p : option number) :
  carries_price p = false -> price_or_zero p = 0.
Proof.
  destruct p as [x |]; simpl; [| reflexivity].
  destruct (Number_isNaN x); [reflexivity | discriminate].
Qed.

(** The page agrees with the price rule of the specification whenever an
    option price is not zero, and whenever no option carries a price. *)
Lemma effectivePrice_resolved (p : Product) (sv : option VariantOption)
    (sm : option MeasurementOption) :
  truthy_num (vPrice sv) || truthy_num (mPrice sm) = true
  \/ carries_price (variantPriceOf sv) || carries_price (measurementPriceOf sm)
     = false ->
  effectivePrice p sv sm =
  resolvedPrice (price_per_litre p) (offer_price_per_litre p)
                (variantPriceOf sv) (measurementPriceOf sm).
Proof.
  intros [T | N].
  - rewrite (effectivePrice_sum p sv sm T). unfold resolvedPrice.
    rewrite vPrice_price_or_zero, mPrice_price_or_zero in *.
    destruct (carries_price (variantPriceOf sv)) eqn:Cv; [reflexivity |].
    destruct (carries_price (measurementPriceOf sm)) eqn:Cm; [reflexivity |].
    rewrite (price_or_zero_absent _ Cv), (price_or_zero_absent _ Cm) in T.
    discriminate.
  - unfold resolvedPrice. rewrite N.
    apply orb_false_iff in N. destruct N as [Cv Cm].
    apply effectivePrice_product.
    rewrite vPrice_price_or_zero, mPrice_price_or_zero.
    now rewrite (price_or_zero_absent _ Cv), (price_or_zero_absent _ Cm).
Qed.

(** X1: the unit price the checkout page records for a cart line is the price
    the product page shows for the selection that the line recorded, unless
    the only prices recorded are zero. *)
Lemma pricePerLitre_effectivePrice (item : CartItem) (p : Product)
    (lv : string) (lm : value) :
  products item = Some p ->
  not_NaN (recordedVariantPrice (row item)) ->
  not_NaN (measurement_price (row item)) ->
  truthy_num (price_or_zero (recordedVariantPrice (row item)))
  || truthy_num (price_or_zero (measurement_price (row item))) = true
  \/ carries_price (recordedVariantPrice (row item))
     || carries_price (measurement_price (row item)) = false ->
  Checkout.pricePerLitre item =
  effectivePrice p
    (Some {| vo_label := lv; vo_image_url := None;
             vo_price := recordedVariantPrice (row item) |})
    (Some {| mo_label := lm; mo_price := measurement_price (row item) |}).
Proof.
  intros P NV NM H.
  rewrite (pricePerLitre_resolved item p P NV NM). symmetry.
  apply effectivePrice_resolved.
  rewrite vPrice_price_or_zero, mPrice_price_or_zero. exact H.
Qed.

(** C1, at the input where the page departs from it: the selected variant
    carries the price [0], a number that is not [NaN], and no measurement is
    selected.  The rule gives [0 + 0]; the page tests the prices for
    truthiness, takes the zero for no price at all and shows the sale price
    [80].  The cart and checkout pages, which test [typeof ... === 'number'],
    charge [0] for the same line. *)
Theorem effectivePrice_ignores_zero_price :
  parseVariantOptions (variant_values oil) = [sample_pack]
  /\ carries_price (vo_price sample_pack) = true
  /\ resolvedPrice (price_per_litre oil) (offer_price_per_litre oil)
                   (vo_price sample_pack) None = 0
  /\ effectivePrice oil (Some sample_pack) None = 80
  /\ Checkout.pricePerLitre sample_line = 0.
Proof.
  repeat split; reflexivity.
Qed.

End PriceResolver.

(* ================================================================== *)
(** * The cart line matcher *)
(* ================================================================== *)

Section Matcher.

Import ProductDetail.

(** The matcher, spelled out: equal variant labels (two absent ones are
    equal) and strictly equal measurement labels, the stored one read by
    [comparedLabel]. *)
Lemma match_iff (sv : option VariantOption) (sm : option MeasurementOption)
    (item : CartRow) :
  match_ sv sm item = true <->
  option_map vo_label (variant_selection item) = option_map vo_label sv
  /\ strict_eq (comparedLabel (measurement_value item)) (candidateLabel sm) = true.
Proof.
  unfold match_, comparedLabel, candidateLabel.
  rewrite andb_true_iff.
  assert (V : forall a b : option string, opt_string_eq a b = true <-> a = b).
  { intros [x |] [y |]; simpl; split; intros H;
      try discriminate; try reflexivity.
    - apply String.eqb_eq in H. now subst.
    - injection H as ->. apply String.eqb_refl. }
  rewrite V. reflexivity.
Qed.

(** X2: for a line whose measurement is stored as a bare label (or not at all)
    and a candidate whose label is a string (or that has no measurement),
    the matcher decides equality of the two pairs of labels. *)
Lemma match_bare_labels (sv : option VariantOption)
    (l : option string) (p : option number) (item : CartRow) (stored : option string) :
  measurement_value item =
    match stored with Some s => VStr s | None => VNull end ->
  match_ sv (option_map (fun s => {| mo_label := VStr s; mo_price := p |}) l) item
  = true <->
  option_map vo_label (variant_selection item) = option_map vo_label sv
  /\ stored = l.
Proof.
  intros E. rewrite match_iff. unfold comparedLabel, candidateLabel. rewrite E.
  destruct stored as [s |], l as [s' |]; simpl;
    (split; intros [H1 H2]; split; try exact H1; try discriminate).
  - apply String.eqb_eq in H2. now subst.
  - injection H2 as ->. apply String.eqb_refl.
  - reflexivity.
  - reflexivity.
Qed.

(** C3, at the input where the matcher departs from it: the line stores its
    measurement as the JSON text of an object with the label "M" (the cart
    page unwraps such text to "M" before showing it), and the candidate is
    the measurement "M" of the same product.  The matcher compares the
    stored text as it is, finds no match, and add-to-cart inserts a second
    line for the same product and measurement instead of adding to the
    first. *)
Theorem match_misses_json_measurement :
  measurementValues (measurement_values shirt) = [size_M]
  /\ Cart.shownMeasurement (measurement_value json_line) = VStr "M"
  /\ strict_eq (Cart.shownMeasurement (measurement_value json_line))
               (candidateLabel (Some size_M)) = true
  /\ option_map vo_label (variant_selection json_line) = @None string
  /\ match_ None (Some size_M) json_line = false
  /\ map quantity_litres
         (cart_items (snd (addToCartMutation json_cart shirt_page)))
     = [1%float; 2%float].
Proof.
  repeat split; vm_compute; reflexivity.
Qed.

End Matcher.

(* ================================================================== *)
(** * The option parsers *)
(* ================================================================== *)

Section OptionParsers.

Import ProductDetail.

(** ** Trimming *)

Lemma skip_ws_char_shorter (s r : string) :
  skip_ws_char s = Some r -> String.length r < String.length s.
Proof.
  destruct s as [| c [| d [| e r2]]]; simpl; try discriminate.
  - destruct (is_ws c); intros H; inversion H; simpl; lia.
  - destruct (is_ws c); [intros H; inversion H; simpl; lia |].
    destruct (is_ws2 c d); intros H; inversion H; simpl; lia.
  - destruct (is_ws c); [intros H; inversion H; simpl; lia |].
    destruct (is_ws2 c d); [intros H; inversion H; simpl; lia |].
    destruct (is_ws3 c d e); intros H; inversion H; simpl; lia.
Qed.

Lemma skip_ws_char_app (a r b : string) :
  skip_ws_char a = Some r -> skip_ws_char (a ++ b)%string = Some (r ++ b)%string.
Proof.
  destruct a as [| c [| d [| e r2]]]; simpl; try discriminate.
  - destruct (is_ws c); [intros H; now inversion H | discriminate].
  - destruct (is_ws c); [intros H; now inversion H |].
    destruct (is_ws2 c d); [intros H; now inversion H | discriminate].
  - destruct (is_ws c); [intros H; now inversion H |].
    destruct (is_ws2 c d); [intros H; now inversion H |].
    destruct (is_ws3 c d e); [intros H; now inversion H | discriminate].
Qed.

Lemma trimStart_from_head (n : nat) (s : string) :
  String.length s <= n -> skip_ws_char (trimStart_from n s) = None.
Proof.
  revert s. induction n as [| n IH]; intros s L.
  - destruct s; [reflexivity | simpl in L; lia].
  - simpl. destruct (skip_ws_char s) as [r |] eqn:E; [| exact E].
    apply IH. apply skip_ws_char_shorter in E. lia.
Qed.

(** What [trimStart] leaves does not start with white space. *)
Lemma trimStart_head (s : string) : skip_ws_char (trimStart s) = None.
Proof. apply trimStart_from_head. lia. Qed.

Lemma trimStart_fixed (s : string) : skip_ws_char s = None -> trimStart s = s.
Proof.
  intros E. unfold trimStart. destruct (String.length s); simpl; [reflexivity |].
  now rewrite E.
Qed.

Lemma trimEnd_idempotent (s : string) : trimEnd (trimEnd s) = trimEnd s.
Proof.
  induction s as [| c r IH]; [reflexivity |].
  cbn [trimEnd]. cbv zeta.
  destruct (skip_ws_char (String c (trimEnd r))) as [[| d r'] |] eqn:E.
  - reflexivity.
  - cbn [trimEnd]. cbv zeta. now rewrite IH, E.
  - cbn [trimEnd]. cbv zeta. now rewrite IH, E.
Qed.

(** [trimEnd] keeps a prefix of the text. *)
Lemma trimEnd_prefix (s : string) : exists rest, s = (trimEnd s ++ rest)%string.
Proof.
  induction s as [| c r [rest IH]]; [now exists "" |].
  cbn [trimEnd]. cbv zeta.
  destruct (skip_ws_char (String c (trimEnd r))) as [[| d r'] |].
  - now exists (String c r).
  - exists rest. simpl. now rewrite <- IH.
  - exists rest. simpl. now rewrite <- IH.
Qed.

Lemma trim_idempotent (s : string) : trim (trim s) = trim s.
Proof.
  unfold trim.
  assert (H : skip_ws_char (trimEnd (trimStart s)) = None).
  { destruct (skip_ws_char (trimEnd (trimStart s))) as [r |] eqn:E; [| reflexivity].
    destruct (trimEnd_prefix (trimStart s)) as [rest P].
    apply (skip_ws_char_app _ _ rest) in E. rewrite <- P in E.
    now rewrite trimStart_head in E. }
  rewrite (trimStart_fixed _ H). apply trimEnd_idempotent.
Qed.

(** ** The variant parser *)

Lemma parseVariantOption_normal (v : value) (o : VariantOption) :
  parseVariantOption v = Some o -> normal_variant o.
Proof.
  unfold parseVariantOption, normal_variant.
  destruct (truthy v); simpl; [| intros H; discriminate H].
  destruct v as [| | b | x | s | items | props];
    try (intros H; discriminate H).
  - cbv zeta. destruct (String.eqb_spec (trim s) "") as [E | E]; simpl;
      [intros H; discriminate H |].
    intros H. injection H as <-. simpl.
    repeat split; try (intros ? H; discriminate H).
    + apply trim_idempotent.
    + exact E.
  - cbv zeta.
    set (label := match get "label" (VObj props) with
                  | VStr l => trim l
                  | _ => EmptyString
                  end).
    assert (L : trim label = label).
    { unfold label. destruct (get "label" (VObj props)); try reflexivity.
      apply trim_idempotent. }
    destruct (String.eqb_spec label "") as [E | E];
      [intros H; discriminate H |].
    assert (I : forall u,
               match get "image_url" (VObj props) with
               | VStr u0 => if (0 <? String.length u0)%nat then Some u0 else None
               | _ => None
               end = Some u -> u <> EmptyString).
    { intros u. destruct (get "image_url" (VObj props));
        try (intros H; discriminate H).
      destruct s as [| c r]; simpl; [intros H; discriminate H |].
      intros H. injection H as <-. discriminate. }
    destruct (raw_price (VObj props)) as [p |].
    + destruct (Number_isNaN p) eqn:N; simpl;
        intros H; injection H as <-; simpl; repeat split; auto;
        try (intros ? H; discriminate H).
      intros q Hq. injection Hq as <-. exact N.
    + intros H; injection H as <-; simpl; repeat split; auto;
        intros ? H; discriminate H.
Qed.

Lemma parseVariantOption_fixed (o : VariantOption) :
  normal_variant o -> parseVariantOption (VariantOption_value o) = Some o.
Proof.
  destruct o as [l i p]. unfold normal_variant. simpl.
  intros (T & E & I & P).
  unfold parseVariantOption, VariantOption_value, raw_price. simpl.
  rewrite T. destruct (String.eqb_spec l "") as [E' | _]; [contradiction |].
  assert (Hi : match (match i with Some u => VStr u | None => VNull end) with
               | VStr u => if (0 <? String.length u)%nat then Some u else None
               | _ => None
               end = i).
  { destruct i as [u |]; [| reflexivity].
    destruct u as [| c r]; [now destruct (I _ eq_refl) | reflexivity]. }
  destruct p as [x |]; simpl; rewrite Hi.
  - now rewrite (P x eq_refl).
  - reflexivity.
Qed.

Lemma filter_map_fixed {A B : Type} (f : A -> option B) (g : B -> A)
    (l : list B) :
  Forall (fun y => f (g y) = Some y) l -> filter_map f (map g l) = l.
Proof.
  induction 1 as [| y l Hy _ IH]; [reflexivity |].
  simpl. now rewrite Hy, IH.
Qed.

Lemma filter_map_Forall {A B : Type} (f : A -> option B) (P : B -> Prop)
    (l : list A) :
  (forall x y, f x = Some y -> P y) -> Forall P (filter_map f l).
Proof.
  intros H. induction l as [| x l IH]; simpl; [constructor |].
  destruct (f x) as [y |] eqn:E; [| exact IH].
  constructor; [now apply (H x) | exact IH].
Qed.

(** The variant parser does what the specification asks of the option
    parser: its labels are trimmed and not empty, its prices are never
    [NaN], and parsing its own output again changes nothing. *)
Lemma parseVariantOptions_normal (values : value) :
  Forall normal_variant (parseVariantOptions values).
Proof.
  destruct values; simpl; try constructor.
  apply filter_map_Forall. exact parseVariantOption_normal.
Qed.

(** The variant parser is idempotent on the options it gives, written back
    with their [image_url] key ([null] for none) and parsed again. *)
Lemma parseVariantOptions_idempotent (values : value) :
  parseVariantOptions
    (VArr (map VariantOption_value (parseVariantOptions values)))
  = parseVariantOptions values.
Proof.
  simpl. apply filter_map_fixed.
  eapply Forall_impl; [| apply parseVariantOptions_normal].
  intros o. apply parseVariantOption_fixed.
Qed.

(** ** The variant parser, object by object *)

Lemma parseVariantOption_reads (v : value) :
  parseVariantOption v = option_map VariantOption_of (parseVariantOptionObject v).
Proof.
  unfold parseVariantOption, parseVariantOptionObject.
  destruct (truthy v); simpl; [| reflexivity].
  destruct v as [| | b | x | s | items | props]; try reflexivity.
  - destruct (trim s =? ""); reflexivity.
  - set (l := match get "label" (VObj props) with VStr l => trim l | _ => "" end).
    destruct (l =? ""); [reflexivity |].
    destruct (raw_price (VObj props)) as [p |]; [destruct (Number_isNaN p) |];
      simpl; unfold VariantOption_of; simpl;
      destruct (lookup "image_url" props) as [| | b | x | u | items | ps];
      try reflexivity;
      destruct (0 <? String.length u)%nat; reflexivity.
Qed.

Lemma parseVariantOptionObject_parsed (v o : value) :
  parseVariantOptionObject v = Some o -> parsed_option o.
Proof.
  unfold parseVariantOptionObject.
  destruct (truthy v); simpl; [| discriminate].
  assert (I : forall w, parsed_image_url
                 match get "image_url" w with
                 | VStr u => if (0 <? String.length u)%nat then VStr u else VNull
                 | _ => VNull
                 end).
  { intros w. destruct (get "image_url" w); try constructor.
    destruct s; simpl; constructor. discriminate. }
  assert (O : forall w, (match get "label" w with VStr l => trim l | _ => "" end =? "") = false ->
              trim (match get "label" w with VStr l => trim l | _ => "" end)
              = match get "label" w with VStr l => trim l | _ => "" end
              /\ match get "label" w with VStr l => trim l | _ => "" end <> "").
  { intros w E. split.
    - destruct (get "label" w); try reflexivity. apply trim_idempotent.
    - now apply String.eqb_neq. }
  destruct v as [| | b | x | s | items | props]; try discriminate.
  - destruct (String.eqb_spec (trim s) "") as [E | E]; simpl; [discriminate |].
    intros H. injection H as <-. constructor; [apply trim_idempotent | exact E].
  - destruct (_ =? "") eqn:E; [discriminate |].
    destruct (O _ E) as [T N].
    destruct (raw_price (VObj props)) as [p |];
      [destruct (Number_isNaN p) eqn:Np |]; simpl;
      intros H; injection H as <-; constructor; auto;
      apply (I (VObj props)).
Qed.

Lemma parsed_option_again (o : value) :
  parsed_option o ->
  parseVariantOptionObject o = Some (with_image_url o)
  /\ parseVariantOptionObject (with_image_url o) = Some (with_image_url o)
  /\ VariantOption_of (with_image_url o) = VariantOption_of o.
Proof.
  assert (L : forall l, l <> "" -> (l =? "") = false)
    by (intros l; apply String.eqb_neq).
  assert (U : forall u, u <> "" -> (0 <? String.length u)%nat = true)
    by (intros [| c r] H; [congruence | reflexivity]).
  destruct 1 as [l T N | l i T N I | l i p T N I P].
  - unfold parseVariantOptionObject, raw_price, with_image_url; simpl.
    rewrite !T, !(L l N). simpl. auto.
  - destruct I as [| u Hu];
      unfold parseVariantOptionObject, raw_price, with_image_url; simpl;
      rewrite ?T, ?(L l N), ?(U u Hu); simpl; auto.
  - destruct I as [| u Hu];
      unfold parseVariantOptionObject, raw_price, with_image_url; simpl;
      rewrite ?T, ?(L l N), ?(U u Hu), ?P; simpl; auto.
Qed.

Lemma filter_map_again {A B : Type} (f : A -> option B) (g : A -> B)
    (l : list A) :
  Forall (fun y => f y = Some (g y)) l -> filter_map f l = map g l.
Proof.
  induction 1 as [| y l Hy _ IH]; [reflexivity |].
  simpl. now rewrite Hy, IH.
Qed.

Lemma parseVariantOptionsObjects_parsed (values : value) :
  Forall parsed_option (parseVariantOptionsObjects values).
Proof.
  destruct values; simpl; try constructor.
  apply filter_map_Forall. exact parseVariantOptionObject_parsed.
Qed.

Lemma filter_map_option_map {A B C : Type} (f : A -> option B) (g : B -> C)
    (l : list A) :
  filter_map (fun x => option_map g (f x)) l = map g (filter_map f l).
Proof.
  induction l as [| x l IH]; [reflexivity |].
  simpl. destruct (f x); simpl; now rewrite IH.
Qed.

Lemma filter_map_ext {A B : Type} (f g : A -> option B) (l : list A) :
  (forall x, f x = g x) -> filter_map f l = filter_map g l.
Proof.
  intros H. induction l as [| x l IH]; [reflexivity |].
  simpl. now rewrite H, IH.
Qed.

(** X3: the variant parser on its own output, object by object.  The
    objects of a first pass are read as the options of the typed parser; a
    second pass gives the same objects with the key [image_url] written,
    [null] where a first pass had left it out (the options that were plain
    strings); a third pass changes nothing any more; and the options read
    from the objects are the same after every pass. *)
Theorem parseVariantOptions_second_pass (values : value) :
  let first := parseVariantOptionsObjects values in
  let second := parseVariantOptionsObjects (VArr first) in
  map VariantOption_of first = parseVariantOptions values
  /\ second = map with_image_url first
  /\ parseVariantOptionsObjects (VArr second) = second
  /\ parseVariantOptions (VArr first) = parseVariantOptions values
  /\ map VariantOption_of second = map VariantOption_of first.
Proof.
  intros first second.
  pose proof (parseVariantOptionsObjects_parsed values) as P. fold first in P.
  assert (R : map VariantOption_of first = parseVariantOptions values).
  { unfold first. destruct values; try reflexivity. simpl.
    rewrite <- filter_map_option_map. apply filter_map_ext.
    intros x. symmetry. apply parseVariantOption_reads. }
  assert (S2 : second = map with_image_url first).
  { unfold second. simpl. apply filter_map_again.
    eapply Forall_impl; [| exact P]. intros o Ho.
    apply (parsed_option_again o Ho). }
  assert (V : map VariantOption_of (map with_image_url first)
              = map VariantOption_of first).
  { rewrite map_map. apply map_ext_Forall.
    eapply Forall_impl; [| exact P]. intros o Ho.
    apply (parsed_option_again o Ho). }
  split; [exact R |]. split; [exact S2 |]. split; [| split].
  - rewrite S2. simpl.
    rewrite <- (map_id (map with_image_url first)) at 2.
    apply filter_map_again. apply Forall_map.
    eapply Forall_impl; [| exact P]. intros o Ho.
    apply (parsed_option_again o Ho).
  - rewrite <- R. simpl.
    rewrite (filter_map_again parseVariantOption VariantOption_of first).
    + reflexivity.
    + eapply Forall_impl; [| exact P]. intros o Ho.
      rewrite parseVariantOption_reads.
      destruct (parsed_option_again o Ho) as (A & _ & B).
      rewrite A. simpl. now rewrite B.
  - rewrite S2. exact V.
Qed.

End OptionParsers.

Section MeasurementParser.

Import ProductDetail.

(** ** The measurement parser *)

(** JSON.parse is attempted only on text that starts like an object or an
    array and holds the word [label]: any other string is read plainly. *)
Lemma parseMeasurementValue_plain (s : string) :
  (startsWith "{" (trim s) || startsWith "[" (trim s))
  && includes "label" (trim s) = false ->
  parseMeasurementValue (VStr s) = plainMeasurement s.
Proof.
  intros H. unfold parseMeasurementValue, plainMeasurement. simpl.
  destruct (String.eqb_spec s "") as [-> | _]; simpl; [reflexivity |].
  rewrite H. reflexivity.
Qed.

(** Text that is not well-formed JSON is read plainly, the error being
    swallowed. *)
Lemma parseMeasurementValue_malformed (s : string) :
  JSON_parse (trim s) = None ->
  parseMeasurementValue (VStr s) = plainMeasurement s.
Proof.
  intros H. unfold parseMeasurementValue, plainMeasurement. simpl.
  destruct (String.eqb_spec s "") as [-> | _]; simpl; [reflexivity |].
  rewrite H.
  destruct (trim s =? ""); [reflexivity |].
  destruct ((startsWith "{" (trim s) || startsWith "[" (trim s))
            && includes "label" (trim s)); reflexivity.
Qed.

(** Every option out of the measurement parser has a truthy label. *)
Lemma parseMeasurementValue_label (v : value) (o : MeasurementOption) :
  parseMeasurementValue v = Some o -> truthy (mo_label o) = true.
Proof.
  unfold parseMeasurementValue.
  destruct (truthy v); simpl; [| intros H; discriminate H].
  destruct v as [| | b | x | s | items | props];
    try (intros H; discriminate H).
  - cbv zeta. destruct (trim s =? "") eqn:E; [intros H; discriminate H |].
    assert (P : forall o', Some {| mo_label := VStr (trim s); mo_price := None |}
                           = Some o' -> truthy (mo_label o') = true).
    { intros o' H. injection H as <-. simpl. now rewrite E. }
    destruct ((startsWith "{" (trim s) || startsWith "[" (trim s))
              && includes "label" (trim s)); [| apply P].
    destruct (JSON_parse (trim s)) as [parsed |]; [| apply P].
    destruct (truthy parsed); simpl; [| apply P].
    destruct (truthy (get "label" parsed)) eqn:L; [| apply P].
    destruct (truthy (get "price" parsed)).
    + destruct (ToNumber (get "price" parsed)); [| apply P].
      intros H. injection H as <-. exact L.
    + intros H. injection H as <-. exact L.
  - cbv zeta.
    destruct (truthy (or_else (get "label" (VObj props)) (VStr ""))) eqn:L;
      simpl; [| intros H; discriminate H].
    destruct (raw_price (VObj props)) as [p |];
      [destruct (negb (Number_isNaN p)) |];
      intros H; injection H as <-; exact L.
Qed.

(** Parsing an option of the parser again keeps its label and its price,
    except a [NaN] price, which is dropped. *)
Lemma parseMeasurementValue_again (o : MeasurementOption) :
  truthy (mo_label o) = true ->
  parseMeasurementValue (MeasurementOption_value o) = Some (drop_NaN o).
Proof.
  destruct o as [l p]. simpl. intros L.
  unfold parseMeasurementValue, MeasurementOption_value, raw_price, drop_NaN,
    or_else.
  simpl. rewrite L. simpl. rewrite ?L. simpl.
  destruct p as [x |]; simpl; rewrite ?L; simpl; [| reflexivity].
  destruct (Number_isNaN x); reflexivity.
Qed.

Lemma filter_map_map_some {A B : Type} (f : A -> option B) (g h : B -> _)
    (l : list B) :
  Forall (fun y => f (g y) = Some (h y)) l ->
  filter_map f (map g l) = map h l.
Proof.
  induction 1 as [| y l Hy _ IH]; [reflexivity |].
  simpl. now rewrite Hy, IH.
Qed.

Lemma measurementValues_again (measurement_values : value) :
  measurementValues
    (VArr (map MeasurementOption_value (measurementValues measurement_values)))
  = map drop_NaN (measurementValues measurement_values).
Proof.
  unfold measurementValues at 1. apply filter_map_map_some.
  unfold measurementValues. apply filter_map_Forall.
  intros v o H. apply parseMeasurementValue_again.
  now apply (parseMeasurementValue_label v).
Qed.

(** X4: the measurement parser is idempotent on every output that holds no
    [NaN] price. *)
Lemma measurementValues_idempotent_without_NaN (measurement_values : value) :
  Forall (fun o => not_NaN (mo_price o)) (measurementValues measurement_values) ->
  measurementValues
    (VArr (map MeasurementOption_value (measurementValues measurement_values)))
  = measurementValues measurement_values.
Proof.
  intros H. rewrite measurementValues_again.
  induction H as [| o l Ho _ IH]; [reflexivity |].
  simpl. rewrite IH. f_equal.
  destruct o as [l' [p |]]; unfold drop_NaN; simpl; [| reflexivity].
  now rewrite (Ho p eq_refl).
Qed.

(** C7, at the inputs where the measurement parser departs from it.  A price
    that is not numeric comes out of the JSON branch as [NaN] ([Number] of
    the text, assigned unchecked), and a label with spaces around it comes
    out of the JSON branch and of the object branch as it went in.  The
    variant parser, on the same object and on an object with the same bad
    price, trims the label and drops the price. *)
Theorem measurementValues_keeps_NaN_and_spaces :
  JSON_parse (json_option "1L" (quoted "abc"))
  = Some (VObj [("label", VStr "1L"); ("price", VStr "abc")])
  /\ measurementValues (VArr [raw_bad_price])
     = [{| mo_label := VStr "1L"; mo_price := Some PrimFloat.nan |}]
  /\ measurementValues (VArr [raw_spaced_json])
     = [{| mo_label := VStr " 1L "; mo_price := Some 120%float |}]
  /\ measurementValues (VArr [raw_spaced_object])
     = [{| mo_label := VStr " 1L "; mo_price := Some 120%float |}]
  /\ parseVariantOptions (VArr [raw_spaced_object])
     = [{| vo_label := "1L"; vo_image_url := None; vo_price := Some 120%float |}]
  /\ parseVariantOptions
       (VArr [VObj [("label", VStr "1L"); ("price", VStr "abc")]])
     = [{| vo_label := "1L"; vo_image_url := None; vo_price := None |}].
Proof.
  repeat split; vm_compute; reflexivity.
Qed.

(** C8, at the input where the measurement parser departs from it: the
    option it makes of JSON text with a price that is not numeric carries a
    [NaN] price, and parsing that option again drops the price, so the
    output is not a fixed point. *)
Theorem measurementValues_not_idempotent :
  measurementValues (VArr [raw_bad_price])
  = [{| mo_label := VStr "1L"; mo_price := Some PrimFloat.nan |}]
  /\ measurementValues
       (VArr (map MeasurementOption_value
                  (measurementValues (VArr [raw_bad_price]))))
     = [{| mo_label := VStr "1L"; mo_price := None |}]
  /\ measurementValues
       (VArr (map MeasurementOption_value
                  (measurementValues (VArr [raw_bad_price]))))
     <> measurementValues (VArr [raw_bad_price]).
Proof.
  assert (A : measurementValues (VArr [raw_bad_price])
              = [{| mo_label := VStr "1L"; mo_price := Some PrimFloat.nan |}])
    by (vm_compute; reflexivity).
  split; [exact A |]. rewrite A.
  split; [vm_compute; reflexivity |].
  intros H. vm_compute in H. discriminate H.
Qed.

End MeasurementParser.

(* ================================================================== *)
(** * The theorems at work on sample data *)
(* ================================================================== *)

Section Samples.

Local Open Scope float_scope.

(** SAVE10 on a subtotal of 200 gives 20; a cap of zero changes nothing. *)
Example discount_save10 : Checkout.discount (Some save10) 200 = 20.
Proof. reflexivity. Qed.

Lemma discount_falsy_cap_witness :
  discount_type save10_cap0 = "percentage"
  /\ match max_discount_amount save10_cap0 with
     | Some m => truthy_num m
     | None => false
     end = false
  /\ Checkout.discount (Some save10_cap0) 200 = 20.
Proof.
  split; [reflexivity |]. split; [reflexivity |].
  rewrite (discount_falsy_cap_is_no_cap save10_cap0 200 eq_refl eq_refl).
  reflexivity.
Defined.

(** A cap of zero: the lesser of 20 and 0 is 0, by [Math.min] as well, and
    the discount of the page is 20. *)
Lemma discount_zero_cap_counterexample :
  discount_type save10_cap0 = "percentage"
  /\ max_discount_amount save10_cap0 = Some 0
  /\ 200 * discount_value save10_cap0 / 100 = 20
  /\ smaller 20 0 = 0
  /\ Math_min 20 0 = 0
  /\ claimedDiscount save10_cap0 200 = 0
  /\ Checkout.discount (Some save10_cap0) 200 = 20
  /\ Checkout.discount (Some save10_cap0) 200 <> smaller 20 0
  /\ Checkout.discount (Some save10_cap0) 200 <> claimedDiscount save10_cap0 200.
Proof.
  do 7 (split; [reflexivity |]).
  split; intros H; apply (f_equal (fun x => PrimFloat.eqb x 0)) in H;
    vm_compute in H; discriminate H.
Qed.

(** FLAT20 takes 20 off a subtotal of 50 and some subtotal below 20 ends
    below zero with it; SAVE10 capped at 15 takes 15 off 200 and 10 off 100;
    SAVE10 takes 20 off 200, with no cap and with a cap of zero. *)
Lemma discount_of_coupon_witness :
  Checkout.discount (Some flat20) 50 = 20
  /\ (exists s,
        PrimFloat.ltb s 20 = true
        /\ PrimFloat.ltb (s - Checkout.discount (Some flat20) s) 0 = true)
  /\ Checkout.discount (Some save10_cap15) 200 = 15
  /\ Checkout.discount (Some save10_cap15) 100 = 10
  /\ Checkout.discount (Some save10) 200 = 20
  /\ Checkout.discount (Some save10_cap0) 200 = 20
  /\ Checkout.discount (Some save10_cap15) 200
     = claimedDiscount save10_cap15 200.
Proof.
  destruct discount_of_coupon as (F & N & C & U & Z & S).
  split; [apply (F flat20 50); reflexivity |].
  split; [apply (N flat20); reflexivity |].
  split; [rewrite (C save10_cap15 200 15 eq_refl eq_refl eq_refl);
          reflexivity |].
  split; [rewrite (C save10_cap15 100 15 eq_refl eq_refl eq_refl);
          reflexivity |].
  split; [rewrite (U save10 200 eq_refl eq_refl); reflexivity |].
  split; [rewrite (Z save10_cap0 200 0 eq_refl eq_refl eq_refl);
          reflexivity |].
  apply (S save10_cap15 200). reflexivity.
Defined.

(** A fixed coupon of 100 on a subtotal of 50 leaves a total of -50. *)
Example fixed_discount_goes_negative :
  Checkout.total
    {| Checkout.user := Some {| uid := "u1" |};
       Checkout.cartItems := Some [plain_line 2 "p2" coconut 1];
       Checkout.address := "";
       Checkout.couponCode := "";
       Checkout.appliedCoupon :=
         Some {| code := "BIG";
                 discount_type := "fixed";
                 discount_value := 100;
                 min_order_amount := None;
                 max_discount_amount := None;
                 valid_until := None;
                 is_active := true |} |}
  = (-50).
Proof. reflexivity. Qed.

(** The code is looked up in upper case, and below the minimum wins over
    expired. *)
Lemma applyCoupon_witness :
  refuses (shop [flat20; save10_min100] healthy) t_coupons = None
  /\ Checkout.applyCouponMutation
       (shop [flat20; save10_min100] healthy) checkout_50 2000
     = Rejected (MinimumOrderAmount 100).
Proof.
  split; [reflexivity |].
  destruct (applyCoupon_checks_in_order
              (shop [flat20; save10_min100] healthy) checkout_50 2000 eq_refl)
    as [_ H].
  destruct (H save10_min100) as (_ & _ & B & _).
  - repeat split.
    + repeat constructor; simpl; intuition discriminate.
    + simpl. tauto.
  - apply (B 100 1000); reflexivity.
Defined.

Example applyCoupon_save10 :
  Checkout.applyCouponMutation (shop [save10] healthy) checkout_50 2000
  = Resolved save10.
Proof. reflexivity. Qed.

Example applyCoupon_unknown :
  Checkout.applyCouponMutation (shop [flat20] healthy) checkout_50 2000
  = Rejected InvalidCouponCode.
Proof. reflexivity. Qed.

(** Two lines that total 150 and a discount of 20: one order of 130 and two
    lines at 100 and 50.  When the catalog price of the first product goes
    up to 175 afterwards, the cart resolves to the new price and the order
    lines stay as they were. *)
Example order_of_two_lines :
  Checkout.cartQuery stocked (Checkout.user checkout_150)
  = match Checkout.cartItems checkout_150 with
    | Some items => Resolved items
    | None => Resolved []
    end
  /\ exists order st' cart',
      Checkout.createSupabaseOrder stocked checkout_150 "ORD-1-7"
      = (Resolved order, st')
      /\ orders st' = [order]
      /\ total_amount order = 150
      /\ discount_amount order = 20
      /\ final_amount order = 130
      /\ map oi_price_per_litre (order_items st') = [100; 50]
      /\ Checkout.cartQuery
           (Checkout.update_product st' "p1" (plain_product "Sesame oil" 175))
           (Checkout.user checkout_150)
         = Resolved cart'
      /\ map Checkout.pricePerLitre cart' = [175; 50]
      /\ map oi_price_per_litre
             (order_items
                (Checkout.update_product st' "p1"
                   (plain_product "Sesame oil" 175)))
         = [100; 50].
Proof.
  split; [reflexivity |].
  eexists. eexists. eexists. split; [reflexivity |].
  repeat split; reflexivity.
Qed.

Lemma createSupabaseOrder_composes_witness :
  exists order st',
    Checkout.createSupabaseOrder stocked checkout_150 "ORD-1-7"
    = (Resolved order, st')
    /\ orders st' = [order]
    /\ final_amount order = 130
    /\ status order = "pending"
    /\ payment_status order = "pending"
    /\ List.length (order_items st') = 2%nat.
Proof.
  destruct (createSupabaseOrder_composes stocked checkout_150 "ORD-1-7")
    as [A _].
  destruct (A {| uid := "u1" |} (plain_line 1 "p1" sesame 1)
              [plain_line 2 "p2" coconut 1] eq_refl eq_refl eq_refl eq_refl)
    as (order & st' & lines & E & O & T & D & F & S1 & S2 & L & Len & _).
  exists order, st'.
  split; [exact E |]. split; [exact O |].
  split; [rewrite F, T, D; reflexivity |].
  split; [exact S1 |]. split; [exact S2 |].
  rewrite L. simpl. exact Len.
Defined.

Lemma createSupabaseOrder_not_atomic_witness :
  exists order st',
    Checkout.createSupabaseOrder (shop [flat20] lines_refused) checkout_150
                                 "ORD-1-7"
    = (Rejected (StoreError
                   {| pg_code := "42501";
                      pg_message := "new row violates row-level security policy" |}),
       st')
    /\ orders st' = [order]
    /\ order_items st' = [].
Proof.
  destruct (createSupabaseOrder_not_atomic
              (shop [flat20] lines_refused) checkout_150 "ORD-1-7"
              {| uid := "u1" |} (plain_line 1 "p1" sesame 1)
              [plain_line 2 "p2" coconut 1] eq_refl eq_refl) as [A _].
  destruct (A _ eq_refl eq_refl) as (order & st' & E & O & _ & I & _).
  exists order, st'. repeat split; assumption.
Defined.

(** Adding sesame oil twice, 2 litres then 3, to an empty cart: one line of
    5 litres. *)
Lemma addToCart_witness :
  exists line,
    lines_of {| uid := "u1" |} (sesame_page 2)
      (cart_items
         (snd (ProductDetail.addToCartMutation
                 (snd (ProductDetail.addToCartMutation
                         (shop [] healthy) (sesame_page 2)))
                 (sesame_page 3))))
    = [line]
    /\ quantity_litres line = 5.
Proof.
  destruct (addToCart_merges_or_inserts
              (shop [] healthy) (sesame_page 2) {| uid := "u1" |} sesame
              eq_refl eq_refl eq_refl eq_refl) as (_ & _ & T).
  destruct (T (sesame_page 3) eq_refl eq_refl eq_refl eq_refl eq_refl
              eq_refl eq_refl eq_refl (Forall_nil _))
    as (line & L & Q & _).
  exists line. split; [exact L | exact Q].
Defined.

(** Red paint and blue paint of the same product make two lines; red paint
    again adds to the first. *)
Example addToCart_red_and_blue :
  map (fun r => (option_map vo_label (variant_selection r), quantity_litres r))
      (cart_items
         (snd (ProductDetail.addToCartMutation
                 (snd (ProductDetail.addToCartMutation
                         (snd (ProductDetail.addToCartMutation
                                 (shop [] healthy) (paint_page "Red")))
                         (paint_page "Blue")))
                 (paint_page "Red"))))
  = [(Some "Red", 2); (Some "Blue", 1)].
Proof. reflexivity. Qed.

End Samples.

(* ================================================================== *)
(** * More facts about numbers *)
(* ================================================================== *)

Section OrderOfNumbers.

Local Open Scope float_scope.

Lemma sub_zero_r (x : number) : x - 0 = x.
Proof.
  apply Prim2SF_inj. rewrite FloatAxioms.sub_spec.
  replace (Prim2SF 0) with (S754_zero false) by reflexivity.
  unfold SF64sub.
  destruct (Prim2SF x) as [s | s | | s m e]; simpl; try reflexivity.
  destruct s; reflexivity.
Qed.

Lemma truthy_not_nan (x : number) :
  truthy_num x = true -> PrimFloat.is_nan x = false.
Proof.
  unfold truthy_num. destruct (PrimFloat.is_nan x); [| reflexivity].
  rewrite andb_false_r. discriminate.
Qed.

Lemma SFcompare_refl (x : spec_float) : x <> S754_nan -> SFcompare x x = Some Eq.
Proof.
  destruct x as [s | s | | s m e]; intros H.
  - reflexivity.
  - destruct s; reflexivity.
  - congruence.
  - apply SFcompare_finite_refl.
Qed.

Lemma not_nan_Prim2SF (x : number) :
  PrimFloat.is_nan x = false -> Prim2SF x <> S754_nan.
Proof.
  unfold PrimFloat.is_nan. rewrite FloatAxioms.eqb_spec. intros H E.
  rewrite E in H. discriminate.
Qed.

Lemma leb_refl (x : number) : PrimFloat.is_nan x = false -> PrimFloat.leb x x = true.
Proof.
  intros H. rewrite FloatAxioms.leb_spec. unfold SFleb.
  now rewrite (SFcompare_refl _ (not_nan_Prim2SF x H)).
Qed.

Lemma ltb_leb (x y : number) : PrimFloat.ltb x y = true -> PrimFloat.leb x y = true.
Proof.
  rewrite FloatAxioms.ltb_spec, FloatAxioms.leb_spec. unfold SFltb, SFleb.
  destruct (SFcompare _ _) as [[| |] |]; congruence.
Qed.

Lemma is_neg_zero_Prim2SF (x : number) :
  is_neg_zero x = true -> Prim2SF x = S754_zero true.
Proof.
  unfold is_neg_zero. rewrite FloatAxioms.classify_spec.
  unfold SF64classify, SFclassify.
  destruct (Prim2SF x) as [s | s | | s m e];
    try destruct s; try discriminate; try reflexivity.
  - destruct (_ =? _)%Z; discriminate.
  - destruct (_ =? _)%Z; discriminate.
Qed.

Lemma Math_min_le_cap (x m : number) :
  PrimFloat.is_nan x = false -> PrimFloat.is_nan m = false ->
  PrimFloat.leb (Math_min x m) m = true.
Proof.
  intros Nx Nm. unfold Math_min. rewrite Nx, Nm. simpl.
  destruct (PrimFloat.ltb x m) eqn:L; [now apply ltb_leb |].
  destruct (PrimFloat.ltb m x) eqn:G; [now apply leb_refl |].
  destruct (is_neg_zero x) eqn:Z; [| now apply leb_refl].
  apply is_neg_zero_Prim2SF in Z.
  pose proof (not_nan_Prim2SF m Nm) as Hm.
  rewrite FloatAxioms.ltb_spec in G. rewrite FloatAxioms.leb_spec.
  unfold SFltb, SFleb in *. rewrite Z in *.
  destruct (Prim2SF m) as [s' | s' | | s' mm e']; simpl in *;
    try destruct s'; try discriminate; try reflexivity.
  congruence.
Qed.

(** [smaller] is the least of its two arguments. *)
Lemma smaller_is_least (x m : number) :
  PrimFloat.is_nan x = false -> PrimFloat.is_nan m = false ->
  PrimFloat.leb (smaller x m) x = true
  /\ PrimFloat.leb (smaller x m) m = true
  /\ (smaller x m = x \/ smaller x m = m).
Proof.
  intros Nx Nm. unfold smaller.
  destruct (PrimFloat.ltb m x) eqn:G.
  - split; [now apply ltb_leb |]. split; [now apply leb_refl | now right].
  - split; [now apply leb_refl |]. split; [| now left].
    rewrite FloatAxioms.ltb_spec in G. rewrite FloatAxioms.leb_spec.
    unfold SFltb, SFleb in *.
    destruct (SFcompare_total _ _ (not_nan_Prim2SF x Nx) (not_nan_Prim2SF m Nm))
      as [L | [L | L]].
    + now rewrite L.
    + rewrite L in G. discriminate G.
    + now rewrite L.
Qed.

Lemma Math_min_nan (x m : number) :
  PrimFloat.is_nan (Math_min x m) = PrimFloat.is_nan x || PrimFloat.is_nan m.
Proof.
  unfold Math_min.
  destruct (PrimFloat.is_nan x) eqn:Nx; [reflexivity |].
  destruct (PrimFloat.is_nan m) eqn:Nm; [reflexivity |]. simpl.
  destruct (PrimFloat.ltb x m); [exact Nx |].
  destruct (PrimFloat.ltb m x); [exact Nm |].
  destruct (is_neg_zero x); assumption.
Qed.

(** [Math.max(1, y)] is never below 1, and is at least 1 unless [y] is
    [NaN]. *)
Lemma Math_max_one_not_below (y : number) :
  PrimFloat.ltb (Math_max 1 y) 1 = false.
Proof.
  unfold Math_max.
  destruct (PrimFloat.is_nan y); [reflexivity |]. simpl.
  destruct (PrimFloat.ltb y 1) eqn:L; [reflexivity |].
  destruct (PrimFloat.ltb 1 y); [exact L | reflexivity].
Qed.

Lemma Math_max_one_at_least (y : number) :
  PrimFloat.is_nan y = false -> PrimFloat.leb 1 (Math_max 1 y) = true.
Proof.
  intros N. unfold Math_max. rewrite N. simpl.
  destruct (PrimFloat.ltb y 1); [reflexivity |].
  destruct (PrimFloat.ltb 1 y) eqn:G; [now apply ltb_leb | reflexivity].
Qed.

Lemma Math_max_nan (x y : number) :
  PrimFloat.is_nan (Math_max x y) = PrimFloat.is_nan x || PrimFloat.is_nan y.
Proof.
  unfold Math_max.
  destruct (PrimFloat.is_nan x) eqn:Nx; [reflexivity |].
  destruct (PrimFloat.is_nan y) eqn:Ny; [reflexivity |]. simpl.
  destruct (PrimFloat.ltb y x); [exact Nx |].
  destruct (PrimFloat.ltb x y); [exact Ny |].
  destruct (is_neg_zero x); assumption.
Qed.

End OrderOfNumbers.

(* ================================================================== *)
(** * Totals of the cart and of the checkout *)
(* ================================================================== *)

Section Totals.

Import Checkout.
Local Open Scope float_scope.

Lemma subtotal_not_NaN (cartItems : option (list CartItem)) :
  PrimFloat.is_nan (subtotal cartItems) = false.
Proof.
  unfold subtotal. destruct cartItems as [items |]; [| reflexivity].
  cbv zeta. destruct (truthy_num _) eqn:T; [| reflexivity].
  now apply truthy_not_nan.
Qed.

(** X5: the subtotal of the checkout page is never [NaN] (a sum that is
    [NaN] is shown as 0), it is 0 for a cart that is empty or not loaded, and
    while no coupon is applied the total is the subtotal. *)
Theorem total_without_coupon :
  forall ui : State,
    Number_isNaN (subtotal (cartItems ui)) = false
    /\ (cartItems ui = None \/ cartItems ui = Some [] ->
        subtotal (cartItems ui) = 0)
    /\ (appliedCoupon ui = None -> total ui = subtotal (cartItems ui)).
Proof.
  intros ui. split; [apply subtotal_not_NaN |]. split.
  - intros [E | E]; rewrite E; reflexivity.
  - intros E. unfold total. rewrite E. simpl. apply sub_zero_r.
Qed.

Lemma price_pricePerLitre (item : CartItem) (p : Product) :
  products item = Some p -> Cart.price item p = pricePerLitre item.
Proof. intros E. unfold Cart.price, pricePerLitre. rewrite E. reflexivity. Qed.

Lemma cart_fold_joined (items : list CartItem) (acc : number) :
  fold_left
    (fun sum item =>
       match products item with
       | None => sum
       | Some product => sum + Cart.price item product * quantity_litres (row item)
       end)
    items acc
  = fold_left
      (fun sum item => sum + pricePerLitre item * quantity_litres (row item))
      (filter (fun item => isSome (products item)) items) acc.
Proof.
  revert acc. induction items as [| item items IH]; intros acc; [reflexivity |].
  simpl. destruct (products item) as [p |] eqn:E; simpl.
  - rewrite (price_pricePerLitre item p E). apply IH.
  - apply IH.
Qed.

(** X6: the total of the cart page is the subtotal of the checkout page
    taken over the lines that came with their product. *)
Theorem cart_total_is_subtotal_of_joined_lines :
  forall cartItems : option (list CartItem),
    Cart.total cartItems
    = subtotal (option_map (filter (fun item => isSome (products item))) cartItems).
Proof.
  intros [items |]; [| reflexivity].
  unfold Cart.total, subtotal. simpl. rewrite cart_fold_joined. reflexivity.
Qed.

(** X7: under a percentage coupon with a cap, the discount is [NaN] exactly
    when the uncapped amount is, and otherwise it is at most the cap. *)
Theorem discount_within_cap :
  forall (c : Coupon) (s m : number),
    discount_type c = "percentage" ->
    max_discount_amount c = Some m ->
    truthy_num m = true ->
    Number_isNaN (discount (Some c) s) = Number_isNaN (s * discount_value c / 100)
    /\ (Number_isNaN (s * discount_value c / 100) = false ->
        PrimFloat.leb (discount (Some c) s) m = true).
Proof.
  intros c s m T M Tm.
  rewrite (discount_percentage c s T), M, Tm.
  pose proof (truthy_not_nan m Tm) as Nm. unfold Number_isNaN. split.
  - rewrite Math_min_nan, Nm. apply orb_false_r.
  - intros Nx. now apply Math_min_le_cap.
Qed.

End Totals.

(* ================================================================== *)
(** * Orders placed *)
(* ================================================================== *)

Section OrdersPlaced.

Import Checkout.
Local Open Scope float_scope.

Lemma fold_orderItems (order : Order) (items : list CartItem) (acc : number) :
  fold_left (fun sum l => sum + oi_total_price l) (map (orderItem order) items) acc
  = fold_left
      (fun sum item => sum + pricePerLitre item * quantity_litres (row item))
      items acc.
Proof.
  revert acc. induction items as [| item items IH]; intros acc; [reflexivity |].
  simpl. apply IH.
Qed.

(** X8: whatever comes of it, composing an order leaves the catalogue, the
    coupons and the cart as they were (the cart is not emptied), removes no
    order and no order line, and writes at most one order; when it succeeds
    the order is the one written, every line written belongs to it, and its
    total amount is the sum of the totals of its lines. *)
Theorem createSupabaseOrder_frame :
  forall (st : Store) (ui : State) (orderNumber : string)
         (r : outcome Order) (st' : Store),
    createSupabaseOrder st ui orderNumber = (r, st') ->
    catalog st' = catalog st
    /\ coupons st' = coupons st
    /\ cart_items st' = cart_items st
    /\ exists written lines,
        orders st' = orders st ++ written
        /\ order_items st' = order_items st ++ lines
        /\ (List.length written <= 1)%nat
        /\ (forall e, r = Rejected e -> lines = [])
        /\ (forall order,
               r = Resolved order ->
               written = [order]
               /\ order_id order = next_id st
               /\ Forall (fun l => oi_order_id l = order_id order) lines
               /\ total_amount order = sum_of_lines lines).
Proof.
  intros st ui orderNumber r st' H. unfold createSupabaseOrder in H.
  assert (Same : forall e, (Rejected e, st) = (r, st') ->
            catalog st' = catalog st
            /\ coupons st' = coupons st
            /\ cart_items st' = cart_items st
            /\ exists written lines,
                orders st' = orders st ++ written
                /\ order_items st' = order_items st ++ lines
                /\ (List.length written <= 1)%nat
                /\ (forall e, r = Rejected e -> lines = [])
                /\ (forall order,
                       r = Resolved order ->
                       written = [order]
                       /\ order_id order = next_id st
                       /\ Forall (fun l => oi_order_id l = order_id order) lines
                       /\ total_amount order = sum_of_lines lines)).
  { intros e E. injection E as <- <-. do 3 (split; [reflexivity |]).
    exists [], []. rewrite !app_nil_r. do 2 (split; [reflexivity |]).
    split; [simpl; lia |]. split; [reflexivity |]. intros order E; discriminate E. }
  destruct (user ui) as [u |]; [| exact (Same _ H)].
  destruct (cartItems ui) as [[| item items] |] eqn:C;
    [exact (Same _ H) | | exact (Same _ H)].
  unfold insert_order in H.
  destruct (refuses st t_orders) as [e |]; [exact (Same _ H) |].
  unfold insert_order_items in H. cbn [refuses catalog coupons cart_items orders
                                       order_items next_id] in H.
  destruct (refuses st t_order_items) as [e |]; injection H as <- <-; simpl.
  - do 3 (split; [reflexivity |]).
    eexists [_], []. rewrite app_nil_r. do 2 (split; [reflexivity |]).
    split; [simpl; lia |]. split; [reflexivity |]. intros order E; discriminate E.
  - do 3 (split; [reflexivity |]).
    eexists [_], _. do 2 (split; [reflexivity |]).
    split; [simpl; lia |]. split; [intros e E; discriminate E |].
    intros order E. injection E as <-. simpl. split; [reflexivity |].
    split; [reflexivity |]. split.
    + constructor; [reflexivity |]. apply Forall_forall. intros l I.
      apply in_map_iff in I. destruct I as [x [<- _]]. reflexivity.
    + unfold sum_of_lines. cbn [fold_left map orderItem oi_total_price].
      rewrite fold_orderItems. reflexivity.
Qed.

(** X9: an order is placed only by a signed-in user, with an address of at
    least ten UTF-16 code units (its [length]) and a cart that is not empty,
    the address being tested before the cart; a refusal that is not the
    store's leaves the store as it was. *)
Theorem placeOrderMutation_validates :
  forall (st : Store) (ui : State) (orderNumber : string),
    (user ui = None ->
     placeOrderMutation st ui orderNumber = (Rejected PleaseLogin, st))
    /\ (user ui <> None ->
        checkoutSchema (address ui) = false ->
        placeOrderMutation st ui orderNumber = (Rejected AddressTooShort, st))
    /\ (user ui <> None ->
        checkoutSchema (address ui) = true ->
        cartItems ui = None \/ cartItems ui = Some [] ->
        placeOrderMutation st ui orderNumber = (Rejected CartIsEmpty, st))
    /\ (forall e st',
           placeOrderMutation st ui orderNumber = (Rejected e, st') ->
           is_store_error e = false -> st' = st)
    /\ (forall order st',
           placeOrderMutation st ui orderNumber = (Resolved order, st') ->
           option_map uid (user ui) = Some (order_user_id order)
           /\ shipping_address order = address ui
           /\ (10 <= utf16_length (shipping_address order))%nat
           /\ (exists item items, cartItems ui = Some (item :: items))
           /\ In order (orders st')).
Proof.
  intros st ui orderNumber. unfold placeOrderMutation.
  destruct (user ui) as [u |] eqn:U.
  2:{ split; [reflexivity |]. split; [intros N; now destruct N |].
      split; [intros N; now destruct N |]. split.
      - intros e st' E _. now injection E.
      - intros order st' E; discriminate E. }
  split; [intros E; discriminate E |].
  destruct (checkoutSchema (address ui)) eqn:A; simpl.
  2:{ split; [reflexivity |]. split; [intros _ E; discriminate E |]. split.
      - intros e st' E _. now injection E.
      - intros order st' E; discriminate E. }
  split; [intros _ E; discriminate E |].
  destruct (cartItems ui) as [[| item items] |] eqn:C.
  - split; [reflexivity |]. split.
    + intros e st' E _. now injection E.
    + intros order st' E; discriminate E.
  - split; [intros _ _ [E | E]; discriminate E |].
    unfold createSupabaseOrder. rewrite U, C.
    unfold insert_order, insert_order_items.
    cbn [refuses catalog coupons cart_items orders order_items next_id].
    destruct (refuses st t_orders) as [e1 |]; cbv beta iota.
    { split.
      - intros e st' E F. inversion E; subst. simpl in F. discriminate F.
      - intros order st' E; discriminate E. }
    cbn [refuses].
    destruct (refuses st t_order_items) as [e2 |]; cbv beta iota.
    { split.
      - intros e st' E F. inversion E; subst. simpl in F. discriminate F.
      - intros order st' E; discriminate E. }
    split; [intros e st' E; discriminate E |].
    intros order st' E. injection E as <- <-. simpl.
    split; [reflexivity |]. split; [reflexivity |].
    split; [now apply Nat.leb_le |].
    split; [now exists item, items |].
    apply in_or_app. right. now left.
  - split; [reflexivity |]. split.
    + intros e st' E _. now injection E.
    + intros order st' E; discriminate E.
Qed.

End OrdersPlaced.

(* ================================================================== *)
(** * Coupons applied *)
(* ================================================================== *)

Section UpperCase.

Lemma upper_char_not_lower (c : ascii) : is_lower (upper_char c) = false.
Proof.
  unfold upper_char, is_lower.
  destruct ((97 <=? nat_of_ascii c)%nat && (nat_of_ascii c <=? 122)%nat) eqn:L;
    [| exact L].
  apply andb_true_iff in L. destruct L as [L1 L2].
  apply Nat.leb_le in L1, L2.
  rewrite nat_ascii_embedding by lia.
  apply andb_false_iff. left. apply Nat.leb_gt. lia.
Qed.

Lemma has_lower_app (a b : string) :
  has_lower (a ++ b)%string = has_lower a || has_lower b.
Proof.
  induction a as [| c a IH]; [reflexivity |].
  simpl. now rewrite IH, orb_assoc.
Qed.

Lemma upper_table_no_lower :
  forallb (fun e => negb (has_lower (snd e))) upper_table = true.
Proof. vm_compute. reflexivity. Qed.

Lemma upper_of_no_lower (ch : string) (table : list (string * string)) :
  has_lower ch = false ->
  forallb (fun e => negb (has_lower (snd e))) table = true ->
  has_lower (upper_of ch table) = false.
Proof.
  intros C. induction table as [| [k v] table IH]; [intros _; exact C |].
  simpl. intros F. apply andb_true_iff in F. destruct F as [F1 F2].
  destruct (ch =? k); [now apply negb_true_iff | now apply IH].
Qed.

Lemma continuation_spec (n : nat) (s : string) :
  has_lower (fst (continuation n s)) = false
  /\ String.length (snd (continuation n s)) <= String.length s.
Proof.
  revert s. induction n as [| n IH]; intros s; [simpl; split; [reflexivity | lia] |].
  destruct s as [| c r]; [simpl; split; [reflexivity | lia] |].
  simpl. destruct (is_continuation c) eqn:K; [| simpl; split; [reflexivity | lia]].
  specialize (IH r). destruct (continuation n r) as [bytes rest']. simpl in *.
  destruct IH as [H1 H2]. split; [| lia].
  rewrite H1, orb_false_r. unfold is_continuation in K. unfold is_lower.
  apply andb_true_iff in K. destruct K as [K _]. apply Nat.leb_le in K.
  apply andb_false_iff. right. apply Nat.leb_gt. lia.
Qed.

Lemma toUpperCase_from_no_lower (n : nat) (s : string) :
  String.length s <= n -> has_lower (toUpperCase_from n s) = false.
Proof.
  revert s. induction n as [| n IH]; intros s L.
  - destruct s; [reflexivity | simpl in L; lia].
  - destruct s as [| c r]; [reflexivity |]. simpl in L.
    cbn [toUpperCase_from].
    destruct (nat_of_ascii c <? 128)%nat eqn:A.
    + simpl. rewrite upper_char_not_lower. apply IH. lia.
    + pose proof (continuation_spec (following_bytes c) r) as [C1 C2].
      destruct (continuation (following_bytes c) r) as [bytes rest'].
      cbn [fst snd] in C1, C2.
      rewrite has_lower_app, IH by lia. rewrite orb_false_r.
      apply upper_of_no_lower; [| exact upper_table_no_lower].
      cbn [has_lower]. rewrite C1, orb_false_r. unfold is_lower.
      apply Nat.ltb_ge in A. apply andb_false_iff. right. apply Nat.leb_gt. lia.
Qed.

Lemma toUpperCase_no_lower (s : string) : has_lower (toUpperCase s) = false.
Proof. apply toUpperCase_from_no_lower. lia. Qed.

End UpperCase.

Section CouponsApplied.

Import Checkout.
Local Open Scope float_scope.

Lemma filter_singleton {A : Type} (f : A -> bool) (l : list A) (x : A) :
  filter f l = [x] ->
  In x l /\ f x = true /\ forall y, In y l -> f y = true -> y = x.
Proof.
  intros E.
  assert (I : In x (filter f l)) by (rewrite E; now left).
  apply filter_In in I. destruct I as [I F]. split; [exact I |].
  split; [exact F |]. intros y Iy Fy.
  assert (J : In y (filter f l)) by (apply filter_In; now split).
  rewrite E in J. destruct J as [J | []]. now symmetry.
Qed.

(** X10: a coupon is applied only if the store answered, it is the one
    active coupon of the store whose code is the typed code in upper case,
    the subtotal is not below its minimum when it has one, and it is not
    past its date. *)
Theorem applyCoupon_sound :
  forall (st : Store) (ui : State) (now : number) (data : Coupon),
    applyCouponMutation st ui now = Resolved data ->
    refuses st t_coupons = None
    /\ In data (coupons st)
    /\ is_active data = true
    /\ code data = toUpperCase (couponCode ui)
    /\ (forall other,
           In other (coupons st) -> code other = code data ->
           is_active other = true -> other = data)
    /\ (forall m,
           min_order_amount data = Some m -> truthy_num m = true ->
           PrimFloat.ltb (subtotal (cartItems ui)) m = false)
    /\ (forall t, valid_until data = Some t -> PrimFloat.ltb t now = false).
Proof.
  intros st ui now data H. unfold applyCouponMutation, select_coupon in H.
  destruct (refuses st t_coupons) as [e |]; [discriminate H |].
  split; [reflexivity |].
  destruct (filter _ (coupons st)) as [| r [| r' rest]] eqn:F;
    [discriminate H | | discriminate H].
  apply filter_singleton in F. destruct F as [I [Fr Uq]].
  apply andb_true_iff in Fr. destruct Fr as [Fc Fa].
  apply String.eqb_eq in Fc. apply Bool.eqb_prop in Fa.
  assert (D : r = data
              /\ match min_order_amount r with
                 | Some m => truthy_num m && PrimFloat.ltb (subtotal (cartItems ui)) m
                 | None => false
                 end = false
              /\ match valid_until r with
                 | Some t => PrimFloat.ltb t now
                 | None => false
                 end = false).
  { destruct (min_order_amount r) as [m |].
    - destruct (truthy_num m && PrimFloat.ltb (subtotal (cartItems ui)) m);
        [discriminate H |].
      destruct (valid_until r) as [t |].
      + destruct (PrimFloat.ltb t now); [discriminate H |].
        injection H as ->. now repeat split.
      + injection H as ->. now repeat split.
    - destruct (valid_until r) as [t |].
      + destruct (PrimFloat.ltb t now); [discriminate H |].
        injection H as ->. now repeat split.
      + injection H as ->. now repeat split. }
  destruct D as [-> [Dm Dv]].
  split; [exact I |]. split; [exact Fa |]. split; [exact Fc |]. split.
  - intros other Io Co Ao. apply Uq; [exact Io |].
    apply andb_true_iff. split.
    + apply String.eqb_eq. now rewrite Co.
    + rewrite Ao. reflexivity.
  - split.
    + intros m Em Tm. rewrite Em, Tm in Dm. exact Dm.
    + intros t Et. rewrite Et in Dv. exact Dv.
Qed.

(** X11: a coupon stored with a lower-case letter in its code is never
    applied, whatever is typed. *)
Theorem applyCoupon_never_lower_case :
  forall (st : Store) (ui : State) (now : number) (data : Coupon),
    has_lower (code data) = true ->
    applyCouponMutation st ui now <> Resolved data.
Proof.
  intros st ui now data L H.
  unfold applyCouponMutation, select_coupon in H.
  destruct (refuses st t_coupons) as [e |]; [discriminate H |].
  destruct (filter _ (coupons st)) as [| r [| r' rest]] eqn:F;
    [discriminate H | | discriminate H].
  apply filter_singleton in F. destruct F as [_ [Fr _]].
  apply andb_true_iff in Fr. destruct Fr as [Fc _].
  apply String.eqb_eq in Fc.
  assert (D : r = data).
  { destruct (min_order_amount r) as [m |].
    - destruct (truthy_num m && PrimFloat.ltb (subtotal (cartItems ui)) m);
        [discriminate H |].
      destruct (valid_until r) as [t |].
      + destruct (PrimFloat.ltb t now); [discriminate H |]. now injection H.
      + now injection H.
    - destruct (valid_until r) as [t |].
      + destruct (PrimFloat.ltb t now); [discriminate H |]. now injection H.
      + now injection H. }
  subst r. rewrite Fc, toUpperCase_no_lower in L. discriminate L.
Qed.

End CouponsApplied.

(* ================================================================== *)
(** * Add to cart, again *)
(* ================================================================== *)

Section AddToCartAgain.

Import ProductDetail.

Lemma find_app {A : Type} (f : A -> bool) (l1 l2 : list A) :
  find f (l1 ++ l2) =
  match find f l1 with
  | Some x => Some x
  | None => find f l2
  end.
Proof.
  induction l1 as [| x l1 IH]; [reflexivity |].
  simpl. destruct (f x); [reflexivity | exact IH].
Qed.

Lemma newLine_matches (st : Store) (u : User) (p : Product) (ui : State) :
  text_or_null (candidateLabel (selectedMeasurement ui)) = true ->
  match_ (selectedVariant ui) (selectedMeasurement ui) (newLine st u p ui) = true.
Proof.
  intros T. apply match_iff. split; [reflexivity |].
  unfold newLine, comparedLabel. cbn [measurement_value].
  fold (candidateLabel (selectedMeasurement ui)).
  destruct (candidateLabel (selectedMeasurement ui)); try discriminate T; simpl.
  - reflexivity.
  - apply String.eqb_refl.
Qed.

Lemma lines_of_newLine (st : Store) (u : User) (p : Product) (ui : State)
    (rows : list CartRow) :
  lines_of u ui (rows ++ [newLine st u p ui])
  = lines_of u ui rows ++ [newLine st u p ui].
Proof.
  unfold lines_of. rewrite filter_app. f_equal. simpl.
  now rewrite !String.eqb_refl.
Qed.

(** X12: a line that add-to-cart has inserted is found again by the same
    selection, so that the second click adds its quantity to that line, when
    the label of the selected measurement is text (or there is no
    measurement). *)
Theorem addToCart_again_merges :
  forall (st : Store) (ui ui2 : State) (u : User) (p : Product),
    user ui = Some u ->
    product ui = Some p ->
    selectionMissing ui p = false ->
    refuses st t_cart_items = None ->
    find (match_ (selectedVariant ui) (selectedMeasurement ui))
         (lines_of u ui (cart_items st)) = None ->
    Forall (fun r => (id r < next_id st)%nat) (cart_items st) ->
    text_or_null (candidateLabel (selectedMeasurement ui)) = true ->
    user ui2 = user ui ->
    product ui2 = product ui ->
    route_id ui2 = route_id ui ->
    selectedVariant ui2 = selectedVariant ui ->
    selectedMeasurement ui2 = selectedMeasurement ui ->
    cart_items (snd (addToCartMutation (snd (addToCartMutation st ui)) ui2))
    = cart_items st
      ++ [set_quantity (next_id st) (quantity ui + quantity ui2)%float
                       (newLine st u p ui)].
Proof.
  intros st ui ui2 u p U P M R F Fresh T U2 P2 R2 V2 M2.
  rewrite (addToCart_runs st ui u p U P M R), F. cbn [snd].
  set (st1 := with_cart_items st (cart_items st ++ [newLine st u p ui])
                              (S (next_id st))).
  assert (Sel2 : selectionMissing ui2 p = false).
  { unfold selectionMissing in *. now rewrite V2, M2. }
  rewrite (addToCart_runs st1 ui2 u p (eq_trans U2 U) (eq_trans P2 P) Sel2 R).
  cbn [snd]. rewrite V2, M2.
  replace (lines_of u ui2 (cart_items st1))
    with (lines_of u ui (cart_items st1))
    by (unfold lines_of; now rewrite R2).
  unfold st1 at 1. cbn [cart_items with_cart_items].
  rewrite lines_of_newLine, find_app, F. cbn [find].
  rewrite (newLine_matches st u p ui T).
  unfold st1. cbn [cart_items with_cart_items id newLine quantity_litres].
  rewrite map_app. cbn [map].
  now rewrite (map_set_quantity_fresh _ _ _ Fresh).
Qed.

Lemma addToCart_resolves (st : Store) (ui : State) (u : User) (p : Product) :
  user ui = Some u ->
  product ui = Some p ->
  selectionMissing ui p = false ->
  fst (addToCartMutation st ui) = Resolved tt.
Proof.
  intros U P M. unfold selectionMissing in M.
  apply orb_false_iff in M. destruct M as [V W].
  unfold addToCartMutation. rewrite U, P, V, W.
  destruct (find _ _); reflexivity.
Qed.

(** X13: add-to-cart refuses a visitor who is not signed in, then a page
    without its product, then a product with options of which one is not
    chosen, the variant being asked for before the measurement; a refusal
    leaves the store as it was, and nothing else is refused. *)
Theorem addToCart_refusals :
  forall (st : Store) (ui : State),
    (user ui = None -> addToCartMutation st ui = (Rejected PleaseLogin, st))
    /\ (user ui <> None -> product ui = None ->
        addToCartMutation st ui = (Rejected ProductNotFound, st))
    /\ (forall p,
           user ui <> None -> product ui = Some p ->
           hasVariants p && negb (isSome (selectedVariant ui)) = true ->
           addToCartMutation st ui = (Rejected (PleaseSelect (variant_title p)), st))
    /\ (forall p,
           user ui <> None -> product ui = Some p ->
           hasVariants p && negb (isSome (selectedVariant ui)) = false ->
           hasMeasurements p && negb (isSome (selectedMeasurement ui)) = true ->
           addToCartMutation st ui
           = (Rejected (PleaseSelect (measurement_title p)), st))
    /\ (forall p,
           user ui <> None -> product ui = Some p ->
           selectionMissing ui p = false ->
           fst (addToCartMutation st ui) = Resolved tt)
    /\ (forall e st',
           addToCartMutation st ui = (Rejected e, st') -> st' = st).
Proof.
  intros st ui. repeat split.
  - intros U. unfold addToCartMutation. now rewrite U.
  - intros U P. unfold addToCartMutation.
    destruct (user ui); [| congruence]. now rewrite P.
  - intros p U P V. unfold addToCartMutation.
    destruct (user ui); [| congruence]. now rewrite P, V.
  - intros p U P V W. unfold addToCartMutation.
    destruct (user ui); [| congruence]. now rewrite P, V, W.
  - intros p U P M. destruct (user ui) as [u |] eqn:Eu; [| congruence].
    exact (addToCart_resolves st ui u p Eu P M).
  - intros e st' E. unfold addToCartMutation in E.
    destruct (user ui); [| now inversion E].
    destruct (product ui) as [p |]; [| now inversion E].
    destruct (hasVariants p && _); [now inversion E |].
    destruct (hasMeasurements p && _); [now inversion E |].
    destruct (find _ _); discriminate E.
Qed.

(** X14: when the store refuses the cart, add-to-cart still resolves, and
    the cart is as it was: the refusal of the store is not looked at. *)
Theorem addToCart_swallows_store_error :
  forall (st : Store) (ui : State) (u : User) (p : Product) (e : PostgrestError),
    user ui = Some u ->
    product ui = Some p ->
    selectionMissing ui p = false ->
    refuses st t_cart_items = Some e ->
    addToCartMutation st ui = (Resolved tt, st).
Proof.
  intros st ui u p e U P M R. unfold selectionMissing in M.
  apply orb_false_iff in M. destruct M as [M1 M2].
  unfold addToCartMutation. rewrite U, P, M1, M2.
  unfold select_cart_items. rewrite R. cbn [find].
  unfold insert_cart_item. now rewrite R.
Qed.

End AddToCartAgain.

(* ================================================================== *)
(** * The key of a cart line *)
(* ================================================================== *)

Section CartKey.

Import ProductDetail.

Lemma NoDup_snoc {A : Type} (l : list A) (x : A) :
  NoDup l -> ~ In x l -> NoDup (l ++ [x]).
Proof.
  induction 1 as [| y l Ny _ IH]; intros N.
  - simpl. constructor; [intros [] | constructor].
  - simpl. constructor.
    + intros I. apply in_app_or in I. destruct I as [I | [-> | []]].
      * now apply Ny.
      * apply N. now left.
    + apply IH. intros I. apply N. now right.
Qed.

Lemma cart_key_set_quantity (k : nat) (q : number) (rows : list CartRow) :
  map cart_key (map (set_quantity k q) rows) = map cart_key rows.
Proof.
  rewrite map_map. apply map_ext. intros r.
  unfold set_quantity. now destruct (id r =? k)%nat.
Qed.

Lemma newLine_key_is_new (st : Store) (u : User) (p : Product) (ui : State) :
  find (match_ (selectedVariant ui) (selectedMeasurement ui))
       (lines_of u ui (cart_items st)) = None ->
  text_or_null (candidateLabel (selectedMeasurement ui)) = true ->
  ~ In (cart_key (newLine st u p ui)) (map cart_key (cart_items st)).
Proof.
  intros F T I. apply in_map_iff in I. destruct I as [r [K I]].
  unfold cart_key, newLine in K.
  cbn [user_id product_id variant_selection measurement_value] in K.
  injection K as Ku Kp Kv Km.
  assert (L : In r (lines_of u ui (cart_items st))).
  { apply filter_In. split; [exact I |].
    rewrite Ku, Kp, !String.eqb_refl. reflexivity. }
  pose proof (find_none _ _ F r L) as M.
  assert (M' : match_ (selectedVariant ui) (selectedMeasurement ui) r = true).
  { apply match_iff. split; [exact Kv |].
    unfold comparedLabel. rewrite Km.
    fold (candidateLabel (selectedMeasurement ui)).
    destruct (candidateLabel (selectedMeasurement ui)); try discriminate T; simpl.
    - reflexivity.
    - apply String.eqb_refl. }
  congruence.
Qed.

(** X15: add-to-cart keeps the cart free of two lines with the same user,
    product, variant label and measurement value (the columns of the unique
    index of the table), when the label of the selected measurement is text
    or there is no measurement: a merge changes a quantity only, and a line
    is inserted only when no line carries its key. *)
Theorem addToCart_keeps_cart_key_unique :
  forall (st : Store) (ui : State),
    NoDup (map cart_key (cart_items st)) ->
    text_or_null (candidateLabel (selectedMeasurement ui)) = true ->
    NoDup (map cart_key (cart_items (snd (addToCartMutation st ui)))).
Proof.
  intros st ui N T.
  destruct (user ui) as [u |] eqn:U.
  2:{ unfold addToCartMutation. now rewrite U. }
  destruct (product ui) as [p |] eqn:P.
  2:{ unfold addToCartMutation. now rewrite U, P. }
  destruct (selectionMissing ui p) eqn:M.
  { unfold selectionMissing in M. unfold addToCartMutation. rewrite U, P.
    destruct (hasVariants p && _); [exact N |].
    simpl in M. now rewrite M. }
  destruct (refuses st t_cart_items) as [e |] eqn:R.
  { unfold selectionMissing in M. apply orb_false_iff in M. destruct M as [M1 M2].
    unfold addToCartMutation. rewrite U, P, M1, M2.
    unfold select_cart_items. rewrite R. cbn [find snd].
    unfold insert_cart_item. now rewrite R. }
  rewrite (addToCart_runs st ui u p U P M R). cbn [snd].
  destruct (find _ _) as [m |] eqn:F; cbn [cart_items with_cart_items].
  - now rewrite cart_key_set_quantity.
  - rewrite map_app. cbn [map]. apply NoDup_snoc; [exact N |].
    now apply newLine_key_is_new.
Qed.

End CartKey.

(* ================================================================== *)
(** * The default selection *)
(* ================================================================== *)

Section DefaultSelection.

Import ProductDetail.

Lemma hd_error_isSome {A : Type} (l : list A) :
  (0 <? List.length l)%nat = true -> isSome (hd_error l) = true.
Proof. destruct l; [discriminate | reflexivity]. Qed.

Lemma default_of_nothing_variant (p : Product) :
  defaultVariant (hasVariants p) (parseVariantOptions (variant_values p)) None
  = if hasVariants p then hd_error (parseVariantOptions (variant_values p))
    else None.
Proof. unfold defaultVariant. now destruct (hasVariants p). Qed.

Lemma default_of_nothing_measurement (p : Product) :
  defaultMeasurement (hasMeasurements p)
                     (measurementValues (measurement_values p)) None
  = if hasMeasurements p then hd_error (measurementValues (measurement_values p))
    else None.
Proof. unfold defaultMeasurement. now destruct (hasMeasurements p). Qed.

Lemma first_option_not_missing {A : Type} (has : bool) (l : list A) :
  (has = true -> (0 <? List.length l)%nat = true) ->
  has && negb (isSome (if has then hd_error l else None)) = false.
Proof.
  destruct has; [| reflexivity].
  intros H. now rewrite (hd_error_isSome l (H eq_refl)).
Qed.

(** X16: the selection after the effects of the product page, when the
    page receives another product object.  The selection that was held is
    dropped.  Where the list of variants is parsed anew, the first variant
    is selected (none for a product without variants); where the list is
    the object it was, the default effect does not run and no variant is
    selected; the same of the measurements.  So no selection is missing,
    and add-to-cart by a signed-in user resolves, when both lists are parsed
    anew; add-to-cart asks for the variant, or else for the measurement, of
    a product that has such options and whose list was not parsed anew.
    When nothing has changed the page is as it was. *)
Theorem selection_after_effects :
  forall (ui : State) (p : Product),
    product ui = Some p ->
    (forall v m : bool,
        selectedVariant (runEffects true v m ui)
        = (if v && hasVariants p
           then hd_error (parseVariantOptions (variant_values p))
           else None)
        /\ selectedMeasurement (runEffects true v m ui)
           = (if m && hasMeasurements p
              then hd_error (measurementValues (measurement_values p))
              else None)
        /\ selectionMissing (runEffects true v m ui) p
           = (negb v && hasVariants p) || (negb m && hasMeasurements p)
        /\ (forall st u,
               user ui = Some u ->
               (negb v && hasVariants p) || (negb m && hasMeasurements p)
               = false ->
               fst (addToCartMutation st (runEffects true v m ui))
               = Resolved tt)
        /\ (forall st u,
               user ui = Some u ->
               negb v && hasVariants p = true ->
               addToCartMutation st (runEffects true v m ui)
               = (Rejected (PleaseSelect (variant_title p)), st))
        /\ (forall st u,
               user ui = Some u ->
               negb v && hasVariants p = false ->
               negb m && hasMeasurements p = true ->
               addToCartMutation st (runEffects true v m ui)
               = (Rejected (PleaseSelect (measurement_title p)), st)))
    /\ runEffects false false false ui = ui.
Proof.
  intros ui p P. split; [| reflexivity].
  intros v m.
  assert (L : runEffects true v m ui
              = {| user := user ui;
                   product := Some p;
                   route_id := route_id ui;
                   quantity := quantity ui;
                   selectedVariant :=
                     if v && hasVariants p
                     then hd_error (parseVariantOptions (variant_values p))
                     else None;
                   selectedMeasurement :=
                     if m && hasMeasurements p
                     then hd_error (measurementValues (measurement_values p))
                     else None |}).
  { unfold runEffects, resetSelection. rewrite P. cbv zeta.
    destruct v, m;
      unfold measurementEffect, variantEffect, pageHasVariants, variantOptions,
        pageHasMeasurements, pageMeasurementValues;
      cbn [user product route_id quantity selectedVariant selectedMeasurement
           andb];
      rewrite ?P, ?default_of_nothing_variant, ?default_of_nothing_measurement;
      reflexivity. }
  assert (Hv : hasVariants p = true ->
               (0 <? List.length (parseVariantOptions (variant_values p)))%nat
               = true).
  { unfold hasVariants. intros H. now apply andb_true_iff in H. }
  assert (Hm : hasMeasurements p = true ->
               (0 <? List.length (measurementValues (measurement_values p)))%nat
               = true).
  { unfold hasMeasurements. intros H. now apply andb_true_iff in H. }
  assert (Miss : selectionMissing (runEffects true v m ui) p
                 = (negb v && hasVariants p) || (negb m && hasMeasurements p)).
  { rewrite L. unfold selectionMissing.
    cbn [selectedVariant selectedMeasurement].
    destruct v, m; cbn [andb negb orb isSome];
      rewrite ?(first_option_not_missing _ _ Hv),
              ?(first_option_not_missing _ _ Hm), ?andb_true_r, ?orb_false_r;
      reflexivity. }
  split; [rewrite L; reflexivity |].
  split; [rewrite L; reflexivity |].
  split; [exact Miss |].
  split; [| split].
  - intros st u U Z.
    apply (addToCart_resolves st _ u p).
    + rewrite L. exact U.
    + rewrite L. reflexivity.
    + rewrite Miss. exact Z.
  - intros st u U H. rewrite L. unfold addToCartMutation.
    cbn [user product selectedVariant].
    rewrite U. apply andb_true_iff in H. destruct H as [V H].
    destruct v; [discriminate V |]. cbn [andb isSome negb]. now rewrite H.
  - intros st u U H1 H2. rewrite L. unfold addToCartMutation.
    cbn [user product selectedVariant selectedMeasurement].
    rewrite U. apply andb_true_iff in H2. destruct H2 as [M H2].
    destruct m; [discriminate M |]. cbn [andb isSome negb]. rewrite H2.
    destruct v; cbn [negb andb] in H1 |- *.
    + destruct (hasVariants p) eqn:V; [| reflexivity].
      now rewrite (hd_error_isSome _ (Hv eq_refl)).
    + now rewrite H1.
Qed.

End DefaultSelection.

(* ================================================================== *)
(** * Quantities and removal on the cart page *)
(* ================================================================== *)

Section CartPage.

Import ProductDetail.

Lemma filter_fresh (k : nat) (rows : list CartRow) :
  Forall (fun r => (id r < k)%nat) rows ->
  filter (fun r => negb (id r =? k)%nat) rows = rows.
Proof.
  induction 1 as [| r rows H _ IH]; [reflexivity |].
  simpl. replace (id r =? k)%nat with false.
  - simpl. now rewrite IH.
  - symmetry. apply Nat.eqb_neq. lia.
Qed.

(** X17: removing on the cart page the line that add-to-cart has just
    inserted gives back the cart there was before. *)
Theorem removeItem_undoes_insert :
  forall (st : Store) (ui : State) (u : User) (p : Product),
    user ui = Some u ->
    product ui = Some p ->
    selectionMissing ui p = false ->
    refuses st t_cart_items = None ->
    find (match_ (selectedVariant ui) (selectedMeasurement ui))
         (lines_of u ui (cart_items st)) = None ->
    Forall (fun r => (id r < next_id st)%nat) (cart_items st) ->
    exists st',
      Cart.removeItemMutation (snd (addToCartMutation st ui)) (next_id st)
      = (Resolved tt, st')
      /\ cart_items st' = cart_items st.
Proof.
  intros st ui u p U P M R F Fresh.
  rewrite (addToCart_runs st ui u p U P M R), F. cbn [snd].
  unfold Cart.removeItemMutation. cbn [refuses with_cart_items]. rewrite R.
  eexists. split; [reflexivity |].
  cbn [cart_items with_cart_items]. rewrite filter_app.
  rewrite (filter_fresh _ _ Fresh). cbn [filter newLine id].
  rewrite Nat.eqb_refl. apply app_nil_r.
Qed.

Lemma parseFloat_or_one_not_nan (text : string) :
  PrimFloat.is_nan
    (let v := parseFloat text in if truthy_num v then v else 1%float) = false.
Proof.
  cbv zeta. destruct (truthy_num (parseFloat text)) eqn:T; [| reflexivity].
  now apply truthy_not_nan.
Qed.

Lemma set_quantity_id (k : nat) (q : number) (r : CartRow) :
  id (set_quantity k q r) = id r.
Proof. unfold set_quantity. now destruct (id r =? k)%nat. Qed.

Lemma updated_quantity (key : nat) (q : number) (rows : list CartRow) (r : CartRow) :
  In r (map (set_quantity key q) rows) -> id r = key -> quantity_litres r = q.
Proof.
  intros I K. apply in_map_iff in I. destruct I as [r0 [<- _]].
  rewrite set_quantity_id in K. unfold set_quantity.
  apply Nat.eqb_eq in K. now rewrite K.
Qed.

(** X18: the quantity controls never ask for less than one: the quantity
    typed in the cart page is stored as a number that is at least 1 whatever
    the text, the minus buttons of the cart page and of the product page
    never go below 1, and the cart page surfaces a refusal of the store and
    leaves the cart as it was. *)
Theorem quantity_controls_floor_at_one :
  forall (st : Store) (key : nat),
    (forall text st' r,
        Cart.updateQuantityMutation st key (Cart.typedQuantity text)
        = (Resolved tt, st') ->
        In r (cart_items st') -> id r = key ->
        PrimFloat.leb 1 (quantity_litres r) = true)
    /\ (forall q st' r,
           Cart.updateQuantityMutation st key (Cart.minusQuantity q)
           = (Resolved tt, st') ->
           In r (cart_items st') -> id r = key ->
           PrimFloat.ltb (quantity_litres r) 1 = false)
    /\ (forall q, PrimFloat.ltb (ProductDetail.minusQuantity q) 1 = false)
    /\ (forall q e,
           refuses st t_cart_items = Some e ->
           Cart.updateQuantityMutation st key q = (Rejected (StoreError e), st)
           /\ Cart.removeItemMutation st key = (Rejected (StoreError e), st)).
Proof.
  intros st key. split; [| split; [| split]].
  - intros text st' r E I K. unfold Cart.updateQuantityMutation in E.
    destruct (refuses st t_cart_items); [discriminate E |].
    injection E as <-. cbn [cart_items with_cart_items] in I.
    rewrite (updated_quantity _ _ _ _ I K). unfold Cart.typedQuantity.
    apply Math_max_one_at_least, parseFloat_or_one_not_nan.
  - intros q st' r E I K. unfold Cart.updateQuantityMutation in E.
    destruct (refuses st t_cart_items); [discriminate E |].
    injection E as <-. cbn [cart_items with_cart_items] in I.
    rewrite (updated_quantity _ _ _ _ I K). apply Math_max_one_not_below.
  - intros q. apply Math_max_one_not_below.
  - intros q e R. unfold Cart.updateQuantityMutation, Cart.removeItemMutation.
    now rewrite R.
Qed.

End CartPage.

(* ================================================================== *)
(** * The price shown and the price charged *)
(* ================================================================== *)

Section PriceShownAndCharged.

Import ProductDetail.
Local Open Scope float_scope.

Lemma newLine_price (st : Store) (u : User) (p : Product) (ui : State)
    (joined : option Product) :
  is_num (variantPriceOf (selectedVariant ui))
  || is_num (measurementPriceOf (selectedMeasurement ui)) = true ->
  Checkout.pricePerLitre {| row := newLine st u p ui; products := joined |}
  = num_or (variantPriceOf (selectedVariant ui)) 0
    + num_or (measurementPriceOf (selectedMeasurement ui)) 0.
Proof.
  unfold Checkout.pricePerLitre, newLine, variantPriceOf, measurementPriceOf.
  cbn [row variant_price variant_selection measurement_price].
  destruct (selectedVariant ui) as [sv |];
    [destruct (vo_price sv) |];
    (destruct (selectedMeasurement ui) as [sm |];
     [destruct (mo_price sm) |]); simpl; intros H;
    try reflexivity; discriminate H.
Qed.

Lemma truthy_price_is_num (x : option number) :
  truthy_num (price_or_zero x) = true -> is_num x = true.
Proof. destruct x; [reflexivity |]. simpl. intros H. vm_compute in H. exact H. Qed.

Lemma price_or_zero_num_or (x : option number) :
  not_NaN x -> price_or_zero x = num_or x 0.
Proof.
  intros N. destruct x as [y |]; [| reflexivity]. simpl.
  now rewrite (N y eq_refl).
Qed.

(** X19: the price shown on the product page is the price charged: a line
    inserted by add-to-cart for a selection whose option prices are not [NaN]
    and not both zero is priced by the checkout page at the effective price
    the product page showed, whatever the catalogue has become since. *)
Theorem price_shown_is_price_charged :
  forall (st : Store) (ui : State) (u : User) (p : Product)
         (pid : string) (p' : Product),
    user ui = Some u ->
    product ui = Some p ->
    selectionMissing ui p = false ->
    refuses st t_cart_items = None ->
    find (match_ (selectedVariant ui) (selectedMeasurement ui))
         (lines_of u ui (cart_items st)) = None ->
    not_NaN (variantPriceOf (selectedVariant ui)) ->
    not_NaN (measurementPriceOf (selectedMeasurement ui)) ->
    truthy_num (vPrice (selectedVariant ui))
    || truthy_num (mPrice (selectedMeasurement ui)) = true ->
    exists items item,
      Checkout.cartQuery
        (Checkout.update_product (snd (addToCartMutation st ui)) pid p')
        (Some u)
      = Resolved items
      /\ In item items
      /\ id (row item) = next_id st
      /\ Checkout.pricePerLitre item
         = effectivePrice p (selectedVariant ui) (selectedMeasurement ui).
Proof.
  intros st ui u p pid p' U P M R F Nv Nm T.
  rewrite (addToCart_runs st ui u p U P M R), F. cbn [snd].
  unfold Checkout.cartQuery, Checkout.update_product.
  cbn [refuses cart_items catalog with_cart_items]. rewrite R.
  eexists. eexists {| row := newLine st u p ui; products := _ |}.
  split; [reflexivity |]. split.
  - apply in_map_iff. exists (newLine st u p ui). split; [reflexivity |].
    apply filter_In. split.
    + apply in_or_app. right. now left.
    + simpl. apply String.eqb_refl.
  - split; [reflexivity |].
    rewrite (effectivePrice_sum p _ _ T).
    rewrite vPrice_price_or_zero, mPrice_price_or_zero in *.
    rewrite newLine_price.
    + now rewrite (price_or_zero_num_or _ Nv), (price_or_zero_num_or _ Nm).
    + apply orb_true_iff in T. apply orb_true_iff.
      destruct T as [T | T]; [left | right]; now apply truthy_price_is_num.
Qed.

End PriceShownAndCharged.

(* ================================================================== *)
(** * What the parsers give *)
(* ================================================================== *)

Section ParserContracts.

Import ProductDetail.

Lemma filter_map_length {A B : Type} (f : A -> option B) (l : list A) :
  (List.length (filter_map f l) <= List.length l)%nat.
Proof.
  induction l as [| x l IH]; simpl; [lia |].
  destruct (f x); simpl; lia.
Qed.

(** X20: every option the variant parser gives has a trimmed label that is
    not empty, no empty image address and no [NaN] price; it gives at most
    one option for each raw value, and none when the raw value is not an
    array. *)
Theorem parseVariantOptions_contract :
  forall values : value,
    Forall normal_variant (parseVariantOptions values)
    /\ (List.length (parseVariantOptions values)
        <= match values with
           | VArr items => List.length items
           | _ => 0
           end)%nat.
Proof.
  intros values. split.
  - unfold parseVariantOptions. destruct values; try constructor.
    apply filter_map_Forall. exact parseVariantOption_normal.
  - unfold parseVariantOptions. destruct values; simpl; try lia.
    apply filter_map_length.
Qed.

(** X21: the measurement parser drops a string that is blank and gives an
    option for every other string, never failing: the option is the trimmed
    text as a label without a price, or it carries the label of the JSON
    object the text holds, with no price when the price of the object is
    falsy and [Number(price)] otherwise; its label is truthy either way. *)
Theorem parseMeasurementValue_of_string :
  forall s : string,
    (trim s = "" -> parseMeasurementValue (VStr s) = None)
    /\ (trim s <> "" ->
        exists o,
          parseMeasurementValue (VStr s) = Some o
          /\ truthy (mo_label o) = true
          /\ (o = {| mo_label := VStr (trim s); mo_price := None |}
              \/ exists parsed,
                  JSON_parse (trim s) = Some parsed
                  /\ mo_label o = get "label" parsed
                  /\ (mo_price o = None /\ truthy (get "price" parsed) = false
                      \/ ToNumber (get "price" parsed) = mo_price o
                         /\ mo_price o <> None))).
Proof.
  intros s. unfold parseMeasurementValue. split.
  - intros E. simpl. destruct (String.eqb_spec s "") as [-> | _]; simpl; [reflexivity |].
    rewrite E. reflexivity.
  - intros E. simpl.
    destruct (String.eqb_spec s "") as [-> | _]; [now destruct E |]. simpl.
    destruct (String.eqb_spec (trim s) "") as [E' | _]; [contradiction |].
    assert (P : exists o,
               Some {| mo_label := VStr (trim s); mo_price := None |} = Some o
               /\ truthy (mo_label o) = true
               /\ (o = {| mo_label := VStr (trim s); mo_price := None |}
                   \/ exists parsed,
                       JSON_parse (trim s) = Some parsed
                       /\ mo_label o = get "label" parsed
                       /\ (mo_price o = None /\ truthy (get "price" parsed) = false
                           \/ ToNumber (get "price" parsed) = mo_price o
                              /\ mo_price o <> None))).
    { eexists. split; [reflexivity |]. split; [| now left]. simpl.
      destruct (String.eqb_spec (trim s) ""); [contradiction | reflexivity]. }
    destruct ((startsWith "{" (trim s) || startsWith "[" (trim s))
              && includes "label" (trim s)); [| exact P].
    destruct (JSON_parse (trim s)) as [parsed |]; [| exact P].
    destruct (truthy parsed); simpl; [| exact P].
    destruct (truthy (get "label" parsed)) eqn:L; [| exact P].
    destruct (truthy (get "price" parsed)) eqn:T.
    + destruct (ToNumber (get "price" parsed)) as [p |] eqn:N; [| exact P].
      eexists. split; [reflexivity |]. split; [exact L |]. right.
      exists parsed. split; [reflexivity |]. split; [reflexivity |].
      right. simpl. split; [exact N | discriminate].
    + eexists. split; [reflexivity |]. split; [exact L |]. right.
      exists parsed. split; [reflexivity |]. split; [reflexivity |].
      left. split; [reflexivity | exact T].
Qed.

End ParserContracts.

(* ================================================================== *)
(** * The heart *)
(* ================================================================== *)

Section WishlistToggle.

Import Wishlist.

Lemma delete_taken (t : Table) (u p : string) :
  refusal t = None ->
  delete t u p
  = (None, {| rows := filter (fun r => negb (about u p r)) (rows t);
              next_key := next_key t;
              refusal := refusal t |}).
Proof. intros R. unfold delete. now rewrite R. Qed.

Lemma filter_filter_negb {A : Type} (f : A -> bool) (l : list A) :
  filter f (filter (fun r => negb (f r)) l) = [].
Proof.
  induction l as [| x l IH]; [reflexivity |].
  simpl. destruct (f x) eqn:E; simpl; [exact IH |]. now rewrite E.
Qed.

Lemma filter_idem {A : Type} (f : A -> bool) (l : list A) :
  filter f (filter f l) = filter f l.
Proof.
  induction l as [| x l IH]; [reflexivity |].
  simpl. destruct (f x) eqn:E; simpl; [| exact IH]. now rewrite E, IH.
Qed.

Lemma existsb_filter_nil {A : Type} (f : A -> bool) (l : list A) :
  existsb f l = false -> filter f l = [].
Proof.
  induction l as [| x l IH]; [reflexivity |].
  simpl. destruct (f x); [discriminate |]. exact IH.
Qed.

Lemma existsb_filter {A : Type} (f : A -> bool) (l : list A) :
  existsb f l = negb (match filter f l with [] => true | _ => false end).
Proof.
  induction l as [| x l IH]; [reflexivity |].
  simpl. destruct (f x); [reflexivity |]. exact IH.
Qed.

(** The state of the wishlist after a click that the store takes: the row
    for the user and the product is there exactly when the flag was off. *)
Lemma toggled_rows (t : Table) (u p : string) (isWishlisted : bool) :
  refusal t = None ->
  wished_once t u p ->
  let t' := if isWishlisted then snd (delete t u p) else snd (insert t u p) in
  wished t' u p = negb isWishlisted
  /\ isSome (fst (select_one t' u p)) = negb isWishlisted
  /\ wished_elsewhere t' u p = wished_elsewhere t u p
  /\ wished_once t' u p
  /\ refusal t' = None.
Proof.
  intros R O. unfold wished, wished_elsewhere, wished_once, select_one in *.
  destruct isWishlisted; cbv zeta.
  - rewrite (delete_taken t u p R). cbn [snd rows refusal]. rewrite R.
    rewrite filter_idem, existsb_filter, filter_filter_negb.
    repeat split; simpl; auto.
  - unfold insert. rewrite R.
    destruct (existsb (about u p) (rows t)) eqn:E; cbn [snd rows refusal].
    + rewrite ?R, E. rewrite existsb_filter in E.
      destruct (filter (about u p) (rows t)) as [| r [| r' rest]];
        [discriminate E | | simpl in O; lia].
      repeat split; simpl; auto.
    + rewrite ?R, existsb_app, E, !filter_app, (existsb_filter_nil _ _ E).
      unfold about at 1 2 3 4. cbn [existsb filter wish_user_id wish_product_id].
      rewrite !String.eqb_refl. cbn [andb orb negb app List.length].
      rewrite app_nil_r. repeat split; simpl; auto.
      destruct (about u p _); simpl; lia.
Qed.

(** X22: a click on the heart by a signed-in user, on the product page or
    on a product card, with a store that takes the request and holds at most
    one row for the user and the product: the flag becomes the opposite of
    what it was, the wishlist holds the product exactly when the new flag is
    on (whether or not the flag agreed with the wishlist before), the next
    [checkWishlist] gives the same flag, and the rest of the wishlist is as
    it was. *)
Theorem wishlist_toggle_resyncs :
  forall (t : Table) (user : User) (id : string) (isWishlisted : bool),
    refusal t = None ->
    wished_once t (uid user) id ->
    (forall page card : toast * Table * bool,
        page = ProductDetailWishlist.handleWishlistToggle t (Some user) id
                 isWishlisted ->
        card = ProductCard.handleWishlistToggle t (Some user) id isWishlisted ->
        snd page = negb isWishlisted
        /\ snd card = negb isWishlisted
        /\ snd (fst card) = snd (fst page)
        /\ wished (snd (fst page)) (uid user) id = snd page
        /\ ProductDetailWishlist.checkWishlist (snd (fst page)) user id = snd page
        /\ ProductCard.checkWishlist (snd (fst card)) user id = snd card
        /\ wished_elsewhere (snd (fst page)) (uid user) id
           = wished_elsewhere t (uid user) id
        /\ wished_once (snd (fst page)) (uid user) id).
Proof.
  intros t user id isWishlisted R O page card -> ->.
  pose proof (toggled_rows t (uid user) id isWishlisted R O) as H.
  cbv zeta in H. destruct H as [H1 [H2 [H3 [H4 _]]]].
  unfold ProductDetailWishlist.handleWishlistToggle,
    ProductCard.handleWishlistToggle,
    ProductDetailWishlist.checkWishlist, ProductCard.checkWishlist.
  destruct isWishlisted.
  - rewrite (delete_taken t (uid user) id R) in *. cbn [fst snd] in *.
    repeat split; assumption.
  - unfold insert in *. rewrite R in *.
    destruct (existsb (about (uid user) id) (rows t)); cbn [fst snd] in *;
      repeat split; assumption.
Qed.

(** X23: when the store refuses, the wishlist stays as it is and the flag
    is turned over all the same, on the product page (which announces a
    success) and on a product card (which announces the error): a flag that
    agreed with the wishlist does not agree any more.  A visitor who is not
    signed in changes neither. *)
Theorem wishlist_toggle_on_refusal :
  forall (t : Table) (user : User) (id : string) (isWishlisted : bool)
         (e : PostgrestError),
    refusal t = Some e ->
    ProductDetailWishlist.handleWishlistToggle t (Some user) id isWishlisted
    = (toast_success (if isWishlisted then "Removed from wishlist"
                      else "Added to wishlist"),
       t, negb isWishlisted)
    /\ ProductCard.handleWishlistToggle t (Some user) id isWishlisted
       = (toast_error (message_or e "Failed to update wishlist"),
          t, negb isWishlisted)
    /\ (wished t (uid user) id = isWishlisted ->
        wished t (uid user) id <> negb isWishlisted)
    /\ ProductDetailWishlist.handleWishlistToggle t None id isWishlisted
       = (toast_error "Please login to save to wishlist", t, isWishlisted)
    /\ ProductCard.handleWishlistToggle t None id isWishlisted
       = (toast_error "Please login to save to wishlist", t, isWishlisted).
Proof.
  intros t user id isWishlisted e R.
  unfold ProductDetailWishlist.handleWishlistToggle,
    ProductCard.handleWishlistToggle, delete, insert.
  rewrite R. destruct isWishlisted; cbn [snd negb].
  - repeat split; try reflexivity. intros ->. discriminate.
  - repeat split; try reflexivity. intros ->. discriminate.
Qed.

End WishlistToggle.

(* ================================================================== *)
(** * Reviews written and deleted *)
(* ================================================================== *)

Section ReviewsWritten.

Import Reviews.

Lemma trim_not_blank (s : string) : trim s <> "" -> trim (trim s) <> "".
Proof. now rewrite trim_idempotent. Qed.

(** X24: a review is added only by a signed-in user, with a rating that is
    not zero and a comment that is not blank, the three being tested in this
    order, and a refusal leaves the reviews as they are; otherwise the
    mutation returns, whatever the store does, and the reviews are then as
    they were or hold one more review: of this product, by this user, with
    the rating given and the comment trimmed.  When the user has reviewed
    the product already the mutation returns and the reviews are as they
    were. *)
Theorem addReview_contract :
  forall (t : Table) (user : option User) (id : string) (rating : number)
         (comment : string),
    (user = None ->
     addReviewMutation t user id rating comment = (threw "Please login", t))
    /\ (user <> None -> truthy_num rating = false ->
        addReviewMutation t user id rating comment
        = (threw "Please select a rating", t))
    /\ (user <> None -> truthy_num rating = true -> trim comment = "" ->
        addReviewMutation t user id rating comment
        = (threw "Please write a comment", t))
    /\ (forall message t',
           addReviewMutation t user id rating comment = (threw message, t') ->
           t' = t)
    /\ (forall u,
           user = Some u -> truthy_num rating = true -> trim comment <> "" ->
           exists t',
             addReviewMutation t user id rating comment = (returned, t')
             /\ (t' = t
                 \/ exists r,
                     rows t' = rows t ++ [r]
                     /\ reviews_of t id (uid u) = []
                     /\ review_product_id r = id
                     /\ review_user_id r = uid u
                     /\ review_rating r = rating
                     /\ review_comment r = trim comment
                     /\ trim (review_comment r) = review_comment r
                     /\ review_comment r <> "")
             /\ (reviews_of t id (uid u) <> [] -> t' = t)
             /\ (List.length (reviews_of t id (uid u)) <= 1 ->
                 List.length (reviews_of t' id (uid u)) <= 1)%nat).
Proof.
  intros t user id rating comment. unfold addReviewMutation.
  split; [now intros -> |].
  split; [intros U R; destruct user; [now rewrite R | congruence] |].
  split.
  { intros U R C. destruct user; [| congruence]. rewrite R, C. reflexivity. }
  split.
  { intros message t' E. destruct user; [| now inversion E].
    destruct (truthy_num rating); [| now inversion E].
    destruct (trim comment =? ""); [now inversion E | discriminate E]. }
  intros u -> R C. rewrite R. apply String.eqb_neq in C. rewrite C. cbn [negb].
  eexists. split; [reflexivity |]. unfold insert, reviews_of.
  destruct (refusal t) as [e |].
  { split; [now left |]. split; [reflexivity |]. intros L; exact L. }
  destruct (existsb _ (rows t)) eqn:E; cbn [orb].
  { split; [now left |]. split; [reflexivity |]. intros L; exact L. }
  pose proof (existsb_filter_nil _ _ E) as F.
  destruct (valid_rating rating); cbn [negb].
  - split.
    + right. eexists. split; [reflexivity |]. split; [exact F |].
      cbn [review_product_id review_user_id review_rating review_comment].
      repeat split; try reflexivity.
      * apply trim_idempotent.
      * now apply String.eqb_neq.
    + split.
      * intros N. now destruct N.
      * intros _. cbn [rows]. rewrite filter_app, F.
        cbn [filter review_product_id review_user_id app].
        rewrite !String.eqb_refl. simpl. lia.
  - split; [now left |]. split; [reflexivity |]. intros L; exact L.
Qed.

Lemma filter_others_delete (k : nat) (u : string) (l : list Review) :
  filter (fun r => negb (review_user_id r =? u))
         (filter (fun r => negb ((review_id r =? k)%nat && (review_user_id r =? u))) l)
  = filter (fun r => negb (review_user_id r =? u)) l.
Proof.
  induction l as [| r l IH]; [reflexivity |].
  simpl. destruct (review_user_id r =? u) eqn:E; simpl.
  - destruct (review_id r =? k)%nat; simpl; [exact IH |]. now rewrite E.
  - rewrite andb_false_r. simpl. rewrite E. simpl. now rewrite IH.
Qed.

(** X25: deleting a review never touches a review of another user, whatever
    key is given: the reviews of the others are as they were, in the same
    order; no review of the user with that key is left when the store takes
    the request; deleting it again changes nothing; and a visitor who is
    not signed in deletes nothing. *)
Theorem deleteReview_only_own :
  forall (t : Table) (user : option User) (reviewId : nat),
    (user = None ->
     deleteReviewMutation t user reviewId = (threw "Please login", t))
    /\ (forall u,
           user = Some u ->
           exists t',
             deleteReviewMutation t user reviewId = (returned, t')
             /\ reviews_by_others t' (uid u) = reviews_by_others t (uid u)
             /\ (forall r, In r (rows t') -> In r (rows t))
             /\ (refusal t = None ->
                 forall r, In r (rows t') ->
                           review_id r = reviewId -> review_user_id r <> uid u)
             /\ deleteReviewMutation t' user reviewId = (returned, t')).
Proof.
  intros t user reviewId. unfold deleteReviewMutation.
  split; [now intros -> |].
  intros u ->. eexists. split; [reflexivity |].
  unfold delete, reviews_by_others.
  destruct (refusal t) as [e |] eqn:R.
  { split; [reflexivity |]. split; [auto |]. split; [discriminate |].
    now rewrite ?R. }
  cbn [rows refusal]. rewrite ?R. split; [apply filter_others_delete |].
  split.
  { intros r I. apply filter_In in I. tauto. }
  split.
  { intros _ r I K U. apply filter_In in I. destruct I as [_ I].
    rewrite K, U, Nat.eqb_refl, String.eqb_refl in I. discriminate I. }
  f_equal. f_equal. apply filter_idem.
Qed.

End ReviewsWritten.

(* ================================================================== *)
(** * The name of the profile *)
(* ================================================================== *)

Section ProfileSaved.

Import Profile.

Lemma replace_name_others (u n : string) (l : list Row) :
  filter (fun r => negb (profile_user_id r =? u)) (replace_name u n l)
  = filter (fun r => negb (profile_user_id r =? u)) l.
Proof.
  induction l as [| r l IH]; [reflexivity |].
  simpl. destruct (profile_user_id r =? u) eqn:E; simpl.
  - rewrite String.eqb_refl. simpl. exact IH.
  - rewrite E. simpl. now rewrite IH.
Qed.

Lemma replace_name_keys (u n : string) (l : list Row) :
  map profile_user_id (replace_name u n l) = map profile_user_id l.
Proof.
  induction l as [| r l IH]; [reflexivity |].
  simpl. destruct (String.eqb_spec (profile_user_id r) u) as [E | E]; simpl.
  - now rewrite IH, E.
  - now rewrite IH.
Qed.

Lemma replace_name_absent (u n : string) (l : list Row) :
  ~ In u (map profile_user_id l) -> replace_name u n l = l.
Proof.
  induction l as [| r l IH]; [reflexivity |].
  simpl. intros N. destruct (String.eqb_spec (profile_user_id r) u) as [E | E].
  - destruct N. now left.
  - rewrite IH; [reflexivity |]. intros I. apply N. now right.
Qed.

Lemma filter_key_absent (u : string) (l : list Row) :
  ~ In u (map profile_user_id l) ->
  filter (fun r => profile_user_id r =? u) l = [].
Proof.
  induction l as [| r l IH]; [reflexivity |].
  simpl. intros N. destruct (String.eqb_spec (profile_user_id r) u) as [E | E].
  - destruct N. now left.
  - apply IH. intros I. apply N. now right.
Qed.

(** The row of the user after the name has been written. *)
Lemma replace_name_single (u n : string) (l : list Row) :
  NoDup (map profile_user_id l) ->
  In u (map profile_user_id l) ->
  filter (fun r => profile_user_id r =? u) (replace_name u n l)
  = [{| profile_user_id := u; full_name := Some n |}].
Proof.
  induction l as [| r l IH]; [intros _ [] |].
  simpl. intros N I. inversion N as [| k ks Nk Nl]; subst.
  destruct (String.eqb_spec (profile_user_id r) u) as [E | E]; simpl.
  - rewrite String.eqb_refl. f_equal. rewrite E in Nk.
    rewrite (replace_name_absent u n l Nk). now apply filter_key_absent.
  - destruct (String.eqb_spec (profile_user_id r) u) as [E' | _]; [contradiction |].
    apply IH; [exact Nl |]. destruct I as [I | I]; [contradiction | exact I].
Qed.

Lemma existsb_key (u : string) (l : list Row) :
  existsb (fun r => profile_user_id r =? u) l = true
  <-> In u (map profile_user_id l).
Proof.
  rewrite existsb_exists, in_map_iff. split.
  - intros [r [I E]]. exists r. apply String.eqb_eq in E. now split.
  - intros [r [E I]]. exists r. split; [exact I |]. now apply String.eqb_eq.
Qed.

Lemma upserted (t : Table) (u n : string) :
  refusal t = None ->
  NoDup (map profile_user_id (rows t)) ->
  exists t',
    upsert t u n = (None, t')
    /\ refusal t' = None
    /\ filter (fun r => profile_user_id r =? u) (rows t')
       = [{| profile_user_id := u; full_name := Some n |}]
    /\ profiles_of_others t' u = profiles_of_others t u
    /\ NoDup (map profile_user_id (rows t')).
Proof.
  intros R N. unfold upsert, profiles_of_others. rewrite R.
  eexists. split; [reflexivity |]. cbn [rows refusal].
  split; [reflexivity |].
  destruct (existsb _ (rows t)) eqn:E.
  - apply existsb_key in E. split; [now apply replace_name_single |].
    split; [apply replace_name_others |]. now rewrite replace_name_keys.
  - assert (A : ~ In u (map profile_user_id (rows t))).
    { intros I. apply existsb_key in I. congruence. }
    rewrite !filter_app, (filter_key_absent u _ A). simpl.
    rewrite String.eqb_refl. simpl. split; [reflexivity |].
    split; [apply app_nil_r |].
    rewrite map_app. simpl. now apply NoDup_snoc.
Qed.

(** X26: saving a name on the profile page.  A blank name is refused and
    nothing is written.  Otherwise, with a store that takes the request and
    holds one profile for a user at most, the name is written trimmed: the
    page leaves the editing mode, fetching the profile gives the trimmed
    name, the profiles of the other users are as they were, there is still
    one profile for a user at most, and saving the fetched name once more
    changes nothing.  When the store refuses, the page stays in the editing
    mode and shows the error. *)
Theorem handleSaveName_round_trip :
  forall (t : Table) (user : User) (fullName : string) (isEditing : bool),
    (trim fullName = "" ->
     handleSaveName t user fullName isEditing
     = (toast_error "Please enter a name", t, isEditing))
    /\ (forall e,
           trim fullName <> "" -> refusal t = Some e ->
           handleSaveName t user fullName isEditing
           = (toast_error (message_or e "Failed to update profile"), t, isEditing))
    /\ (trim fullName <> "" ->
        refusal t = None ->
        NoDup (map profile_user_id (rows t)) ->
        exists t',
          handleSaveName t user fullName isEditing
          = (toast_success "Profile updated successfully", t', false)
          /\ (forall held, fetchUserProfile t' user held = trim fullName)
          /\ profiles_of_others t' (uid user) = profiles_of_others t (uid user)
          /\ NoDup (map profile_user_id (rows t'))
          /\ (forall held,
                 handleSaveName t' user (fetchUserProfile t' user held) false
                 = (toast_success "Profile updated successfully", t', false))).
Proof.
  intros t user fullName isEditing. unfold handleSaveName.
  split; [intros ->; reflexivity |].
  split.
  { intros e C R. apply String.eqb_neq in C. rewrite C.
    unfold upsert. now rewrite R. }
  intros C R N. pose proof C as C'. apply String.eqb_neq in C'. rewrite C'.
  destruct (upserted t (uid user) (trim fullName) R N) as [t' [U [R' [F [O N']]]]].
  exists t'. rewrite U. split; [reflexivity |].
  assert (Fetch : forall held, fetchUserProfile t' user held = trim fullName).
  { intros held. unfold fetchUserProfile, select_single. rewrite R', F.
    cbn [fst full_name]. now rewrite C'. }
  split; [exact Fetch |]. split; [exact O |]. split; [exact N' |].
  intros held. rewrite Fetch, trim_idempotent, C'.
  unfold upsert. rewrite R'.
  assert (I : In (uid user) (map profile_user_id (rows t'))).
  { apply in_map_iff. exists {| profile_user_id := uid user;
                                full_name := Some (trim fullName) |}.
    split; [reflexivity |].
    assert (J : In {| profile_user_id := uid user;
                      full_name := Some (trim fullName) |}
                   (filter (fun r => profile_user_id r =? uid user) (rows t')))
      by (rewrite F; now left).
    apply filter_In in J. tauto. }
  replace (existsb _ (rows t')) with true by (symmetry; now apply existsb_key).
  f_equal. f_equal. destruct t' as [rs rf]. cbn [rows refusal] in *. subst rf.
  f_equal.
  clear - F N' I. induction rs as [| r rs IH]; [reflexivity |].
  simpl in *. inversion N' as [| k ks Nk Nl]; subst.
  destruct (String.eqb_spec (profile_user_id r) (uid user)) as [E | E].
  - rewrite E in Nk. injection F as Fr Frs.
    rewrite Fr. f_equal. now apply replace_name_absent.
  - f_equal. apply IH; [exact F | exact Nl |].
    destruct I as [I | I]; [contradiction | exact I].
Qed.

End ProfileSaved.

(* ================================================================== *)
(** * Related products shown *)
(* ================================================================== *)

Section RelatedShown.

Import RelatedProducts.

Variable newest_first : list ProductRow -> list ProductRow.

Hypothesis newest_first_permutes : forall l, Permutation (newest_first l) l.

Hypothesis newest_first_sorts : forall l, Sorted newer (newest_first l).

Lemma In_firstn {A : Type} (n : nat) (l : list A) (x : A) :
  In x (firstn n l) -> In x l.
Proof.
  revert l. induction n as [| n IH]; intros [| y l]; simpl; try tauto.
  intros [E | I]; [now left | right; now apply IH].
Qed.

Lemma Sorted_firstn {A : Type} (R : A -> A -> Prop) (n : nat) (l : list A) :
  Sorted R l -> Sorted R (firstn n l).
Proof.
  intros S. revert n. induction S as [| x l S IH H]; intros [| n]; simpl;
    try constructor.
  - apply IH.
  - destruct H as [| y l' Rxy]; destruct n; simpl; constructor. exact Rxy.
Qed.

Lemma NoDup_firstn {A : Type} (n : nat) (l : list A) :
  NoDup l -> NoDup (firstn n l).
Proof.
  intros N. revert n. induction N as [| x l Nx N IH]; intros [| n]; simpl;
    try constructor.
  - intros I. apply Nx. now apply (In_firstn n).
  - apply IH.
Qed.

Lemma NoDup_append {A : Type} (l1 l2 : list A) :
  NoDup l1 -> NoDup l2 -> (forall x, In x l1 -> ~ In x l2) -> NoDup (l1 ++ l2).
Proof.
  induction 1 as [| x l1 Nx N IH]; intros N2 D; [exact N2 |].
  simpl. constructor.
  - intros I. apply in_app_or in I. destruct I as [I | I]; [now apply Nx |].
    apply (D x); [now left | exact I].
  - apply IH; [exact N2 |]. intros y I. apply D. now right.
Qed.

Lemma firstn_short {A : Type} (n : nat) (l : list A) :
  (List.length (firstn n l) < n)%nat -> firstn n l = l.
Proof.
  intros L. apply firstn_all2. rewrite length_firstn in L. lia.
Qed.

Lemma in_newest_first (l : list ProductRow) (r : ProductRow) :
  In r (newest_first l) <-> In r l.
Proof.
  split; apply Permutation_in;
    [apply newest_first_permutes | apply Permutation_sym, newest_first_permutes].
Qed.

Lemma eligible_spec (id : string) (r : ProductRow) :
  eligible id r = true <-> row_is_active r = true /\ row_id r <> id.
Proof.
  unfold eligible. rewrite andb_true_iff, negb_true_iff, String.eqb_neq.
  destruct (row_is_active r); simpl; intuition congruence.
Qed.

Lemma in_category_spec (c : string) (r : ProductRow) :
  in_category c r = true <-> row_category_id r = Some c.
Proof.
  unfold in_category, opt_string_eq.
  destruct (row_category_id r) as [c' |]; [| split; discriminate].
  rewrite String.eqb_eq. split; congruence.
Qed.

Lemma in_other_category_spec (c : string) (r : ProductRow) :
  in_other_category c r = true <->
  row_category_id r <> None /\ row_category_id r <> Some c.
Proof.
  unfold in_other_category.
  destruct (row_category_id r) as [c' |].
  - rewrite negb_true_iff, String.eqb_neq. split.
    + intros N. split; congruence.
    + intros [_ N] E. apply N. now rewrite E.
  - split; [discriminate | intros [N _]; now destruct N].
Qed.

Lemma in_sameCategory (t : Table) (c id : string) (r : ProductRow) :
  In r (sameCategory newest_first t c id) ->
  In r (rows t) /\ row_category_id r = Some c
  /\ row_is_active r = true /\ row_id r <> id.
Proof.
  unfold sameCategory. intros I. apply In_firstn in I. apply (proj1 (in_newest_first _ _)) in I.
  apply filter_In in I. destruct I as [I F]. apply andb_true_iff in F.
  destruct F as [F1 F2]. apply in_category_spec in F1.
  apply eligible_spec in F2. tauto.
Qed.

Lemma in_others (t : Table) (c id : string) (n : nat) (r : ProductRow) :
  In r (others newest_first t c id n) ->
  In r (rows t) /\ row_category_id r <> None /\ row_category_id r <> Some c
  /\ row_is_active r = true /\ row_id r <> id.
Proof.
  unfold others. intros I. apply In_firstn in I. apply (proj1 (in_newest_first _ _)) in I.
  apply filter_In in I. destruct I as [I F]. apply andb_true_iff in F.
  destruct F as [F1 F2]. apply in_other_category_spec in F1.
  apply eligible_spec in F2. tauto.
Qed.

(** X27: the related products of a page.  There are six at most; each is
    an active product of the catalogue, other than the product of the page,
    and has a category; those of the category of the page come first and
    the others are asked for only when these are fewer than six; each of
    the two groups is in the order of the store, newest first; when fewer
    than six are shown, every active product with a category other than the
    product of the page is shown; and none is shown twice when the
    catalogue holds none twice. *)
Theorem relatedProducts_contract :
  forall (t : Table) (category_id id : string) (related : list ProductRow),
    category_id <> "" ->
    id <> "" ->
    relatedProducts newest_first t (Some category_id) (Some id) = Resolved related ->
    (List.length related <= 6)%nat
    /\ Forall (fun r => In r (rows t) /\ row_is_active r = true
                        /\ row_id r <> id /\ row_category_id r <> None) related
    /\ (exists same other,
           related = same ++ other
           /\ Forall (fun r => row_category_id r = Some category_id) same
           /\ Forall (fun r => row_category_id r <> Some category_id) other
           /\ Sorted newer same
           /\ Sorted newer other
           /\ (other <> [] -> (List.length same < 6)%nat))
    /\ ((List.length related < 6)%nat ->
        forall r,
          In r (rows t) -> row_is_active r = true -> row_id r <> id ->
          row_category_id r <> None -> In r related)
    /\ (NoDup (rows t) -> NoDup related).
Proof.
  intros t c id related Nc Ni H. unfold relatedProducts in H.
  destruct c as [| c0 c']; [now destruct Nc |].
  destruct id as [| i0 i']; [now destruct Ni |].
  cbn [str_or_null] in H.
  set (c := String c0 c') in *. set (id := String i0 i') in *.
  destruct (refusal t) as [e |]; [discriminate H |].
  cbv zeta in H.
  set (same := sameCategory newest_first t c id) in *.
  set (other := if (List.length same <? 6)%nat
                then others newest_first t c id (6 - List.length same)
                else []).
  assert (Ls : (List.length same <= 6)%nat) by apply firstn_le_length.
  assert (Lo : (List.length other <= 6 - List.length same)%nat).
  { unfold other. destruct (List.length same <? 6)%nat; [| simpl; lia].
    apply firstn_le_length. }
  assert (E : related = same ++ other).
  { unfold other in *. destruct (List.length same <? 6)%nat eqn:L.
    - set (rel := same ++ others newest_first t c id (6 - List.length same)) in *.
      assert (H' : firstn 6 rel = related) by congruence.
      rewrite <- H'. apply firstn_all2. unfold rel. rewrite length_app. lia.
    - assert (H' : firstn 6 same = related) by congruence.
      rewrite <- H', app_nil_r. apply firstn_all2. exact Ls. }
  clear H.
  assert (Is : forall r, In r same ->
                 In r (rows t) /\ row_category_id r = Some c
                 /\ row_is_active r = true /\ row_id r <> id)
    by (intros r; apply in_sameCategory).
  assert (Io : forall r, In r other ->
                 In r (rows t) /\ row_category_id r <> None
                 /\ row_category_id r <> Some c
                 /\ row_is_active r = true /\ row_id r <> id).
  { intros r. unfold other. destruct (List.length same <? 6)%nat; [| intros []].
    apply in_others. }
  split; [rewrite E, length_app; lia |].
  split.
  { rewrite E. apply Forall_forall. intros r I. apply in_app_or in I.
    destruct I as [I | I].
    - destruct (Is r I) as [I1 [I2 [I3 I4]]]. repeat split; try assumption.
      congruence.
    - destruct (Io r I) as [I1 [I2 [_ [I3 I4]]]]. now repeat split. }
  split.
  { exists same, other. split; [exact E |].
    split; [apply Forall_forall; intros r I; now apply Is |].
    split; [apply Forall_forall; intros r I; now apply Io |].
    split; [apply Sorted_firstn, newest_first_sorts |].
    split.
    - unfold other. destruct (List.length same <? 6)%nat; [| constructor].
      apply Sorted_firstn, newest_first_sorts.
    - unfold other. destruct (List.length same <? 6)%nat eqn:L.
      + intros _. now apply Nat.ltb_lt.
      + intros N. now destruct N. }
  split.
  { intros L r I A N C. rewrite E in *. rewrite length_app in L.
    assert (Lt : (List.length same <? 6)%nat = true) by (apply Nat.ltb_lt; lia).
    apply in_or_app.
    destruct (row_category_id r) as [c1 |] eqn:Cr; [| now destruct C].
    destruct (String.eqb_spec c1 c) as [Ec | Ec].
    - left. unfold same, sameCategory. rewrite firstn_short.
      + apply (proj2 (in_newest_first _ _)), filter_In. split; [exact I |].
        apply andb_true_iff. split.
        * apply in_category_spec. now rewrite Cr, Ec.
        * now apply eligible_spec.
      + fold (sameCategory newest_first t c id). fold same. lia.
    - right. unfold other in *. rewrite Lt in *. unfold others in *.
      rewrite firstn_short.
      + apply (proj2 (in_newest_first _ _)), filter_In. split; [exact I |].
        apply andb_true_iff. split.
        * apply in_other_category_spec. rewrite Cr. split; congruence.
        * now apply eligible_spec.
      + lia. }
  intros N. rewrite E. apply NoDup_append.
  - apply NoDup_firstn.
    apply (Permutation_NoDup (Permutation_sym (newest_first_permutes _))).
    now apply NoDup_filter.
  - unfold other. destruct (List.length same <? 6)%nat; [| constructor].
    apply NoDup_firstn.
    apply (Permutation_NoDup (Permutation_sym (newest_first_permutes _))).
    now apply NoDup_filter.
  - intros r I1 I2. destruct (Is r I1) as [_ [C1 _]].
    destruct (Io r I2) as [_ [_ [C2 _]]]. contradiction.
Qed.

End RelatedShown.

(* ================================================================== *)
(** * The names listed with the reviews *)
(* ================================================================== *)

Section NamesListed.

Import ReviewList.

Variable newest_first : list Reviews.Review -> list Reviews.Review.

Lemma lookup_set_prop (k k' : string) (v : value) (m : list (string * value)) :
  lookup k (set_prop k' v m) = if k =? k' then v else lookup k m.
Proof.
  induction m as [| [k0 v0] m IH]; simpl.
  - reflexivity.
  - destruct (String.eqb_spec k' k0) as [E | E]; simpl.
    + subst k0. destruct (k =? k'); reflexivity.
    + destruct (String.eqb_spec k k0) as [E0 | E0].
      * subst k0. destruct (String.eqb_spec k k') as [E1 | _]; [| reflexivity].
        now destruct E.
      * exact IH.
Qed.

(** What [profileMap] holds for a user: the name of the last profile of
    that user, if there is one. *)
Lemma lookup_profileMap (k : string) (profiles : list Profile.Row)
    (m : list (string * value)) :
  lookup k
    (fold_left (fun m p => set_prop (Profile.profile_user_id p) (name_of p) m)
               profiles m)
  = fold_left (fun v p => name_of p)
              (filter (fun p => Profile.profile_user_id p =? k) profiles)
              (lookup k m).
Proof.
  revert m. induction profiles as [| p profiles IH]; intros m; [reflexivity |].
  simpl. rewrite IH, lookup_set_prop.
  rewrite (String.eqb_sym k). now destruct (Profile.profile_user_id p =? k).
Qed.

Lemma filter_comm {A : Type} (f g : A -> bool) (l : list A) :
  filter f (filter g l) = filter g (filter f l).
Proof.
  induction l as [| x l IH]; [reflexivity |].
  simpl. destruct (f x) eqn:F, (g x) eqn:G; simpl; rewrite ?F, ?G, IH; reflexivity.
Qed.

Lemma filter_key_of_others (k u : string) (l : list Profile.Row) :
  k <> u ->
  filter (fun p => Profile.profile_user_id p =? k)
         (filter (fun r => negb (Profile.profile_user_id r =? u)) l)
  = filter (fun p => Profile.profile_user_id p =? k) l.
Proof.
  intros N. induction l as [| x l IH]; [reflexivity |].
  simpl. destruct (String.eqb_spec (Profile.profile_user_id x) u) as [E | E]; simpl.
  - destruct (String.eqb_spec (Profile.profile_user_id x) k) as [E' | _];
      [congruence | exact IH].
  - now rewrite IH.
Qed.

(** X28: the name saved on the profile page is the name the product page
    lists with the reviews of that user, trimmed, and the names listed with
    the reviews of the other users are as they were before; the reviews
    listed are the reviews of the product, in the order of the store. *)
Theorem saved_name_is_listed :
  forall (rt : Reviews.Table) (pt : Profile.Table) (user : User)
         (fullName id : string),
    trim fullName <> "" ->
    Profile.refusal pt = None ->
    NoDup (map Profile.profile_user_id (Profile.rows pt)) ->
    Reviews.refusal rt = None ->
    exists listed before,
      reviewsQuery newest_first rt (after_saving pt user fullName) id
      = Resolved listed
      /\ reviewsQuery newest_first rt pt id = Resolved before
      /\ map review listed
         = newest_first
             (filter (fun r => Reviews.review_product_id r =? id)
                     (Reviews.rows rt))
      /\ (forall l,
             In l listed ->
             Reviews.review_user_id (review l) = uid user ->
             listed_full_name l = VStr (trim fullName))
      /\ (forall l,
             In l listed ->
             Reviews.review_user_id (review l) <> uid user ->
             In l before).
Proof.
  intros rt pt user fullName id C R N Rr.
  unfold after_saving, Profile.handleSaveName.
  pose proof C as C'. apply String.eqb_neq in C'. rewrite C'.
  destruct (upserted pt (uid user) (trim fullName) R N) as [pt' [U [R' [F [O N']]]]].
  rewrite U. cbn [fst snd]. unfold reviewsQuery. rewrite Rr, R', R. cbv zeta.
  set (data := newest_first _).
  eexists. eexists. split; [reflexivity |]. split; [reflexivity |].
  split.
  { rewrite map_map. cbn [review]. apply map_id. }
  split.
  - intros l I Eu. apply in_map_iff in I. destruct I as [r [<- I]].
    cbn [review listed_full_name] in *.
    rewrite lookup_profileMap, filter_comm, Eu, F. cbn [filter].
    replace (existsb _ (map Reviews.review_user_id data)) with true.
    + reflexivity.
    + symmetry. apply existsb_exists. exists (uid user). split.
      * apply in_map_iff. exists r. now split.
      * cbn [Profile.profile_user_id]. apply String.eqb_refl.
  - intros l I Nu. apply in_map_iff in I. destruct I as [r [<- I]].
    cbn [review listed_full_name] in *.
    apply in_map_iff. exists r. split; [| exact I]. f_equal.
    rewrite !lookup_profileMap. f_equal.
    rewrite !(filter_comm (fun p => Profile.profile_user_id p =? _)).
    f_equal.
    rewrite <- (filter_key_of_others _ (uid user) (Profile.rows pt') Nu).
    rewrite <- (filter_key_of_others _ (uid user) (Profile.rows pt) Nu).
    unfold profiles_of_others in O. now rewrite O.
Qed.

End NamesListed.

(* ================================================================== *)
(** * The measurement shown in the cart *)
(* ================================================================== *)

Section ShownInCart.

Import ProductDetail.

(** X29: the cart page and the measurement parser read a stored text the
    same way.  For a text that is not blank the parser gives an option, and
    the cart page shows the label of that option; or the text holds no JSON
    object with a label, the cart page shows the text as it is stored and
    the label of the option is the text trimmed; or, last, the price of the
    JSON object cannot be made a number, the cart page shows the label of
    the object and the parser falls back on the trimmed text.  A value that
    is not a text is shown as it is stored. *)
Theorem shownMeasurement_agrees_with_parser :
  forall s : string,
    (trim s <> "" ->
     exists o,
       parseMeasurementValue (VStr s) = Some o
       /\ (Cart.shownMeasurement (VStr s) = mo_label o
           \/ (Cart.shownMeasurement (VStr s) = VStr s
               /\ mo_label o = VStr (trim s))
           \/ (exists parsed,
                  JSON_parse (trim s) = Some parsed
                  /\ truthy (get "price" parsed) = true
                  /\ ToNumber (get "price" parsed) = None
                  /\ Cart.shownMeasurement (VStr s) = get "label" parsed
                  /\ mo_label o = VStr (trim s))))
    /\ (forall v, is_string v = false -> Cart.shownMeasurement v = v).
Proof.
  intros s. split.
  2:{ intros v S. destruct v; try reflexivity. discriminate S. }
  intros E. unfold parseMeasurementValue, Cart.shownMeasurement. simpl.
  destruct (String.eqb_spec s "") as [-> | _]; [now destruct E |]. simpl.
  destruct (String.eqb_spec (trim s) "") as [E' | _]; [contradiction |].
  destruct ((startsWith "{" (trim s) || startsWith "[" (trim s))
            && includes "label" (trim s)).
  2:{ eexists. split; [reflexivity |]. right. left. now split. }
  destruct (JSON_parse (trim s)) as [parsed |].
  2:{ eexists. split; [reflexivity |]. right. left. now split. }
  destruct (truthy parsed && truthy (get "label" parsed)).
  2:{ eexists. split; [reflexivity |]. right. left. now split. }
  destruct (truthy (get "price" parsed)) eqn:T.
  - destruct (ToNumber (get "price" parsed)) as [p |] eqn:N.
    + eexists. split; [reflexivity |]. now left.
    + eexists. split; [reflexivity |]. right. right.
      exists parsed. now repeat split.
  - eexists. split; [reflexivity |]. now left.
Qed.

End ShownInCart.

(* ================================================================== *)
(** * An order placed twice *)
(* ================================================================== *)

Section OrderedTwice.

Import Checkout.
Local Open Scope float_scope.

Lemma placeOrderMutation_resolved (st : Store) (ui : State) (orderNumber : string)
    (order : Order) (st' : Store) :
  placeOrderMutation st ui orderNumber = (Resolved order, st') ->
  exists u item items,
    user ui = Some u
    /\ checkoutSchema (address ui) = true
    /\ cartItems ui = Some (item :: items)
    /\ refuses st t_orders = None
    /\ refuses st t_order_items = None.
Proof.
  unfold placeOrderMutation, createSupabaseOrder, insert_order, insert_order_items.
  destruct (user ui) as [u |]; [| intros E; discriminate E].
  destruct (checkoutSchema (address ui)); [| intros E; discriminate E].
  cbn [negb].
  destruct (cartItems ui) as [[| item items] |]; try (intros E; discriminate E).
  destruct (refuses st t_orders); [intros E; discriminate E |].
  cbn [refuses].
  destruct (refuses st t_order_items); [intros E; discriminate E |].
  intros _. exists u, item, items. now repeat split.
Qed.

Lemma placeOrderMutation_runs (st : Store) (ui : State) (orderNumber : string)
    (u : User) (item : CartItem) (items : list CartItem) :
  user ui = Some u ->
  checkoutSchema (address ui) = true ->
  cartItems ui = Some (item :: items) ->
  refuses st t_orders = None ->
  refuses st t_order_items = None ->
  let order :=
    {| order_id := next_id st;
       order_user_id := uid u;
       order_number := orderNumber;
       total_amount := subtotal (cartItems ui);
       discount_amount := discount (appliedCoupon ui) (subtotal (cartItems ui));
       final_amount := total ui;
       coupon_code := option_map code (appliedCoupon ui);
       shipping_address := address ui;
       status := "pending";
       payment_status := "pending" |} in
  placeOrderMutation st ui orderNumber
  = (Resolved order,
     {| catalog := catalog st;
        coupons := coupons st;
        cart_items := cart_items st;
        orders := orders st ++ [order];
        order_items := order_items st ++ map (orderItem order) (item :: items);
        next_id := S (next_id st);
        refuses := refuses st |}).
Proof.
  intros U A C Ro Ri. cbv zeta.
  unfold placeOrderMutation, createSupabaseOrder, insert_order, insert_order_items.
  rewrite U, A. cbn [negb].
  set (s := subtotal (cartItems ui)). set (tt := total ui).
  rewrite C, Ro. cbn [refuses catalog coupons cart_items orders order_items
                      next_id order_id order_user_id order_number total_amount
                      discount_amount final_amount coupon_code shipping_address
                      status payment_status].
  rewrite Ri. reflexivity.
Qed.

Lemma placeOrderMutation_refused (st : Store) (ui : State) (orderNumber : string)
    (u : User) (item : CartItem) (items : list CartItem) (e : PostgrestError) :
  user ui = Some u ->
  checkoutSchema (address ui) = true ->
  cartItems ui = Some (item :: items) ->
  refuses st t_orders = Some e ->
  placeOrderMutation st ui orderNumber = (Rejected (StoreError e), st).
Proof.
  intros U A C Ro.
  unfold placeOrderMutation, createSupabaseOrder, insert_order.
  rewrite U, A. cbn [negb].
  rewrite C, Ro. reflexivity.
Qed.

(** X30: nothing on the page keeps an order from being placed twice.  When
    placing the order has succeeded, the cart is still there, and placing
    it again from the same page goes as the store will have it.  Under an
    order number that no stored order carries and with a store that takes
    both inserts again, a second order is written after the first, with
    the next key, the same amounts, coupon and address, and as many lines
    again, and the order numbers are still unique.  When the store refuses
    the second order, as [UNIQUE (order_number)] makes it do for a number
    that is stored already, the mutation is rejected with the error of the
    store and nothing is written. *)
Theorem placeOrderMutation_twice :
  forall (st st1 : Store) (ui : State) (first second : string) (order1 : Order)
         (later : table -> option PostgrestError),
    placeOrderMutation st ui first = (Resolved order1, st1) ->
    unique_order_numbers st1 ->
    (later t_orders = None ->
     later t_order_items = None ->
     ~ In second (map order_number (orders st1)) ->
     exists order2 st2,
       placeOrderMutation (answering later st1) ui second = (Resolved order2, st2)
       /\ orders st2 = orders st ++ [order1; order2]
       /\ order_id order2 = S (order_id order1)
       /\ order_number order2 = second
       /\ second <> first
       /\ unique_order_numbers st2
       /\ total_amount order2 = total_amount order1
       /\ discount_amount order2 = discount_amount order1
       /\ final_amount order2 = final_amount order1
       /\ coupon_code order2 = coupon_code order1
       /\ shipping_address order2 = shipping_address order1
       /\ cart_items st2 = cart_items st
       /\ (forall items,
              cartItems ui = Some items ->
              order_items st2 = order_items st1 ++ map (orderItem order2) items))
    /\ (forall e,
          later t_orders = Some e ->
          placeOrderMutation (answering later st1) ui second
          = (Rejected (StoreError e), answering later st1)).
Proof.
  intros st st1 ui first second order1 later H Uq.
  destruct (placeOrderMutation_resolved _ _ _ _ _ H)
    as [u [item [items [U [A [C [Ro Ri]]]]]]].
  rewrite (placeOrderMutation_runs st ui first u item items U A C Ro Ri) in H.
  cbv zeta in H. injection H as <- <-.
  split.
  - intros Lo Li Fresh.
    eexists. eexists. split.
    { match goal with
      | |- context [placeOrderMutation ?s ui second] =>
          rewrite (placeOrderMutation_runs s ui second u item items U A C Lo Li)
      end.
      reflexivity. }
    unfold unique_order_numbers in *.
    cbn [answering orders order_id order_number total_amount discount_amount
         final_amount coupon_code shipping_address cart_items next_id
         order_items] in *.
    split; [now rewrite <- app_assoc |].
    do 2 (split; [reflexivity |]).
    split.
    { intros E. apply Fresh. rewrite map_app, in_app_iff. right. left.
      simpl. now symmetry. }
    split.
    { rewrite map_app. simpl. now apply NoDup_snoc. }
    do 6 (split; [reflexivity |]).
    intros items' C'. rewrite C in C'. injection C' as <-. reflexivity.
  - intros e Lo.
    now apply (placeOrderMutation_refused _ ui second u item items e U A C).
Qed.

End OrderedTwice.

(* ================================================================== *)
(** * Further samples *)
(* ================================================================== *)

Section FurtherSamples.

Import ProductDetail.
Local Open Scope float_scope.

(** The colour stored as text comes out of a first pass as [{ label }], and
    of a second pass as [{ label, image_url: null }]; the one stored as an
    object is complete after the first pass. *)
Lemma parseVariantOptions_second_pass_witness :
  parseVariantOptionsObjects colours
  = [VObj [("label", VStr "Red")];
     VObj [("label", VStr "Blue"); ("image_url", VNull); ("price", VNum 5)]]
  /\ parseVariantOptionsObjects (VArr (parseVariantOptionsObjects colours))
     = [VObj [("label", VStr "Red"); ("image_url", VNull)];
        VObj [("label", VStr "Blue"); ("image_url", VNull); ("price", VNum 5)]]
  /\ parseVariantOptionsObjects
       (VArr (parseVariantOptionsObjects
                (VArr (parseVariantOptionsObjects colours))))
     = parseVariantOptionsObjects (VArr (parseVariantOptionsObjects colours))
  /\ parseVariantOptions (VArr (parseVariantOptionsObjects colours))
     = [{| vo_label := "Red"; vo_image_url := None; vo_price := None |};
        {| vo_label := "Blue"; vo_image_url := None; vo_price := Some 5 |}].
Proof.
  destruct (parseVariantOptions_second_pass colours) as (_ & S2 & S3 & T & _).
  split; [reflexivity |].
  split; [rewrite S2; reflexivity |].
  split; [exact S3 |].
  rewrite T. reflexivity.
Defined.

(** SAVE10 capped at 15 on a subtotal of 200: the ten per cent would be 20,
    the discount is the cap. *)
Lemma discount_within_cap_witness :
  Checkout.discount (Some save10_cap15) 200 = 15
  /\ PrimFloat.leb (Checkout.discount (Some save10_cap15) 200) 15 = true.
Proof.
  split; [reflexivity |].
  exact (proj2 (discount_within_cap save10_cap15 200 15 eq_refl eq_refl eq_refl)
               eq_refl).
Defined.

(** Placing the order of the two lines leaves the cart as it was. *)
Lemma createSupabaseOrder_frame_witness :
  cart_items (snd (Checkout.createSupabaseOrder stocked checkout_150 "ORD-1-7"))
  = cart_items stocked.
Proof.
  exact (proj1 (proj2 (proj2
           (createSupabaseOrder_frame stocked checkout_150 "ORD-1-7" _ _
              (surjective_pairing _))))).
Defined.

(** SAVE10 typed in lower case is applied: it is stored in upper case. *)
Lemma applyCoupon_sound_witness :
  Checkout.applyCouponMutation (shop [save10] healthy) checkout_50 2000
  = Resolved save10
  /\ code save10 = toUpperCase (Checkout.couponCode checkout_50).
Proof.
  split; [reflexivity |].
  destruct (applyCoupon_sound (shop [save10] healthy) checkout_50 2000 save10
              eq_refl) as [_ [_ [_ [H _]]]].
  exact H.
Defined.

(** The same coupon stored in lower case is not applied, though the text
    typed is its code letter for letter. *)
Lemma applyCoupon_never_lower_case_witness :
  has_lower (code save10_lower) = true
  /\ Checkout.couponCode checkout_50 = code save10_lower
  /\ Checkout.applyCouponMutation (shop [save10_lower] healthy) checkout_50 2000
     <> Resolved save10_lower.
Proof.
  split; [reflexivity |]. split; [reflexivity |].
  exact (applyCoupon_never_lower_case (shop [save10_lower] healthy) checkout_50
           2000 save10_lower eq_refl).
Defined.

(** Red paint added twice: one line, of quantity 2. *)
Lemma addToCart_again_merges_witness :
  map quantity_litres
      (cart_items
         (snd (addToCartMutation
                 (snd (addToCartMutation (shop [] healthy) (paint_page "Red")))
                 (paint_page "Red"))))
  = [2].
Proof.
  rewrite (addToCart_again_merges (shop [] healthy) (paint_page "Red")
             (paint_page "Red") {| uid := "u1" |} paint
             eq_refl eq_refl eq_refl eq_refl eq_refl
             (Forall_nil _) eq_refl eq_refl eq_refl eq_refl eq_refl eq_refl).
  reflexivity.
Defined.

(** With a store that refuses the cart, add-to-cart resolves all the same. *)
Lemma addToCart_swallows_store_error_witness :
  refuses (shop [] cart_refused) t_cart_items <> None
  /\ addToCartMutation (shop [] cart_refused) (sesame_page 2)
     = (Resolved tt, shop [] cart_refused).
Proof.
  split; [discriminate |].
  exact (addToCart_swallows_store_error (shop [] cart_refused) (sesame_page 2)
           {| uid := "u1" |} sesame _ eq_refl eq_refl eq_refl eq_refl).
Defined.

(** Red and then blue paint: two lines, with two keys. *)
Lemma addToCart_keeps_cart_key_unique_witness :
  NoDup
    (map cart_key
       (cart_items
          (snd (addToCartMutation
                  (snd (addToCartMutation (shop [] healthy) (paint_page "Red")))
                  (paint_page "Blue"))))).
Proof.
  apply addToCart_keeps_cart_key_unique; [| reflexivity].
  apply addToCart_keeps_cart_key_unique; [| reflexivity].
  constructor.
Defined.

(** A page that holds the colour blue and receives its product: the first
    colour is selected. *)
Lemma selection_after_effects_witness :
  product (paint_page "Blue") = Some paint
  /\ selectedVariant (runEffects true true true (paint_page "Blue"))
     = Some {| vo_label := "Red"; vo_image_url := None; vo_price := None |}
  /\ selectionMissing (runEffects true true true (paint_page "Blue")) paint
     = false
  /\ (forall st,
         fst (addToCartMutation st (runEffects true true true (paint_page "Blue")))
         = Resolved tt)
  /\ selectedVariant (runEffects true false false (paint_page "Blue")) = None
  /\ (forall st,
         addToCartMutation st (runEffects true false false (paint_page "Blue"))
         = (Rejected (PleaseSelect (Some "Colour")), st)).
Proof.
  split; [reflexivity |].
  destruct (selection_after_effects (paint_page "Blue") paint eq_refl)
    as [H _].
  destruct (H true true) as (V1 & _ & M1 & A1 & _).
  destruct (H false false) as (V0 & _ & _ & _ & R0 & _).
  split; [rewrite V1; reflexivity |].
  split; [rewrite M1; reflexivity |].
  split; [intros st; apply (A1 st {| uid := "u1" |}); reflexivity |].
  split; [rewrite V0; reflexivity |].
  intros st. apply (R0 st {| uid := "u1" |}); reflexivity.
Defined.

(** A shirt in size M is shown at 100 and charged at 100 after the catalogue
    has put the shirt at 900. *)
Lemma price_shown_is_price_charged_witness :
  effectivePrice shirt None (Some size_M) = 100
  /\ exists items item,
      Checkout.cartQuery
        (Checkout.update_product
           (snd (addToCartMutation (shop [] healthy) shirt_page))
           "p1" (plain_product "Shirt" 900))
        (Some {| uid := "u1" |})
      = Resolved items
      /\ In item items
      /\ id (row item) = 1%nat
      /\ Checkout.pricePerLitre item = effectivePrice shirt None (Some size_M).
Proof.
  split; [reflexivity |].
  apply (price_shown_is_price_charged (shop [] healthy) shirt_page
           {| uid := "u1" |} shirt "p1" (plain_product "Shirt" 900));
    try reflexivity.
  - intros x E. discriminate E.
  - intros x E. injection E as <-. reflexivity.
Defined.

(** The line of size L is charged what the product page shows for size L. *)
Lemma pricePerLitre_effectivePrice_witness :
  Checkout.pricePerLitre size_L_line = 120
  /\ Checkout.pricePerLitre size_L_line
     = effectivePrice shirt
         (Some {| vo_label := "-"; vo_image_url := None; vo_price := None |})
         (Some {| mo_label := VStr "L"; mo_price := Some 120 |}).
Proof.
  split; [reflexivity |].
  apply (pricePerLitre_effectivePrice size_L_line shirt "-" (VStr "L")).
  - reflexivity.
  - intros x E. discriminate E.
  - intros x E. injection E as <-. reflexivity.
  - left. reflexivity.
Defined.

(** The line of size L is found by the selection of size L, whatever its
    price. *)
Lemma match_bare_labels_witness :
  match_ None
    (option_map (fun s => {| mo_label := VStr s; mo_price := Some 150 |})
                (Some "L"))
    (row size_L_line)
  = true.
Proof.
  apply (match_bare_labels None (Some "L") (Some 150) (row size_L_line)
           (Some "L") eq_refl).
  split; reflexivity.
Defined.

(** Two raw measurements without a [NaN] price are parsed to the same
    options the second time. *)
Lemma measurementValues_idempotent_witness :
  measurementValues (VArr [VStr " 1L "; VStr (json_option "M" "100")])
  = [{| mo_label := VStr "1L"; mo_price := None |}; size_M]
  /\ measurementValues
       (VArr (map MeasurementOption_value
                  (measurementValues
                     (VArr [VStr " 1L "; VStr (json_option "M" "100")]))))
     = measurementValues (VArr [VStr " 1L "; VStr (json_option "M" "100")]).
Proof.
  assert (E : measurementValues (VArr [VStr " 1L "; VStr (json_option "M" "100")])
              = [{| mo_label := VStr "1L"; mo_price := None |}; size_M])
    by reflexivity.
  split; [exact E |].
  apply measurementValues_idempotent_without_NaN. rewrite E.
  repeat constructor.
  - intros x H. discriminate H.
  - intros x H. injection H as <-. reflexivity.
Defined.

(** Removing the line of sesame oil just added empties the cart again. *)
Lemma removeItem_undoes_insert_witness :
  exists st',
    Cart.removeItemMutation
      (snd (addToCartMutation (shop [] healthy) (sesame_page 2))) 1
    = (Resolved tt, st')
    /\ cart_items st' = [].
Proof.
  exact (removeItem_undoes_insert (shop [] healthy) (sesame_page 2)
           {| uid := "u1" |} sesame eq_refl eq_refl eq_refl eq_refl eq_refl
           (Forall_nil _)).
Defined.

End FurtherSamples.

Section SortedByTheStore.

Import RelatedProducts.

Lemma mergesort_permutes :
  forall l : list ProductRow, Permutation (NewestFirstSort.sort l) l.
Proof. intros l. apply Permutation_sym, NewestFirstSort.Permuted_sort. Qed.

Lemma mergesort_sorts :
  forall l : list ProductRow, Sorted newer (NewestFirstSort.sort l).
Proof.
  intros l. pose proof (NewestFirstSort.Sorted_sort l) as S.
  induction S as [| x l' S IH H]; constructor; [exact IH |].
  destruct H as [| y l'' Rxy]; constructor.
  unfold newer. apply Z.leb_le. exact Rxy.
Qed.

End SortedByTheStore.

Section SamplesOfTheOtherPages.

Local Open Scope float_scope.

(** Text outside ASCII: a code with an accent is looked up in upper case,
    the spaces of Unicode are trimmed, a comment or a name made of them is
    blank, and an address is measured in UTF-16 code units. *)
Example applyCoupon_accented :
  Js.toUpperCase "café10" = "CAFÉ10"
  /\ Js.toUpperCase "straße" = "STRASSE"
  /\ Checkout.applyCouponMutation (shop [cafe10] healthy) checkout_cafe 2000
     = Resolved cafe10.
Proof. repeat split; reflexivity. Qed.

Example trim_spaces_of_Unicode :
  Js.trim (no_break_space ++ " Asha" ++ ideographic_space) = "Asha"
  /\ Js.trim (no_break_space ++ ideographic_space) = ""
  /\ fst (Reviews.addReviewMutation review_book (Some {| uid := "u3" |}) "p1" 5
            no_break_space)
     = Reviews.threw "Please write a comment"
  /\ fst (fst (Profile.handleSaveName profiles {| uid := "u1" |}
                 ideographic_space true))
     = toast_error "Please enter a name".
Proof. repeat split; reflexivity. Qed.

Example address_in_code_units :
  String.length "Élysée 12" = 11%nat
  /\ Js.utf16_length "Élysée 12" = 9%nat
  /\ Checkout.checkoutSchema "Élysée 12" = false
  /\ Checkout.checkoutSchema "Élysée 123" = true.
Proof. repeat split; reflexivity. Qed.

(** A heart that is off although the wishlist holds the product: the click
    turns it on, and the wishlist holds the product. *)
Lemma wishlist_toggle_resyncs_witness :
  wished (wishes None) "u1" "p1" = true
  /\ snd (ProductCard.handleWishlistToggle (wishes None)
            (Some {| uid := "u1" |}) "p1" false) = true
  /\ wished
       (snd (fst (ProductDetailWishlist.handleWishlistToggle (wishes None)
                    (Some {| uid := "u1" |}) "p1" false)))
       "u1" "p1"
     = true.
Proof.
  split; [reflexivity |].
  destruct (wishlist_toggle_resyncs (wishes None) {| uid := "u1" |} "p1" false
              eq_refl (le_n 1) _ _ eq_refl eq_refl)
    as [_ [H2 [_ [H4 _]]]].
  split; [exact H2 | exact H4].
Defined.

(** The same heart, on, with a store that refuses: the card shows the error,
    turns the heart off, and the wishlist still holds the product. *)
Lemma wishlist_toggle_on_refusal_witness :
  ProductCard.handleWishlistToggle (wishes (Some policy_violation))
    (Some {| uid := "u1" |}) "p1" true
  = (toast_error "new row violates row-level security policy",
     wishes (Some policy_violation), false)
  /\ wished (wishes (Some policy_violation)) "u1" "p1" = true.
Proof.
  split; [| reflexivity].
  exact (proj1 (proj2 (wishlist_toggle_on_refusal (wishes (Some policy_violation))
                         {| uid := "u1" |} "p1" true policy_violation eq_refl))).
Defined.

(** A name saved with spaces around it comes back without them. *)
Lemma handleSaveName_witness :
  exists t',
    Profile.handleSaveName profiles {| uid := "u1" |} "  Asha  " true
    = (toast_success "Profile updated successfully", t', false)
    /\ Profile.fetchUserProfile t' {| uid := "u1" |} "  Asha  " = "Asha".
Proof.
  destruct (proj2 (proj2 (handleSaveName_round_trip profiles {| uid := "u1" |}
                            "  Asha  " true)))
    as [t' [H1 [H2 _]]].
  - discriminate.
  - reflexivity.
  - repeat constructor; simpl; intuition discriminate.
  - exists t'. split; [exact H1 | exact (H2 _)].
Defined.

(** The related products of [p1]: its two active neighbours of the same
    category, the newer first, then the product of the other category; the
    product without a category and the one that is not active are not
    shown. *)
Lemma relatedProducts_witness :
  exists related,
    RelatedProducts.relatedProducts NewestFirstSort.sort shelf
      (Some "c1") (Some "p1")
    = Resolved related
    /\ map RelatedProducts.row_id related = ["p3"; "p2"; "p5"]
    /\ (List.length related <= 6)%nat.
Proof.
  eexists. split; [reflexivity |]. split; [reflexivity |].
  refine (proj1 (relatedProducts_contract NewestFirstSort.sort
                   mergesort_permutes mergesort_sorts shelf "c1" "p1" _ _ _
                   eq_refl)); discriminate.
Defined.

(** The review of [u1] is listed with the name [u1] has just saved, the
    review of [u2] with no name, as before. *)
Lemma saved_name_is_listed_witness :
  exists listed,
    ReviewList.reviewsQuery (fun l => l) review_book
      (after_saving profiles {| uid := "u1" |} "  Asha  ") "p1"
    = Resolved listed
    /\ map ReviewList.listed_full_name listed = [VStr "Asha"; VNull]
    /\ forall l,
        In l listed ->
        Reviews.review_user_id (ReviewList.review l) = "u1" ->
        ReviewList.listed_full_name l = VStr "Asha".
Proof.
  destruct (saved_name_is_listed (fun l => l) review_book profiles
              {| uid := "u1" |} "  Asha  " "p1")
    as [listed [before [H1 [_ [_ [H4 _]]]]]].
  - discriminate.
  - reflexivity.
  - repeat constructor; simpl; intuition discriminate.
  - reflexivity.
  - exists listed. split; [exact H1 |]. split; [| exact H4].
    assert (E : Resolved listed
                = ReviewList.reviewsQuery (fun l => l) review_book
                    (after_saving profiles {| uid := "u1" |} "  Asha  ") "p1")
      by (symmetry; exact H1).
    vm_compute in E. injection E as ->. reflexivity.
Defined.

(** The order of the two lines placed twice: two orders of 130, and four
    order lines. *)
Lemma placeOrderMutation_twice_witness :
  (exists order2 st2,
      Checkout.placeOrderMutation
        (answering healthy
           (snd (Checkout.placeOrderMutation stocked checkout_150 "ORD-1-7")))
        checkout_150 "ORD-2-9"
      = (Resolved order2, st2)
      /\ map order_number (orders st2) = ["ORD-1-7"; "ORD-2-9"]
      /\ map final_amount (orders st2) = [130; 130]
      /\ List.length (order_items st2) = 4%nat)
  /\ Checkout.placeOrderMutation
       (answering (fun _ => Some policy_violation)
          (snd (Checkout.placeOrderMutation stocked checkout_150 "ORD-1-7")))
       checkout_150 "ORD-1-7"
     = (Rejected (StoreError policy_violation),
        answering (fun _ => Some policy_violation)
          (snd (Checkout.placeOrderMutation stocked checkout_150 "ORD-1-7"))).
Proof.
  assert (Uq : unique_order_numbers
                 (snd (Checkout.placeOrderMutation stocked checkout_150 "ORD-1-7"))).
  { unfold unique_order_numbers. vm_compute.
    constructor; [intros [] | constructor]. }
  split.
  - destruct (placeOrderMutation_twice stocked _ checkout_150 "ORD-1-7" "ORD-2-9"
                _ healthy eq_refl Uq) as [Again _].
    destruct Again as [order2 [st2 [H _]]]; [reflexivity | reflexivity | |].
    + vm_compute. intros [E | []]. discriminate E.
    + exists order2, st2. split; [exact H |].
      vm_compute in H. injection H as _ <-. repeat split; reflexivity.
  - destruct (placeOrderMutation_twice stocked _ checkout_150 "ORD-1-7" "ORD-1-7"
                _ (fun _ => Some policy_violation) eq_refl Uq) as [_ Refused].
    apply (Refused policy_violation). reflexivity.
Defined.

(** A stored text that holds a JSON object is shown by its label, the label
    the parser gives. *)
Lemma shownMeasurement_witness :
  Cart.shownMeasurement (VStr (json_option "M" "100")) = VStr "M"
  /\ exists o,
      ProductDetail.parseMeasurementValue (VStr (json_option "M" "100")) = Some o
      /\ mo_label o = VStr "M".
Proof.
  split; [reflexivity |].
  destruct (proj1 (shownMeasurement_agrees_with_parser (json_option "M" "100")))
    as [o [H _]].
  - intros E. vm_compute in E. discriminate E.
  - exists o. split; [exact H |]. vm_compute in H. injection H as <-. reflexivity.
Defined.

End SamplesOfTheOtherPages.
